(* ===== verification/_CoqProject ===== *)
-Q . S2P
Prelude.v
PhilError.v
XTypes.v
Intern.v
Codec.v
Negotiate.v
Payload.v
EventType.v
HitTest.v
Session.v
Peer.v
Process.v
System.v
