(* ===== verification/Prelude.v ===== *)
(** * A verification development for xlib_xdnd

    xlib_xdnd (src/) is a demonstration of the XDND drag-and-drop
    protocol written against Xlib.  [main] (src/main.c) forks; parent and
    child each run [spawnWindow] (src/spawn_window.c), which opens a
    200x200 window holding a draggable square and then loops over
    [XNextEvent].  All protocol logic lives in the [switch] of that event
    loop and in a handful of static helpers of the same file:

    - the per-process session record [XDNDStateMachine xdndState]
      (flags, timestamps, role, peer window, negotiated action/type);
    - six message senders [sendXdndEnter] .. [sendXdndFinished], each
      guarded by the session flags, building a 5-slot ClientMessage;
    - type negotiation: [doWeAcceptAtom], [getSupportedType] and the
      inline loop of the XdndEnter handler;
    - payload transfer: [sendSelectionNotify] (source side, writes
      ["file://" ++ path ++ CRLF] into the requestor's property),
      [getCopiedData] (target side, strips the framing) and
      [saveSquareState]/[restoreSquareState] (src/square_state.c, the
      colour written to and read back from "/tmp/square.state");
    - hit-testing: [getWindowPointerIsOver] and
      [hasCorrectXdndAwareProperty];
    - the event handlers of the [switch] for SelectionRequest,
      SelectionNotify, MotionNotify, KeyRelease, ButtonPress,
      ButtonRelease, Expose, EnterNotify, LeaveNotify and ClientMessage.

    The two processes share no memory: they interact only through the X
    server (ClientMessages sent with [XSendEvent], the XdndSelection
    owner, window properties, [XConvertSelection]) and through the file
    "/tmp/square.state" of the machine they both run on.

    ** Layout of the development (library root: this directory)

    - [Prelude] (this file): the outcome type of a C computation that may
      exit ([philError]) or hit undefined behaviour, the state/writer/
      error monad in which handlers are written (scope [xdnd_scope]), the
      C integer conversions ([to_int], [to_long], [to_ulong], the 32-bit
      wire of a format-32 ClientMessage), the hint databases [xdnd] and
      [xdnd_rw], and the generic lemmas on these.
    - [PhilError]: [philErrorCore], [philErrorMsg] and [philError] of
      src/phil_error.c on [errno] and the text written to [stderr], and
      [philError] shown to be the [Exit] outcome the handlers return.
    - [XTypes]: the Xlib data the program uses: [Window], [Atom], [Time]
      as [Z]; the interned atoms as a record [Atoms] with its
      well-formedness [atoms_wf] (decided by [atoms_wfb]) and the
      interning [std_atoms] of a fresh server; [XClientMessageEvent]; the
      [XEvent] variants
      of the switch; the X requests a handler issues ([XRequest]); the
      read-only view of the server a handler queries ([XView]); the
      [Square] struct of src/square_state.h.
    - [Intern]: the server's atom table and [XInternAtom]; the twenty
      calls of lines 463-486 ([intern_setup_atoms]) and what they
      establish: [atoms_wf], the same atoms in both processes, and the
      type "XA_ATOM" that is not the predefined ATOM.
    - [Codec]: the message each of the six senders builds
      ([xdndEnter_msg] .. [xdndDrop_msg]), the position packing
      [rootX << 16 | rootY] and its unpacking [l[2] >> 16],
      [l[2] & 0xFFFF], the 32-bit wire; the tagged-union view [XdndMsg]
      of the spec's message table with [encode]/[decode], and [build],
      the sender of the code for each message.
    - [Negotiate]: [doWeAcceptAtom], [getSupportedType], the inline
      three-slot scan; the abstract "first acceptable in peer order"
      specification [negotiated].
    - [Payload]: C strings ([strlen], [strstr] up to the first NUL),
      the buffer of [sendSelectionNotify], [getCopiedData] with its
      undefined-behaviour path, [saveSquareState]/[restoreSquareState]
      with the 4-byte little-endian encoding of the colour enum.
    - [EventType]: [getEventType] of src/xevent_type.c as its table of
      names, the type code of each event, and the tracing of unknown
      ClientMessages by [printClientMessage], as the list of its
      [printf] calls.
    - [HitTest]: [getWindowPointerIsOver] over the window tree, the
      loop formulation [hit_loop] of the spec (one level per iteration)
      over a rectangle test of its own ([in_rect]),
      [hasCorrectXdndAwareProperty].
    - [Session]: [XDNDStateMachine], the memset reset, the field updates
      of the handlers, the guarded senders (monadic, in Section
      [Senders]), the session invariant [session_inv]; the abstract
      session of the spec ([abs_session]: its phase Idle ..
      TargetDropped and its peer) with its transitions [spec_step] and
      what one event may do to it, [spec_event], which admits a
      retargeting from every phase because the motion handler of the
      code starts a new exchange as source from a target's session too
      (the target's own square dragged onto another XDND-aware window,
      lines 623-649); the atomic steps
      [xstep] of the handlers and [xevent], what one handler does.
    - [Peer]: the process state ([Peer]: session, square and the locals
      of [spawnWindow]), one handler per [case] of the event switch
      composed into [handle_event], and [run_events], the loop over a
      finite sequence of events; the symbolic-execution tactics; every
      handler shown to be an [xevent]; the theorems on the handlers and
      concrete runs of three copies of the program (windows 100, 200
      and 300) that witness them.
    - [Process]: the set-up of [spawnWindow] ([spawnWindow_init]: the
      initial state and every request of the set-up, in order; with its
      interning and error checks [spawnWindow_setup]), the event mask
      and the events it selects, the teardown
      after the loop, [spawnWindow] as a whole ([Looping] or [Exited]
      after a finite sequence of events), and [main]'s fork ([main]).
    - [System]: the processes [main] starts ([sys_init]), and the X
      server as the
      environment of the code: an event queue per window, window
      properties, the XdndSelection owner, the pointer, the files and a
      log of delivered events; [sys_step] lets the user add an input
      event or one process handle its next event, the server then
      carrying out its requests, followed by the teardown when the
      process's loop has ended; [run_schedule] runs a schedule of such
      steps; the reachable systems, and the spec's scenarios run as
      tests on fixed schedules.

    ** What is modelled and how

    Every handler is a function of the process state, the event and a
    read-only view of the X server ([XView]: the window tree, window
    properties, the pointer, the files), returning the new process state
    and the ordered list of X requests the handler issues (or an
    [Exit]/[Undefined] outcome).  Reads never depend on a request the same
    handler issued earlier, so reading the view of the state before the
    handler equals the sequential semantics; the event handling of one
    process is taken as atomic with respect to the server.  Integers are
    kept at their C width where the code converts them: [int] via
    [to_int], [long] slots of a ClientMessage via the 32-bit wire
    ([wire32]: CARD32 on the wire, sign-extended on receipt by Xlib on
    LP64), [Window]/[Atom]/[Time] via [to_ulong].

    Fuel and bounds: [hit_loop] takes fuel and is shown equal to the
    recursion of the code as soon as the fuel exceeds the depth of the
    tree ([hit_loop_equiv]), so no window tree runs it out;
    [run_events] recurses on the finite list of events; every other
    definition is structural.  The property read of [getCopiedData] is
    bounded by the 1024 32-bit units the code asks for.  The event loop
    of the code runs until WM_DELETE_WINDOW ([close_ends_loop]); the
    model runs it over a finite prefix of the events it receives.  Pids
    are bounded by Linux's PID_MAX_LIMIT (2^22), which keeps
    [procId * 200] within [int].

    Failures of the C library and of Xlib: the view carries a failure
    oracle [v_fails] naming the calls that fail ([XSendEvent],
    [XGetWindowProperty], [malloc], [fopen], [fwrite], [fread],
    [fclose]); every check of the code becomes a branch on it, and
    [philError] (src/phil_error.c) is the [Exit] outcome carrying the
    call's name.  The set-up's checks ([spawnWindow_setup]) and the
    [fork] of [main] take the oracle or the fork result as an input; the
    server of [System] fails the calls listed in [sv_fails].

    Not modelled: pixel rendering ([drawSquare] is a single [ReqDraw]
    request carrying the square); the [printf] tracing of the handlers
    and of the set-up (output only, with no effect on the program; the
    trace of unknown ClientMessages and the messages of [philError] are
    modelled); the screen size, read only to be printed; the window
    manager, whose closing message is an input.  The server of
    [System] keeps window properties, the selection owner, the pointer
    and files; it ignores the event mask (every event of the switch is
    selected, [setup_selects_handled_events]), the mapping and the GC.
    The header files (src/*.h) hold only the prototypes and types
    modelled with their definitions.
    The handlers take the interned atoms as a parameter [A]; [Intern]
    shows that the set-up's interning provides atoms satisfying
    [atoms_wf], the hypothesis of the theorems on the handlers.  In the
    system scenarios the window tree is fixed (a destroyed window keeps
    its place but loses its properties), and the parent process has
    [procId] 1, not its child's pid, so that the windows are side by
    side.  The processes interact only through the
    requests they issue, carried out by the server of [System]; the
    server is the environment of the code, written from the X protocol
    and the spec (section 5), not from src/.

    ** Theorems (claim ids of PROJECT.json)

    - Session invariant and refinement ([Peer], [System]): every handler
      keeps [session_inv] (C1) and moves the abstract
      session by at most one transition of the spec or a retargeting
      (C2); every reachable system keeps the
      invariant in every process (C5); only a target in
      an exchange sends XdndFinished ([finished_only_by_target]); the
      square stays in the window ([handle_event_square_ok]).
    - Set-up and life cycle ([Intern], [Process], [System]): the
      interning establishes [atoms_wf] (C13) and gives both
      processes the same atoms ([intern_setup_shared]); after set-up the
      first WM_DELETE_WINDOW ends the process with the teardown and
      exit(0) (C14), and nothing else does
      (C15); a closed window is no longer
      XDND aware for anyone (C18); the event mask
      of the set-up selects every input event the loop handles
      (C19).
    - End to end ([System]): after set-up every copy is seen as XDND
      aware at version 5 and is registered for WM_DELETE_WINDOW
      (C17); in every reachable system the drop a source sends
      carries timestamp 0 (C34).  The spec's
      scenarios are run as tests on fixed schedules: two copies complete
      a drag and drop of the square (scenario A,
      [scenario_A_completes]); retargeting sends nothing to the
      abandoned window after XdndLeave and completes at the new one
      (scenario C, [scenario_C_retarget]), where the stale XdndStatus of
      the old target is taken as the new one's ([stale_status_acks]).
    - Protocol paths ([Peer]): the send-once rule for XdndStatus over
      any run of positions (C3); XdndDrop
      (C4) and XdndPosition (C6) on every
      branch; the source's handling of XdndStatus (C7);
      retargeting by one process, with its messages in order (C12); the opening
      message (C16).
    - Data ([Codec], [Payload], [Negotiate], [HitTest], [EventType]):
      the payload round trip (C8) and colour-file
      round trip (C24); each built message decodes to
      the spec's message (C9); negotiation computes the
      first acceptable type in peer order ([first_accepted_refines]), on
      the type list path too (C22), and two
      copies agree on text/uri-list ([own_enter_negotiates]); the
      hit-test loop equals the recursion (C23) and returns
      a window of the tree ([getWindowPointerIsOver_in_tree]); the
      XdndAware version read is in 0..5
      ([hasCorrectXdndAwareProperty_range]); the event type names are
      unambiguous ([getEventType_roundtrip]).
    - Message types, termination and errors: every ClientMessage sent
      is well formed, of format 32, addressed to its destination and one
      of the six XDND types (C10); the loop ends
      at WM_DELETE_WINDOW and handles nothing after it
      (C11); a failing XSendEvent ends the process before
      any handler returns (C20); the set-up ends at
      the first failing checked call ([spawnWindow_setup_first_failure]);
      [philError] writes "name: reason" and is the [Exit] outcome every
      check returns (C21);
      a failed read of XDND_DATA reaches fopen(NULL)
      (C25); scenario A with a failing fopen ends
      in philError("fopen") ([scenario_A_fopen_fails]); "XA_ATOM" is not
      the predefined atom type (C26); unknown
      messages are traced with their slots as received
      ([trace_client_message_wire]); the window x of
      both processes of [main] stays within [int] (C31).
    - Bounds and departures from the spec: x coordinates of 2^15 and
      more arrive negative (C27); the target records a position
      time of 2^31 ms or more as a different value (C28); a short property is read
      out of bounds (C29); a misplaced "file://"
      prefix (C30); the first position
      (C6) and XdndLeave (C32) are
      taken from any sender; a target dragging its square abandons its
      source silently (C33); every button release
      re-sends the drop (C35); a target in an
      exchange sends XdndFinished whether or not it received a drop
      (C36).
*)

From Stdlib Require Import ZArith List String Ascii Bool Lia.
Import ListNotations.

Declare Scope xdnd_scope.
Delimit Scope xdnd_scope with xdnd.

Create HintDb xdnd.
Create Rewrite HintDb xdnd_rw.

(** ** Outcomes of a C computation *)

(** A computation of the program either returns, exits through
    [philError] (src/phil_error.c: print, then [exit(EXIT_FAILURE)]), or
    performs an operation whose behaviour C leaves undefined. *)
Inductive outcome (A : Type) : Type :=
| Ok (a : A)
| Exit (what : string)
| Undefined (what : string).
Arguments Ok {A} a.
Arguments Exit {A} what.
Arguments Undefined {A} what.

(** [philError(str)] (src/phil_error.c, lines 30-42): print [str]
    and [strerror(errno)] on stderr, then [exit(EXIT_FAILURE)].  The
    printing is output only; the exit is the outcome. *)
Definition philError {A} (str : string) : outcome A := Exit str.

Definition outcome_bind {A B} (o : outcome A) (k : A -> outcome B) : outcome B :=
  match o with
  | Ok a => k a
  | Exit w => Exit w
  | Undefined w => Undefined w
  end.

(** ** The handler monad: state, an ordered request log, failure *)

Section Monad.
Context {S R : Type}.

Definition SWE (A : Type) : Type := S -> outcome (A * S * list R).

Definition ret {A} (a : A) : SWE A := fun s => Ok (a, s, []).

Definition bind {A B} (m : SWE A) (k : A -> SWE B) : SWE B :=
  fun s =>
    match m s with
    | Ok (a, s1, r1) =>
        match k a s1 with
        | Ok (b, s2, r2) => Ok (b, s2, r1 ++ r2)
        | Exit w => Exit w
        | Undefined w => Undefined w
        end
    | Exit w => Exit w
    | Undefined w => Undefined w
    end.

Definition get : SWE S := fun s => Ok (s, s, []).
Definition put (s : S) : SWE unit := fun _ => Ok (tt, s, []).
Definition modify (f : S -> S) : SWE unit := fun s => Ok (tt, f s, []).
Definition emit (r : R) : SWE unit := fun s => Ok (tt, s, [r]).
Definition lift {A} (o : outcome A) : SWE A :=
  fun s => outcome_bind o (fun a => Ok (a, s, [])).
Definition when (b : bool) (m : SWE unit) : SWE unit :=
  if b then m else ret tt.
End Monad.

Notation "x <- m ;; k" := (bind m (fun x => k))
  (at level 61, m at next level, right associativity) : xdnd_scope.
Notation "m ;; k" := (bind m (fun _ => k))
  (at level 61, right associativity) : xdnd_scope.

Open Scope xdnd_scope.

Section MonadLaws.
Context {S R : Type}.

Lemma bind_ret_l {A B} (a : A) (k : A -> @SWE S R B) s :
  bind (ret a) k s = k a s.
Proof.
  unfold bind, ret. destruct (k a s) as [[[b s'] r]| |]; reflexivity.
Qed.

Lemma bind_ok {A B} (m : @SWE S R A) (k : A -> SWE B) s a s1 r1 :
  m s = Ok (a, s1, r1) ->
  bind m k s = match k a s1 with
               | Ok (b, s2, r2) => Ok (b, s2, r1 ++ r2)
               | Exit w => Exit w
               | Undefined w => Undefined w
               end.
Proof. intros H. unfold bind. rewrite H. reflexivity. Qed.

(** An exit ends the computation: nothing after it runs. *)
Lemma bind_exit {A B} (m : @SWE S R A) (k : A -> SWE B) s w :
  m s = Exit w -> bind m k s = Exit w.
Proof. intros H. unfold bind. rewrite H. reflexivity. Qed.
End MonadLaws.

#[export] Hint Rewrite @bind_ret_l : xdnd_rw.

(** ** C integer conversions *)

Open Scope Z_scope.

(** Two's complement reading of the low [n] bits of [z]. *)
Definition swrap (n : Z) (z : Z) : Z :=
  (z + 2 ^ (n - 1)) mod 2 ^ n - 2 ^ (n - 1).

(** Conversion to [int] (32 bits) and [long] (64 bits, LP64). *)
Definition to_int (z : Z) : Z := swrap 32 z.
Definition to_long (z : Z) : Z := swrap 64 z.
(** Conversion to [unsigned long]: [Window], [Atom], [Time]. *)
Definition to_ulong (z : Z) : Z := z mod 2 ^ 64.
(** A [long] slot of a format-32 ClientMessage travels as a CARD32
    and is sign-extended back into a [long] by Xlib on receipt. *)
Definition wire32 (z : Z) : Z := swrap 32 z.

Lemma swrap_small n z :
  0 < n -> - 2 ^ (n - 1) <= z < 2 ^ (n - 1) -> swrap n z = z.
Proof.
  intros Hn Hz. unfold swrap.
  assert (E : 2 ^ n = 2 * 2 ^ (n - 1)).
  { replace n with (Z.succ (n - 1)) at 1 by lia. rewrite Z.pow_succ_r; lia. }
  rewrite Z.mod_small by lia. lia.
Qed.

Lemma swrap_range n z :
  0 < n -> - 2 ^ (n - 1) <= swrap n z < 2 ^ (n - 1).
Proof.
  intros Hn. unfold swrap.
  assert (E : 2 ^ n = 2 * 2 ^ (n - 1)).
  { replace n with (Z.succ (n - 1)) at 1 by lia. rewrite Z.pow_succ_r; lia. }
  assert (0 < 2 ^ (n - 1)) by (apply Z.pow_pos_nonneg; lia).
  pose proof (Z.mod_pos_bound (z + 2 ^ (n - 1)) (2 ^ n)). lia.
Qed.

Lemma swrap_high n z :
  0 < n -> 2 ^ (n - 1) <= z < 2 ^ n -> swrap n z = z - 2 ^ n.
Proof.
  intros Hn Hz. unfold swrap.
  assert (E : 2 ^ n = 2 * 2 ^ (n - 1)).
  { replace n with (Z.succ (n - 1)) at 1 by lia. rewrite Z.pow_succ_r; lia. }
  replace (z + 2 ^ (n - 1)) with ((z - 2 ^ (n - 1)) + 1 * 2 ^ n) by lia.
  rewrite Z.mod_add by lia. rewrite Z.mod_small by lia. lia.
Qed.

Lemma to_ulong_small z : 0 <= z < 2 ^ 64 -> to_ulong z = z.
Proof. intros H. unfold to_ulong. apply Z.mod_small; exact H. Qed.

Lemma wire32_small z : - 2 ^ 31 <= z < 2 ^ 31 -> wire32 z = z.
Proof. intros H. apply swrap_small; [lia | exact H]. Qed.

Lemma to_int_small z : - 2 ^ 31 <= z < 2 ^ 31 -> to_int z = z.
Proof. intros H. apply swrap_small; [lia | exact H]. Qed.

Lemma to_long_small z : - 2 ^ 63 <= z < 2 ^ 63 -> to_long z = z.
Proof. intros H. apply swrap_small; [lia | exact H]. Qed.

(** An XID (window) or atom: the X protocol keeps their top three bits
    zero, and the value 0 is [None]. *)
Definition xid_ok (z : Z) : Prop := 0 < z < 2 ^ 29.

Definition xid_okb (z : Z) : bool := (0 <? z) && (z <? 2 ^ 29).

Lemma xid_okb_spec z : xid_okb z = true <-> xid_ok z.
Proof. unfold xid_okb, xid_ok. rewrite andb_true_iff, !Z.ltb_lt. tauto. Qed.

(** An XID survives every conversion it meets on its way through a
    ClientMessage: [long], the 32-bit wire, [unsigned long]. *)
Lemma xid_wire z : xid_ok z -> to_ulong (wire32 (to_long z)) = z.
Proof.
  unfold xid_ok. intros H.
  rewrite to_long_small by lia. rewrite wire32_small by lia.
  apply to_ulong_small; lia.
Qed.

Lemma xid_ok_small z : xid_ok z -> - 2 ^ 31 <= z < 2 ^ 31.
Proof. unfold xid_ok. lia. Qed.

#[export] Hint Resolve xid_wire xid_ok_small : xdnd.

(** ** Generic tactics *)

(** Case on every boolean test of the goal, keeping the equation. *)
Ltac case_ifs :=
  repeat match goal with
         | |- context [if ?b then _ else _] =>
             let E := fresh "E" in destruct b eqn:E
         end.

(** Turn [Z] boolean comparisons of the context into propositions. *)
Ltac zbool :=
  repeat match goal with
         | H : (_ =? _) = true |- _ => apply Z.eqb_eq in H
         | H : (_ =? _) = false |- _ => apply Z.eqb_neq in H
         | H : (_ <? _) = true |- _ => apply Z.ltb_lt in H
         | H : (_ <? _) = false |- _ => apply Z.ltb_ge in H
         | H : (_ <=? _) = true |- _ => apply Z.leb_le in H
         | H : (_ <=? _) = false |- _ => apply Z.leb_gt in H
         | H : (_ && _) = true |- _ => apply andb_true_iff in H; destruct H
         | H : (_ || _) = false |- _ => apply orb_false_iff in H; destruct H
         | H : negb _ = true |- _ => apply negb_true_iff in H
         | H : negb _ = false |- _ => apply negb_false_iff in H
         end.
