(* ===== verification/PhilError.v ===== *)
(** * Error reporting

    src/phil_error.c: [philErrorCore] writes the message it is given to
    [stderr], used as the format of [vfprintf], followed by ": " and
    [strerror(errno)]; [philErrorMsg] does so and resets [errno];
    [philError] does so and exits with [EXIT_FAILURE].  Every error
    check of the program calls [philError] with the name of the call
    that failed, and the rest of the development models that call as
    the outcome [Exit name] ([Prelude.philError]).  This file models
    the three functions on the part of the C library state they touch
    ([errno] and what was written to [stderr]) and shows that [Exit]
    is what [philError] does, having written "name: reason". *)

From Stdlib Require Import ZArith List String Ascii Bool Lia.
From S2P Require Import Prelude.
Import ListNotations.
Open Scope Z_scope.
Local Open Scope string_scope.

(** What the functions read and change: [errno] and the text written to
    [stderr], one string per call of a [printf] function. *)
Record ErrState := { errno : Z; stderr : list string }.

Definition newline : string := String (ascii_of_nat 10) EmptyString.

(** [vfprintf(stderr, str, args)] where [args] holds no argument, as at
    every call in the program: ordinary characters are written as they
    are, "%%" writes '%', and any other conversion reads an argument
    that is not there (undefined behaviour). *)
Fixpoint vfprintf_noargs (str : string) : outcome string :=
  match str with
  | EmptyString => Ok EmptyString
  | String c rest =>
      if Ascii.eqb c "%"%char then
        match rest with
        | String d rest' =>
            if Ascii.eqb d "%"%char
            then outcome_bind (vfprintf_noargs rest') (fun r => Ok (String "%"%char r))
            else Undefined "vfprintf: conversion without an argument"
        | EmptyString => Undefined "vfprintf: conversion without an argument"
        end
      else outcome_bind (vfprintf_noargs rest) (fun r => Ok (String c r))
  end.

(** Lines 9-14.  [strerror] is the C library's table of messages. *)
Definition philErrorCore (strerror : Z -> string) (str : string) (st : ErrState)
  : outcome ErrState :=
  outcome_bind (vfprintf_noargs str) (fun msg =>
    Ok {| errno := errno st;
          stderr := stderr st ++ [msg; ": " ++ strerror (errno st) ++ newline] |}).

(** Lines 16-28: the message, then [errno = 0]. *)
Definition philErrorMsg (strerror : Z -> string) (str : string) (st : ErrState)
  : outcome ErrState :=
  outcome_bind (philErrorCore strerror str st) (fun st' =>
    Ok {| errno := 0; stderr := stderr st' |}).

(** Lines 30-42: the message, then [exit(EXIT_FAILURE)]: the process
    ends with what it has written. *)
Definition philError_run {A} (strerror : Z -> string) (str : string) (st : ErrState)
  : ErrState * outcome A :=
  match philErrorCore strerror str st with
  | Ok st' => (st', philError str)
  | Exit what => (st, Exit what)
  | Undefined what => (st, Undefined what)
  end.

(** A string with no conversion character. *)
Fixpoint no_conversion (str : string) : bool :=
  match str with
  | EmptyString => true
  | String c rest => negb (Ascii.eqb c "%"%char) && no_conversion rest
  end.

(** The names the program passes to [philError], one per failing call. *)
Definition philError_names : list string :=
  ["XSendEvent"; "malloc"; "fopen"; "fwrite"; "fread"; "fclose"; "fork";
   "XOpenDisplay"; "XCreateSimpleWindow"; "XStoreName"; "XSelectInput";
   "XMapWindow"; "XCreateGC"; "XSetForeground"; "XSetBackground"].

(** ** Properties *)

Lemma vfprintf_literal str : no_conversion str = true -> vfprintf_noargs str = Ok str.
Proof.
  induction str as [|c rest IH]; cbn; [reflexivity|].
  intros H. apply andb_prop in H as [Hc Hr]. apply negb_true_iff in Hc. rewrite Hc.
  rewrite (IH Hr). reflexivity.
Qed.

(** Every name the program reports is written as it is. *)
Lemma philError_names_literal : forallb no_conversion philError_names = true.
Proof. vm_compute. reflexivity. Qed.

(** The message [philErrorCore] writes for a name without conversion. *)
Lemma philErrorCore_literal strerror str st :
  no_conversion str = true ->
  philErrorCore strerror str st =
  Ok {| errno := errno st; stderr := stderr st ++ [str; ": " ++ strerror (errno st) ++ newline] |}.
Proof. intros H. unfold philErrorCore. rewrite (vfprintf_literal _ H). reflexivity. Qed.

(** C21 [philError] is the [Exit] outcome the model gives every failed
    check: for every name the program passes, none of which holds a
    conversion character, it writes the name, ": " and the message of
    the current [errno] to [stderr], leaves [errno] as it is, and ends
    the process with [Exit name]. *)
Theorem philError_refines {A} strerror str st :
  In str philError_names ->
  @philError_run A strerror str st =
  ({| errno := errno st; stderr := stderr st ++ [str; ": " ++ strerror (errno st) ++ newline] |},
   philError str).
Proof.
  intros H. unfold philError_run.
  rewrite (philErrorCore_literal _ _ _ (proj1 (forallb_forall _ _) philError_names_literal _ H)).
  reflexivity.
Qed.

(** [philErrorMsg] writes the same message and returns with [errno]
    reset to 0. *)
Lemma philErrorMsg_resets strerror str st :
  no_conversion str = true ->
  philErrorMsg strerror str st =
  Ok {| errno := 0; stderr := stderr st ++ [str; ": " ++ strerror (errno st) ++ newline] |}.
Proof. intros H. unfold philErrorMsg. rewrite (philErrorCore_literal _ _ _ H). reflexivity. Qed.

(** A message with a conversion would make [vfprintf] read an argument
    that no caller passes. *)
Lemma philError_conversion_undefined {A} strerror st :
  exists what, snd (@philError_run A strerror "%s" st) = Undefined what.
Proof. eexists. reflexivity. Qed.

(** ** Witnesses *)

Lemma philError_refines_witness :
  @philError_run unit (fun _ => "Bad file descriptor") "XSendEvent" {| errno := 9; stderr := [] |} =
  ({| errno := 9; stderr := ["XSendEvent"; ": Bad file descriptor" ++ newline] |},
   philError "XSendEvent").
Proof. apply philError_refines. left. reflexivity. Defined.
