(* ===== verification/XTypes.v ===== *)
(** * Xlib data used by the program

    The values of Xlib the program manipulates ([Window], [Atom],
    [Time] as [Z]), the atoms interned at the start of [spawnWindow]
    (src/spawn_window.c, lines 463-485), the ClientMessage structure, the
    event variants the event switch distinguishes, the X requests a
    handler issues, the read-only view of the server a handler queries,
    and the [Square] struct of src/square_state.h. *)

From Stdlib Require Import ZArith List String Bool Lia.
From S2P Require Import Prelude.
Import ListNotations.
Open Scope Z_scope.

Definition Window := Z.
Definition Atom := Z.
Definition Time := Z.

(** [None] of X.h. *)
Definition XNone : Z := 0.

(** [#define XDND_PROTOCOL_VERSION 5] *)
Definition XDND_PROTOCOL_VERSION : Z := 5.

(** The atoms of the static declaration at lines 34-35, with the values
    [XInternAtom] returned for them.  Both processes connect to the same
    server, so they hold the same values. *)
Record Atoms := {
  XdndAware : Atom;
  XA_ATOM : Atom;
  XdndEnter : Atom;
  XdndPosition : Atom;
  XdndActionCopy : Atom;
  XdndLeave : Atom;
  XdndStatus : Atom;
  XdndDrop : Atom;
  XdndSelection : Atom;
  XDND_DATA : Atom;
  XdndTypeList : Atom;
  XdndFinished : Atom;
  WM_PROTOCOLS : Atom;
  WM_DELETE_WINDOW : Atom;
  typesWeAccept : list Atom
}.

(** The message-type atoms the ClientMessage case compares against. *)
Definition message_atoms (A : Atoms) : list Atom :=
  [XdndEnter A; XdndPosition A; XdndLeave A; XdndStatus A; XdndDrop A;
   XdndFinished A; WM_PROTOCOLS A].

(** What the server guarantees of interned atoms: distinct names get
    distinct non-[None] 29-bit values; [typesWeAccept] holds six.  The
    two properties the set-up puts on the window, XdndAware and
    WM_PROTOCOLS, are distinct. *)
Definition atoms_wf (A : Atoms) : Prop :=
  NoDup (message_atoms A) /\
  Forall xid_ok (message_atoms A) /\
  Forall xid_ok (typesWeAccept A) /\ List.length (typesWeAccept A) = 6%nat /\
  xid_ok (XdndActionCopy A) /\ xid_ok (XDND_DATA A) /\
  xid_ok (XdndSelection A) /\ xid_ok (XdndAware A) /\ xid_ok (XdndTypeList A) /\
  XdndAware A <> WM_PROTOCOLS A.

(** The pairwise distinctness of the message atoms, as hypotheses
    [~ (b = a \/ c = a \/ ...)] in the context. *)
Ltac atoms_nodup HA :=
  let H := fresh "Hnd" in
  pose proof (proj1 HA) as H; unfold message_atoms in H;
  repeat (let Hn := fresh "Hn" in
          apply NoDup_cons_iff in H; destruct H as [Hn H]; simpl in Hn).

(** Forget them again before arithmetic: [lia] would case-split on
    every disequality. *)
Ltac atoms_forget :=
  repeat match goal with
         | H : ~ (_ \/ _) |- _ => clear H
         | H : ~ (_ = _) |- _ => clear H
         | H : NoDup _ |- _ => clear H
         end.

(** Decide the comparisons [X A =? Y A] between message atoms in the
    goal: [true] for the same atom, [false] for distinct ones. *)
Ltac atoms_eqb HA :=
  repeat match goal with
         | |- context [?x =? ?x] => rewrite (Z.eqb_refl x)
         | |- context [?f ?B =? ?g ?B] =>
             let E := fresh "E" in
             assert (E : (f B =? g B) = false)
               by (apply Z.eqb_neq; intro; atoms_nodup HA; intuition congruence);
             rewrite E; clear E
         end.

(** The well-formedness of the atoms, decided. *)
Fixpoint nodupb (l : list Z) : bool :=
  match l with
  | [] => true
  | x :: rest => negb (existsb (Z.eqb x) rest) && nodupb rest
  end.

Definition atoms_wfb (A : Atoms) : bool :=
  nodupb (message_atoms A) && forallb xid_okb (message_atoms A) &&
  forallb xid_okb (typesWeAccept A) && (List.length (typesWeAccept A) =? 6)%nat &&
  xid_okb (XdndActionCopy A) && xid_okb (XDND_DATA A) && xid_okb (XdndSelection A) &&
  xid_okb (XdndAware A) && xid_okb (XdndTypeList A) &&
  negb (XdndAware A =? WM_PROTOCOLS A).

Lemma nodupb_spec l : nodupb l = true -> NoDup l.
Proof.
  induction l as [|x rest IH]; cbn; intros H; constructor.
  - apply andb_true_iff in H as [Hn _]. apply negb_true_iff in Hn.
    intros Hin. assert (existsb (Z.eqb x) rest = true) by
      (apply existsb_exists; exists x; split; [exact Hin | apply Z.eqb_refl]).
    congruence.
  - apply IH. apply andb_true_iff in H as [_ H]. exact H.
Qed.

Lemma forallb_xid l : forallb xid_okb l = true -> Forall xid_ok l.
Proof.
  intros H. apply Forall_forall. intros x Hx. apply xid_okb_spec.
  rewrite forallb_forall in H. apply H, Hx.
Qed.

Lemma atoms_wfb_spec A : atoms_wfb A = true -> atoms_wf A.
Proof.
  unfold atoms_wfb. intros H.
  repeat match goal with
         | H : (_ && _) = true |- _ => apply andb_prop in H; destruct H
         end.
  repeat split;
    first [ apply nodupb_spec; assumption | apply forallb_xid; assumption
          | apply xid_okb_spec; assumption | apply Nat.eqb_eq; assumption
          | apply Z.eqb_neq, negb_true_iff; assumption ].
Qed.

(** The interning of a fresh server, in the order of the calls of
    [spawnWindow]: the first free atom is 69, and "STRING" is the
    predefined atom 31 ([Intern.std_atoms_interned]). *)
Definition std_atoms : Atoms := {|
  XdndAware := 69; XA_ATOM := 70; XdndEnter := 71; XdndPosition := 72;
  XdndActionCopy := 73; XdndLeave := 74; XdndStatus := 75; XdndDrop := 76;
  XdndSelection := 77; XDND_DATA := 78; XdndTypeList := 79;
  XdndFinished := 80; WM_PROTOCOLS := 81; WM_DELETE_WINDOW := 82;
  typesWeAccept := [83; 84; 85; 31; 86; 87]
|}.

(** ** ClientMessage *)

(** [XClientMessageEvent] with format 32: five [long] slots. *)
Record XClientMessageEvent := {
  cm_window : Window;
  message_type : Atom;
  cm_format : Z;
  l0 : Z; l1 : Z; l2 : Z; l3 : Z; l4 : Z
}.

(** ** Events of the switch in [spawnWindow] *)

Record XSelectionRequestEvent := {
  sr_owner : Window; sr_requestor : Window; sr_selection : Atom;
  sr_target : Atom; sr_property : Atom; sr_time : Time
}.

Record XSelectionEvent := {
  sn_requestor : Window; sn_selection : Atom; sn_target : Atom;
  sn_property : Atom; sn_time : Time
}.

Record XMotionEvent := {
  mo_x : Z; mo_y : Z; mo_x_root : Z; mo_y_root : Z; mo_time : Time
}.

Inductive XEvent :=
| SelectionRequest (e : XSelectionRequestEvent)
| SelectionNotify (e : XSelectionEvent)
| MotionNotify (e : XMotionEvent)
| KeyRelease (keycode : Z)
| ButtonPress (x y : Z)
| ButtonRelease (x y : Z)
| Expose
| EnterNotify
| LeaveNotify
| ClientMessage (m : XClientMessageEvent)
| OtherEvent (type : Z).

(** ** The Square (src/square_state.h) *)

(** [typedef enum { RedSquare = 0, BlueSquare = 1 } SquareColour;] *)
Definition SquareColour := Z.
Definition RedSquare : SquareColour := 0.
Definition BlueSquare : SquareColour := 1.

Record Square := {
  sq_x : Z; sq_y : Z; mouse_x : Z; mouse_y : Z; size : Z;
  visible : bool; selected : bool; colour : SquareColour
}.

(** ** Requests a handler issues to the server or the file system *)

Inductive XRequest :=
| ReqSendEvent (dest : Window) (ev : XEvent)
| ReqChangeProperty (w : Window) (prop type : Atom) (format : Z) (items : list Z)
| ReqDeleteProperty (w : Window) (prop : Atom)
| ReqSetSelectionOwner (selection : Atom) (owner : Window) (time : Time)
| ReqConvertSelection (selection target prop : Atom) (requestor : Window) (time : Time)
| ReqSetForeground (pixel : Z)
| ReqDraw (sq : Square)
| ReqWriteFile (path : string) (bytes : list Z)
| ReqCreateWindow (w : Window) (x y width height border_width border background : Z)
| ReqSelectInput (w : Window) (mask : Z)
| ReqMapWindow (w : Window)
| ReqCreateGC (w : Window)
| ReqSetBackground (pixel : Z)
| ReqFreeGC
| ReqDestroyWindow (w : Window)
| ReqCloseDisplay.

(** ** What a handler reads from the server *)

(** A window property as [XGetWindowProperty] returns it: its type, its
    format, and its items (bytes for format 8, [long]s for format 32). *)
Record PropVal := { p_type : Atom; p_format : Z; p_items : list Z }.

(** The window hierarchy: a window, its geometry relative to its parent
    ([XGetWindowAttributes]: x, y, width, height) and its children in
    the order [XQueryTree] returns them, bottom-most first. *)
#[warnings="-register-all"]
Inductive WTree :=
| WNode (w : Window) (x y width height : Z) (children : list WTree).

Definition wt_window (t : WTree) : Window :=
  match t with WNode w _ _ _ _ _ => w end.

(** The view of the server and of the file system a handler reads:
    [DefaultRootWindow] with its subtree, [XGetWindowProperty] ([None]
    when the property does not exist), [XQueryPointer]'s window-relative
    position for the process's own window, [fopen]/[fread], and which
    library calls fail ([v_fails name]: the call returns its error value,
    0 for [XSendEvent], [NULL] for [malloc] and [fopen], a short count
    for [fwrite], nonzero for [fclose], not [Success] for
    [XGetWindowProperty]). *)
Record XView := {
  v_tree : WTree;
  v_prop : Window -> Atom -> option PropVal;
  v_pointer : Z * Z;
  v_read_file : string -> option (list Z);
  v_fails : string -> bool
}.

(** A view with nothing on the server but a root window. *)
Definition empty_view : XView :=
  {| v_tree := WNode 1 0 0 1000 1000 []; v_prop := fun _ _ => None;
     v_pointer := (0, 0); v_read_file := fun _ => None; v_fails := fun _ => false |}.

Lemma std_atoms_wf : atoms_wf std_atoms.
Proof. apply atoms_wfb_spec. vm_compute. reflexivity. Qed.
