(* ===== verification/Intern.v ===== *)
(** * Atom interning

    [spawnWindow] (src/spawn_window.c, lines 463-486) interns the twenty
    names it uses with [XInternAtom(disp, name, False)] before creating
    its window.  The server keeps one table of names for all clients:
    an interned name keeps its atom for the life of the server, a new
    name gets the next free atom.  This file models the table and the
    calls, and shows that the set-up establishes what the rest of the
    development assumes of [Atoms] ([atoms_wf]), that the two processes
    of [main] get the same atoms whatever else is interned between
    their set-ups, and that the name "XA_ATOM" of line 465 is not the
    predefined type [ATOM]. *)

From Stdlib Require Import ZArith List String Bool Lia.
From S2P Require Import Prelude XTypes.
Import ListNotations.
Open Scope Z_scope.

(** The atom table of the server: the name of atom [i + 1] at index [i];
    the predefined atoms come first. *)
Definition AtomTable := list string.

Fixpoint index_of (name : string) (t : AtomTable) : option nat :=
  match t with
  | [] => None
  | n :: rest => if String.eqb n name then Some 0%nat else option_map S (index_of name rest)
  end.

(** The atom a name has in the table, if it was interned. *)
Definition lookup_atom (t : AtomTable) (name : string) : option Atom :=
  option_map (fun i => Z.of_nat i + 1) (index_of name t).

(** [XInternAtom(disp, name, False)]: the atom of [name], a new atom
    when the name was never interned. *)
Definition XInternAtom (t : AtomTable) (name : string) : AtomTable * Atom :=
  match index_of name t with
  | Some i => (t, Z.of_nat i + 1)
  | None => (t ++ [name], Z.of_nat (List.length t) + 1)
  end.

(** Successive calls, in order. *)
Fixpoint intern_all (t : AtomTable) (names : list string) : AtomTable * list Atom :=
  match names with
  | [] => (t, [])
  | n :: rest =>
      let (t1, a) := XInternAtom t n in
      let (t2, l) := intern_all t1 rest in
      (t2, a :: l)
  end.

(** The names of lines 463-486, in the order of the calls. *)
Definition setup_atom_names : list string :=
  ["XdndAware"; "XA_ATOM"; "XdndEnter"; "XdndPosition"; "XdndActionCopy";
   "XdndLeave"; "XdndStatus"; "XdndDrop"; "XdndSelection"; "XDND_DATA";
   "XdndTypeList"; "XdndFinished"; "WM_PROTOCOLS"; "WM_DELETE_WINDOW";
   "text/uri-list"; "UTF8_STRING"; "TEXT"; "STRING";
   "text/plain;charset=utf-8"; "text/plain"]%string.

(** The static atoms of lines 34-35, assigned from the results. *)
Definition atoms_of (l : list Atom) : Atoms := {|
  XdndAware := nth 0 l XNone; XA_ATOM := nth 1 l XNone; XdndEnter := nth 2 l XNone;
  XdndPosition := nth 3 l XNone; XdndActionCopy := nth 4 l XNone;
  XdndLeave := nth 5 l XNone; XdndStatus := nth 6 l XNone; XdndDrop := nth 7 l XNone;
  XdndSelection := nth 8 l XNone; XDND_DATA := nth 9 l XNone;
  XdndTypeList := nth 10 l XNone; XdndFinished := nth 11 l XNone;
  WM_PROTOCOLS := nth 12 l XNone; WM_DELETE_WINDOW := nth 13 l XNone;
  typesWeAccept := firstn 6 (skipn 14 l) |}.

(** Lines 463-486. *)
Definition intern_setup_atoms (t : AtomTable) : AtomTable * Atoms :=
  let (t', l) := intern_all t setup_atom_names in (t', atoms_of l).

(** The predefined atoms of the X protocol (Xatom.h), 1 to 68. *)
Definition predefined_atoms : AtomTable :=
  ["PRIMARY"; "SECONDARY"; "ARC"; "ATOM"; "BITMAP"; "CARDINAL"; "COLORMAP"; "CURSOR";
   "CUT_BUFFER0"; "CUT_BUFFER1"; "CUT_BUFFER2"; "CUT_BUFFER3"; "CUT_BUFFER4";
   "CUT_BUFFER5"; "CUT_BUFFER6"; "CUT_BUFFER7"; "DRAWABLE"; "FONT"; "INTEGER";
   "PIXMAP"; "POINT"; "RECTANGLE"; "RESOURCE_MANAGER"; "RGB_COLOR_MAP";
   "RGB_BEST_MAP"; "RGB_BLUE_MAP"; "RGB_DEFAULT_MAP"; "RGB_GRAY_MAP";
   "RGB_GREEN_MAP"; "RGB_RED_MAP"; "STRING"; "VISUALID"; "WINDOW"; "WM_COMMAND";
   "WM_HINTS"; "WM_CLIENT_MACHINE"; "WM_ICON_NAME"; "WM_ICON_SIZE"; "WM_NAME";
   "WM_NORMAL_HINTS"; "WM_SIZE_HINTS"; "WM_ZOOM_HINTS"; "MIN_SPACE"; "NORM_SPACE";
   "MAX_SPACE"; "END_SPACE"; "SUPERSCRIPT_X"; "SUPERSCRIPT_Y"; "SUBSCRIPT_X";
   "SUBSCRIPT_Y"; "UNDERLINE_POSITION"; "UNDERLINE_THICKNESS"; "STRIKEOUT_ASCENT";
   "STRIKEOUT_DESCENT"; "ITALIC_ANGLE"; "X_HEIGHT"; "QUAD_WIDTH"; "WEIGHT";
   "POINT_SIZE"; "RESOLUTION"; "COPYRIGHT"; "NOTICE"; "FONT_NAME"; "FAMILY_NAME";
   "FULL_NAME"; "CAP_HEIGHT"; "WM_CLASS"; "WM_TRANSIENT_FOR"]%string.

(** [XA_ATOM] of Xatom.h: the predefined type of atom lists. *)
Definition XA_ATOM_predefined : Atom := 4.

(** ** The table *)

Lemma index_of_nth name t i : index_of name t = Some i -> nth i t ""%string = name.
Proof.
  revert i. induction t as [|n rest IH]; cbn; intros i H; [discriminate|].
  destruct (String.eqb_spec n name) as [->|_].
  - injection H as <-. reflexivity.
  - destruct (index_of name rest) as [j|] eqn:E; cbn in H; [|discriminate].
    injection H as <-. apply IH. reflexivity.
Qed.

Lemma index_of_bound name t i : index_of name t = Some i -> (i < List.length t)%nat.
Proof.
  revert i. induction t as [|n rest IH]; cbn; intros i H; [discriminate|].
  destruct (String.eqb n name); [injection H as <-; lia|].
  destruct (index_of name rest) as [j|] eqn:E; cbn in H; [|discriminate].
  injection H as <-. specialize (IH j eq_refl). lia.
Qed.

Lemma index_of_app name t u i : index_of name t = Some i -> index_of name (t ++ u) = Some i.
Proof.
  revert i. induction t as [|n rest IH]; cbn; intros i H; [discriminate|].
  destruct (String.eqb n name); [exact H|].
  destruct (index_of name rest) as [j|] eqn:E; cbn in H; [|discriminate].
  rewrite (IH j eq_refl). exact H.
Qed.

Lemma index_of_new name t : index_of name t = None -> index_of name (t ++ [name]) = Some (List.length t).
Proof.
  induction t as [|n rest IH]; cbn; intros H.
  - rewrite String.eqb_refl. reflexivity.
  - destruct (String.eqb n name); [discriminate|].
    destruct (index_of name rest); cbn in H; [discriminate|]. rewrite IH by reflexivity.
    reflexivity.
Qed.

(** Distinct interned names have distinct atoms. *)
Lemma lookup_atom_inj t n1 n2 a :
  lookup_atom t n1 = Some a -> lookup_atom t n2 = Some a -> n1 = n2.
Proof.
  unfold lookup_atom.
  destruct (index_of n1 t) as [i|] eqn:E1, (index_of n2 t) as [j|] eqn:E2; cbn;
    try discriminate.
  intros H1 H2. rewrite <- H2 in H1. injection H1 as Hij.
  assert (i = j) by lia. subst j.
  rewrite <- (index_of_nth _ _ _ E1), <- (index_of_nth _ _ _ E2). reflexivity.
Qed.

Lemma lookup_atom_bound t n a : lookup_atom t n = Some a -> 0 < a <= Z.of_nat (List.length t).
Proof.
  unfold lookup_atom. destruct (index_of n t) as [i|] eqn:E; cbn; [|discriminate].
  intros H. injection H as <-. apply index_of_bound in E. lia.
Qed.

Lemma lookup_atom_app t u n a : lookup_atom t n = Some a -> lookup_atom (t ++ u) n = Some a.
Proof.
  unfold lookup_atom. destruct (index_of n t) as [i|] eqn:E; cbn; [|discriminate].
  rewrite (index_of_app _ _ u _ E). exact (fun H => H).
Qed.

(** An interned name has its atom in the table; a known name leaves the
    table unchanged. *)
Lemma XInternAtom_spec t n :
  exists u, fst (XInternAtom t n) = t ++ u /\ (List.length u <= 1)%nat /\
            lookup_atom (fst (XInternAtom t n)) n = Some (snd (XInternAtom t n)) /\
            (index_of n t <> None -> u = []).
Proof.
  unfold XInternAtom, lookup_atom. destruct (index_of n t) as [i|] eqn:E.
  - exists []. cbn. rewrite app_nil_r, E. cbn. repeat split; auto; lia.
  - exists [n]. cbn. rewrite index_of_new by exact E. cbn.
    repeat split; [lia | intros H; now elim H].
Qed.

(** ** The calls of the set-up *)

(** The atom of an interned name ([None] otherwise). *)
Definition atom_in (t : AtomTable) (n : string) : Atom :=
  match lookup_atom t n with Some a => a | None => XNone end.

(** [intern_all] only appends to the table, at most one name per call,
    nothing when every name was known, and returns the atom each name
    has in the final table. *)
Lemma intern_all_spec names : forall t,
  exists u, fst (intern_all t names) = t ++ u /\
    (List.length u <= List.length names)%nat /\
    snd (intern_all t names) = map (atom_in (fst (intern_all t names))) names /\
    (forall n, In n names -> lookup_atom (fst (intern_all t names)) n =
                             Some (atom_in (fst (intern_all t names)) n)) /\
    ((forall n, In n names -> index_of n t <> None) -> u = []).
Proof.
  induction names as [|n rest IH]; intros t.
  - exists []. cbn. rewrite app_nil_r. repeat split; auto; contradiction.
  - destruct (XInternAtom_spec t n) as (u1 & H1 & Hl1 & Hk1 & Hn1). cbn [intern_all].
    destruct (XInternAtom t n) as [t1 a] eqn:E1. cbn [fst snd] in *.
    destruct (IH t1) as (u2 & H2 & Hl2 & Hs2 & Hk2 & Hn2).
    destruct (intern_all t1 rest) as [t2 l] eqn:E2. cbn [fst snd] in *.
    assert (Ha : lookup_atom t2 n = Some a) by (rewrite H2; apply lookup_atom_app, Hk1).
    exists (u1 ++ u2). rewrite H2, H1, app_assoc. repeat split.
    + rewrite length_app. cbn. lia.
    + rewrite <- H1, <- H2, Hs2. cbn [map]. f_equal. unfold atom_in. rewrite Ha. reflexivity.
    + rewrite <- H1, <- H2. intros m [<-|Hm]; [unfold atom_in; rewrite Ha; reflexivity|].
      apply Hk2, Hm.
    + intros Hall. rewrite (Hn1 (Hall n (or_introl eq_refl))) in *. rewrite app_nil_r in H1.
      subst t1. rewrite Hn2; [reflexivity|]. intros m Hm. apply Hall. right. exact Hm.
Qed.

Lemma NoDup_map_inj {X Y} (f : X -> Y) (l : list X) :
  (forall x y, In x l -> In y l -> f x = f y -> x = y) -> NoDup l -> NoDup (map f l).
Proof.
  intros Hinj Hnd. apply NoDup_map_NoDup_ForallPairs; [|exact Hnd].
  intros x y Hx Hy. apply Hinj; assumption.
Qed.

(** The names behind the fields of [Atoms] the development constrains. *)
Definition message_names : list string :=
  ["XdndEnter"; "XdndPosition"; "XdndLeave"; "XdndStatus"; "XdndDrop";
   "XdndFinished"; "WM_PROTOCOLS"]%string.

Definition type_names : list string := firstn 6 (skipn 14 setup_atom_names).

Lemma message_atoms_of f : message_atoms (atoms_of (map f setup_atom_names)) = map f message_names.
Proof. reflexivity. Qed.

Lemma typesWeAccept_of f : typesWeAccept (atoms_of (map f setup_atom_names)) = map f type_names.
Proof. reflexivity. Qed.

Lemma message_names_nodup : NoDup message_names.
Proof. repeat constructor; cbn; intuition discriminate. Qed.

Lemma message_names_incl : incl message_names setup_atom_names.
Proof. intros n Hn. cbn in Hn |- *. tauto. Qed.

Lemma type_names_incl : incl type_names setup_atom_names.
Proof. intros n Hn. cbn in Hn |- *. tauto. Qed.

Lemma lookup_atom_nth t n a :
  lookup_atom t n = Some a -> nth (Z.to_nat (a - 1)) t ""%string = n.
Proof.
  unfold lookup_atom. destruct (index_of n t) as [i|] eqn:E; cbn; [|discriminate].
  intros H. injection H as <-. rewrite <- (index_of_nth _ _ _ E). f_equal. lia.
Qed.

Lemma lookup_atom_known t n a : lookup_atom t n = Some a -> index_of n t <> None.
Proof. unfold lookup_atom. destruct (index_of n t); cbn; congruence. Qed.

(** The table after the set-up, and the atoms the set-up assigns: the
    atom each name has in that table. *)
Lemma intern_setup_atoms_eq t :
  intern_setup_atoms t =
  (fst (intern_all t setup_atom_names),
   atoms_of (map (atom_in (fst (intern_all t setup_atom_names))) setup_atom_names)).
Proof.
  unfold intern_setup_atoms. destruct (intern_all_spec setup_atom_names t) as (u & _ & _ & Hs & _).
  destruct (intern_all t setup_atom_names) as [t' l]. cbn in *. rewrite Hs. reflexivity.
Qed.

(** What a table with the set-up's names in it gives them back. *)
Lemma atom_in_app T u n :
  lookup_atom T n = Some (atom_in T n) -> atom_in (T ++ u) n = atom_in T n.
Proof. intros H. unfold atom_in at 1. rewrite (lookup_atom_app _ _ _ _ H). reflexivity. Qed.

(** ** Properties *)

(** C13 The interning of lines 463-486 establishes what every theorem on
    the handlers assumes of the atoms ([atoms_wf]): on any server whose
    atom table leaves room for twenty more 29-bit atoms, the six message
    types and WM_PROTOCOLS are distinct, and every atom the handlers
    compare or send is a valid non-[None] atom, [typesWeAccept] holding
    six of them. *)
Theorem intern_setup_wf t :
  Z.of_nat (List.length t) + 20 < 2 ^ 29 -> atoms_wf (snd (intern_setup_atoms t)).
Proof.
  intros Hlen. rewrite intern_setup_atoms_eq. cbn [snd].
  destruct (intern_all_spec setup_atom_names t) as (u & Ht & Hu & _ & Hk & _).
  set (T := fst (intern_all t setup_atom_names)) in *.
  assert (Hok : forall n, In n setup_atom_names -> xid_ok (atom_in T n)).
  { intros n Hn. pose proof (lookup_atom_bound _ _ _ (Hk n Hn)) as Hb.
    assert (List.length T <= List.length t + 20)%nat by (rewrite Ht, length_app; cbn in Hu; lia).
    unfold xid_ok. lia. }
  assert (Hinj : forall x y, In x setup_atom_names -> In y setup_atom_names ->
                             atom_in T x = atom_in T y -> x = y).
  { intros x y Hx Hy Hxy. apply (lookup_atom_inj T x y (atom_in T x)); [apply Hk, Hx|].
    rewrite Hxy. apply Hk, Hy. }
  unfold atoms_wf. rewrite message_atoms_of, typesWeAccept_of, length_map.
  repeat split.
  - apply NoDup_map_inj; [|exact message_names_nodup].
    intros x y Hx Hy. apply Hinj; apply message_names_incl; assumption.
  - apply Forall_map, Forall_forall. intros n Hn. apply Hok, message_names_incl, Hn.
  - apply Forall_map, Forall_forall. intros n Hn. apply Hok, type_names_incl, Hn.
  - exact (proj1 (Hok "XdndActionCopy"%string ltac:(cbn; tauto))).
  - exact (proj2 (Hok "XdndActionCopy"%string ltac:(cbn; tauto))).
  - exact (proj1 (Hok "XDND_DATA"%string ltac:(cbn; tauto))).
  - exact (proj2 (Hok "XDND_DATA"%string ltac:(cbn; tauto))).
  - exact (proj1 (Hok "XdndSelection"%string ltac:(cbn; tauto))).
  - exact (proj2 (Hok "XdndSelection"%string ltac:(cbn; tauto))).
  - exact (proj1 (Hok "XdndAware"%string ltac:(cbn; tauto))).
  - exact (proj2 (Hok "XdndAware"%string ltac:(cbn; tauto))).
  - exact (proj1 (Hok "XdndTypeList"%string ltac:(cbn; tauto))).
  - exact (proj2 (Hok "XdndTypeList"%string ltac:(cbn; tauto))).
  - intros E. discriminate (Hinj "XdndAware"%string "WM_PROTOCOLS"%string
                              ltac:(cbn; tauto) ltac:(cbn; tauto) E).
Qed.

(** The two processes of [main] hold the same atoms, as the handlers
    assume when they compare the message types of each other's
    messages: interning the same names again, on the table the first
    set-up left with any names other clients added since, changes
    nothing and returns the same atoms. *)
Theorem intern_setup_shared t u :
  intern_setup_atoms (fst (intern_setup_atoms t) ++ u) =
  (fst (intern_setup_atoms t) ++ u, snd (intern_setup_atoms t)).
Proof.
  rewrite !intern_setup_atoms_eq. cbn [fst snd].
  destruct (intern_all_spec setup_atom_names t) as (_ & _ & _ & _ & Hk & _).
  set (T := fst (intern_all t setup_atom_names)) in *.
  destruct (intern_all_spec setup_atom_names (T ++ u)) as (u' & Ht' & _ & _ & _ & Hn').
  rewrite Hn' in Ht' by (intros n Hn; apply (lookup_atom_known _ _ _ (lookup_atom_app _ u _ _ (Hk n Hn)))).
  rewrite Ht', app_nil_r. f_equal. f_equal. apply map_ext_in.
  intros n Hn. apply atom_in_app, Hk, Hn.
Qed.

(** C26 Line 465 interns the name "XA_ATOM", which is not the name of the
    predefined atom [XA_ATOM] (4, "ATOM") that the code means: on a
    server with the predefined atoms, the type the code gives the
    XdndAware property is never the atom type. *)
Theorem xa_atom_not_predefined t :
  nth 3 t ""%string = "ATOM"%string ->
  XA_ATOM (snd (intern_setup_atoms t)) <> XA_ATOM_predefined.
Proof.
  intros H4 Heq. rewrite intern_setup_atoms_eq in Heq. cbn [snd] in Heq.
  destruct (intern_all_spec setup_atom_names t) as (u & Ht & _ & _ & Hk & _).
  pose proof (lookup_atom_nth _ _ _ (Hk "XA_ATOM"%string ltac:(cbn; tauto))) as Hn.
  change (XA_ATOM (atoms_of _)) with (atom_in (fst (intern_all t setup_atom_names)) "XA_ATOM"%string)
    in Heq.
  rewrite Heq in Hn. change (Z.to_nat (XA_ATOM_predefined - 1)) with 3%nat in Hn.
  rewrite Ht, app_nth1 in Hn.
  - rewrite H4 in Hn. discriminate.
  - destruct (Nat.lt_ge_cases 3 (List.length t)) as [|Hge]; [assumption|].
    rewrite nth_overflow in H4 by exact Hge. discriminate.
Qed.

(** The interning of a server with only the predefined atoms is
    [std_atoms]. *)
Lemma std_atoms_interned : snd (intern_setup_atoms predefined_atoms) = std_atoms.
Proof. vm_compute. reflexivity. Qed.

(** ** Witnesses *)

Lemma intern_setup_wf_witness : atoms_wf (snd (intern_setup_atoms predefined_atoms)).
Proof. apply intern_setup_wf. vm_compute. reflexivity. Defined.

Lemma xa_atom_not_predefined_witness :
  XA_ATOM (snd (intern_setup_atoms predefined_atoms)) <> XA_ATOM_predefined.
Proof. apply xa_atom_not_predefined. reflexivity. Defined.
