(* ===== verification/Codec.v ===== *)
(** * Message codec

    The ClientMessage each sender of src/spawn_window.c builds (the
    body of [sendXdndEnter] .. [sendXdndFinished] after its guard; the
    guards are in [Session]), the 32-bit wire a format-32 ClientMessage
    travels over, and the target's decoding of the packed position
    ([l[2] >> 16], [l[2] & 0xFFFF]).  The spec's tagged-union view of
    the six messages (spec sections 6 and 9) is [XdndMsg] with [encode]
    and [decode]; the builders are shown to be [encode] at the right
    variant, and [decode] inverts [encode] across the wire. *)

From Stdlib Require Import ZArith List String Bool Lia.
From S2P Require Import Prelude XTypes.
Import ListNotations.
Open Scope Z_scope.

Section Builders.
Context (A : Atoms).

(** The zero-filled ClientMessage of [memset(&message, 0, ...)] with
    its type, display-free header filled in. *)
Definition client_message (target : Window) (type : Atom) (d0 d1 d2 d3 d4 : Z)
  : XClientMessageEvent :=
  {| cm_window := target; message_type := type; cm_format := 32;
     l0 := d0; l1 := d1; l2 := d2; l3 := d3; l4 := d4 |}.

(** [sendXdndEnter], lines 159-170: [l[1] = xdndVersion << 24],
    [l[2] = typesWeAccept[0]], [l[3] = l[4] = None]. *)
Definition xdndEnter_msg (xdndVersion : Z) (source target : Window) :=
  client_message target (XdndEnter A) (to_long source)
    (to_int (Z.shiftl xdndVersion 24))
    (to_long (hd XNone (typesWeAccept A))) XNone XNone.

(** The packed position [p_rootX << 16 | p_rootY], computed in [int]. *)
Definition pack_position (p_rootX p_rootY : Z) : Z :=
  to_int (Z.lor (Z.shiftl p_rootX 16) p_rootY).

(** [sendXdndPosition], lines 184-195; [time] is the [int] parameter. *)
Definition xdndPosition_msg (source target : Window) (time p_rootX p_rootY : Z) :=
  client_message target (XdndPosition A) (to_long source) 0
    (pack_position p_rootX p_rootY) time (to_long (XdndActionCopy A)).

(** [sendXdndLeave], lines 208-216. *)
Definition xdndLeave_msg (source target : Window) :=
  client_message target (XdndLeave A) (to_long source) 0 0 0 0.

(** [sendXdndFinished], lines 229-238. *)
Definition xdndFinished_msg (source target : Window) :=
  client_message target (XdndFinished A) (to_long source) 1
    (to_long (XdndActionCopy A)) 0 0.

(** [sendXdndStatus], lines 251-266: accept bit set, empty rectangle. *)
Definition xdndStatus_msg (source target : Window) (action : Atom) :=
  client_message target (XdndStatus A) (to_long source) 1 0 0 (to_long action).

(** [sendXdndDrop], lines 279-288: [l[2]] is the session's
    [xdndLastPositionTimestamp]. *)
Definition xdndDrop_msg (source target : Window) (lastPositionTimestamp : Time) :=
  client_message target (XdndDrop A) (to_long source) 0
    (to_long lastPositionTimestamp) 0 0.
End Builders.

(** ** The wire *)

(** [XSendEvent] of a format-32 ClientMessage: each [long] slot is sent
    as a CARD32 and sign-extended on receipt. *)
Definition wire_cm (m : XClientMessageEvent) : XClientMessageEvent :=
  {| cm_window := cm_window m; message_type := message_type m;
     cm_format := cm_format m;
     l0 := wire32 (l0 m); l1 := wire32 (l1 m); l2 := wire32 (l2 m);
     l3 := wire32 (l3 m); l4 := wire32 (l4 m) |}.

(** The target's reading of [l[2]] of an XdndPosition, lines 804-805:
    [p_rootX = l[2] >> 16; p_rootY = l[2] & 0xFFFF;] into [int]s. *)
Definition unpack_position (d2 : Z) : Z * Z :=
  (to_int (Z.shiftr d2 16), to_int (Z.land d2 65535)).

(** ** Arithmetic of the packing *)

Lemma lor_shiftl_disjoint x y k :
  0 <= k -> 0 <= y < 2 ^ k -> Z.lor (Z.shiftl x k) y = Z.shiftl x k + y.
Proof.
  intros Hk Hy.
  assert (Hland : Z.land (Z.shiftl x k) y = 0).
  { apply Z.bits_inj'. intros n Hn. rewrite Z.land_spec, Z.bits_0.
    destruct (Z.lt_ge_cases n k) as [Hlt | Hge].
    - rewrite Z.shiftl_spec_low by lia. reflexivity.
    - rewrite <- (Z.mod_small y (2 ^ k)) by lia.
      rewrite Z.mod_pow2_bits_high by lia. apply andb_false_r. }
  rewrite <- Z.lxor_lor by exact Hland.
  symmetry. apply Z.add_nocarry_lxor. exact Hland.
Qed.

Lemma pack_position_value x y :
  0 <= x < 2 ^ 16 -> 0 <= y < 2 ^ 16 ->
  pack_position x y = swrap 32 (x * 2 ^ 16 + y).
Proof.
  intros Hx Hy. unfold pack_position, to_int.
  rewrite lor_shiftl_disjoint by lia. rewrite Z.shiftl_mul_pow2 by lia.
  reflexivity.
Qed.

Lemma unpack_small x y :
  0 <= x < 2 ^ 15 -> 0 <= y < 2 ^ 16 -> unpack_position (x * 2 ^ 16 + y) = (x, y).
Proof.
  intros Hx Hy. unfold unpack_position. rewrite Z.shiftr_div_pow2 by lia.
  change 65535 with (Z.ones 16). rewrite Z.land_ones by lia.
  f_equal; rewrite to_int_small; Z.div_mod_to_equations; lia.
Qed.

(** C27 Position packing across the wire: for 16-bit coordinates, the
    target decodes [p_rootY] as sent but [p_rootX] as its 16-bit two's
    complement reading, so an x of 2^15 or more (a root window wider
    than 32767 pixels) arrives negative. *)
Theorem unpack_pack x y :
  0 <= x < 2 ^ 16 -> 0 <= y < 2 ^ 16 ->
  unpack_position (wire32 (to_long (pack_position x y))) = (swrap 16 x, y).
Proof.
  intros Hx Hy.
  pose proof (swrap_range 32 (x * 2 ^ 16 + y) ltac:(lia)) as Hr.
  rewrite pack_position_value by assumption.
  rewrite to_long_small by lia. rewrite wire32_small by lia.
  unfold unpack_position. rewrite Z.shiftr_div_pow2 by lia.
  change 65535 with (Z.ones 16). rewrite Z.land_ones by lia.
  destruct (Z.lt_ge_cases x (2 ^ 15)) as [Hlo | Hhi].
  - rewrite (swrap_small 32 (x * 2 ^ 16 + y)) by lia.
    rewrite (swrap_small 16 x) by lia.
    f_equal; rewrite to_int_small; Z.div_mod_to_equations; lia.
  - rewrite (swrap_high 32 (x * 2 ^ 16 + y)) by lia.
    rewrite (swrap_high 16 x) by lia.
    f_equal; rewrite to_int_small; Z.div_mod_to_equations; lia.
Qed.

(** ** Spec view: the six messages as a tagged union *)

Inductive XdndMsg :=
| MEnter (source : Window) (version : Z) (type0 : Atom)
| MPosition (source : Window) (x y : Z) (time : Z) (action : Atom)
| MLeave (source : Window)
| MStatus (source : Window) (accept : bool) (action : Atom)
| MDrop (source : Window) (time : Time)
| MFinished (source : Window).

Section Spec.
Context (A : Atoms).

(** The slot table of spec section 6. *)
Definition encode (target : Window) (m : XdndMsg) : XClientMessageEvent :=
  match m with
  | MEnter s v t =>
      client_message target (XdndEnter A) s (Z.shiftl v 24) t 0 0
  | MPosition s x y t a =>
      client_message target (XdndPosition A) s 0
        (Z.lor (Z.shiftl x 16) y) t a
  | MLeave s => client_message target (XdndLeave A) s 0 0 0 0
  | MStatus s acc a =>
      client_message target (XdndStatus A) s (if acc then 1 else 0) 0 0 a
  | MDrop s t => client_message target (XdndDrop A) s 0 t 0 0
  | MFinished s =>
      client_message target (XdndFinished A) s 1 (XdndActionCopy A) 0 0
  end.

(** Reading the slots back the way the receiving handlers do. *)
Definition decode (m : XClientMessageEvent) : option XdndMsg :=
  let t := message_type m in
  let s := to_ulong (l0 m) in
  if t =? XdndEnter A then
    Some (MEnter s (Z.shiftr (l1 m) 24) (to_ulong (l2 m)))
  else if t =? XdndPosition A then
    let '(x, y) := unpack_position (l2 m) in
    Some (MPosition s x y (l3 m) (to_ulong (l4 m)))
  else if t =? XdndLeave A then Some (MLeave s)
  else if t =? XdndStatus A then
    Some (MStatus s (Z.land (l1 m) 1 =? 1) (to_ulong (l4 m)))
  else if t =? XdndDrop A then Some (MDrop s (to_ulong (l2 m)))
  else if t =? XdndFinished A then Some (MFinished s)
  else None.
End Spec.

(** ** Properties of the codec *)

Lemma wire_nonneg z : 0 <= z < 2 ^ 31 -> to_ulong (wire32 z) = z.
Proof.
  intros H. rewrite wire32_small by lia. apply to_ulong_small. lia.
Qed.

Lemma shiftr_shiftl_small v k :
  0 <= k -> Z.shiftr (Z.shiftl v k) k = v.
Proof.
  intros Hk. rewrite Z.shiftr_shiftl_l by lia. rewrite Z.sub_diag.
  apply Z.shiftl_0_r.
Qed.

#[export] Hint Rewrite wire_nonneg using lia : xdnd_rw.

(** Field bounds under which a message survives the 32-bit wire. *)
(** The builder of the code that sends each message: the fields the
    code fixes (the type slot of XdndEnter, the action of XdndPosition,
    the accept bit of XdndStatus) are ignored here and constrained by
    [code_msgb]. *)
Definition build (A : Atoms) (target : Window) (m : XdndMsg) : XClientMessageEvent :=
  match m with
  | MEnter s v _ => xdndEnter_msg A v s target
  | MPosition s x y t _ => xdndPosition_msg A s target t x y
  | MLeave s => xdndLeave_msg A s target
  | MStatus s _ a => xdndStatus_msg A s target a
  | MDrop s t => xdndDrop_msg A s target t
  | MFinished s => xdndFinished_msg A s target
  end.

Definition code_msgb (A : Atoms) (m : XdndMsg) : bool :=
  match m with
  | MEnter _ _ t => t =? hd XNone (typesWeAccept A)
  | MPosition _ _ _ _ a => a =? XdndActionCopy A
  | MStatus _ acc _ => acc
  | _ => true
  end.

Definition u31 (z : Z) : bool := (0 <=? z) && (z <? 2 ^ 31).

Definition msg_okb (m : XdndMsg) : bool :=
  match m with
  | MEnter s v t => xid_okb s && (0 <=? v) && (v <? 128) && u31 t
  | MPosition s x y t a =>
      xid_okb s && (0 <=? x) && (x <? 2 ^ 15) && (0 <=? y) && (y <? 2 ^ 16)
      && (- 2 ^ 31 <=? t) && (t <? 2 ^ 31) && u31 a
  | MLeave s | MFinished s => xid_okb s
  | MStatus s _ a => xid_okb s && u31 a
  | MDrop s t => xid_okb s && u31 t
  end.



(** [decode] inverts [encode] across the wire, for fields in range. *)
Lemma decode_encode A target m :
  atoms_wf A -> msg_okb m = true ->
  decode A (wire_cm (encode A target m)) = Some m.
Proof.
  intros HA Hok. atoms_nodup HA.
  destruct m; simpl in Hok; rewrite ?xid_okb_spec_b in Hok; unfold u31 in Hok;
    zbool; unfold xid_okb in *; zbool;
    unfold decode, encode, wire_cm, client_message; simpl message_type;
    rewrite ?Z.eqb_refl; case_ifs; zbool; try (exfalso; intuition congruence);
    atoms_forget; cbn [l0 l1 l2 l3 l4]; rewrite ?wire_nonneg by lia.
  - rewrite Z.shiftl_mul_pow2 by lia. rewrite wire32_small by lia.
    rewrite <- Z.shiftl_mul_pow2 by lia. rewrite shiftr_shiftl_small by lia.
    reflexivity.
  - rewrite lor_shiftl_disjoint by lia. rewrite Z.shiftl_mul_pow2 by lia.
    rewrite wire32_small by lia. rewrite unpack_small by lia.
    rewrite wire32_small by lia. reflexivity.
  - reflexivity.
  - reflexivity.
  - reflexivity.
  - reflexivity.
  - reflexivity.
Qed.

Lemma build_encode A target m :
  atoms_wf A -> msg_okb m = true -> code_msgb A m = true ->
  build A target m = encode A target m.
Proof.
  intros HA Hok Hc. pose proof HA as (_ & _ & Hx & Hlen & Hac & _).
  destruct m as [s v t0|s x y t a|s|s acc a|s t|s];
    simpl in Hok, Hc; unfold u31, xid_okb in Hok; zbool;
    cbn [build encode]; unfold xdndEnter_msg, xdndPosition_msg, xdndLeave_msg,
    xdndStatus_msg, xdndDrop_msg, xdndFinished_msg, pack_position, client_message;
    unfold xid_ok in Hac; rewrite ?(to_long_small s) by lia; subst.
  - destruct (typesWeAccept A) as [|t1 rest]; [discriminate|].
    inversion Hx as [|? ? Ht1 _]; subst. unfold xid_ok in Ht1. cbn [hd].
    rewrite Z.shiftl_mul_pow2 by lia. rewrite to_int_small, to_long_small by lia.
    reflexivity.
  - rewrite lor_shiftl_disjoint by lia. rewrite Z.shiftl_mul_pow2 by lia.
    rewrite to_int_small, to_long_small by lia. reflexivity.
  - reflexivity.
  - rewrite to_long_small by lia. reflexivity.
  - rewrite to_long_small by lia. reflexivity.
  - rewrite to_long_small by lia. reflexivity.
Qed.

(** C9 Message round trip: each message the senders of the code build
    ([sendXdndEnter] .. [sendXdndFinished]), sent over the 32-bit wire
    and read back the way the receiving handlers read its slots, is the
    message of the spec's table (section 6) it stands for, as long as
    its fields are in range: window ids of 29 bits, a version below 128,
    the x coordinate below 2^15, y below 2^16, a time of [int] range. *)
Theorem build_decode A target m :
  atoms_wf A -> msg_okb m = true -> code_msgb A m = true ->
  decode A (wire_cm (build A target m)) = Some m.
Proof.
  intros HA Hok Hc. rewrite build_encode by assumption.
  apply decode_encode; assumption.
Qed.

(** The timestamp slot of an XdndPosition built from an [int] time, read
    back as an unsigned [long] after the sign-extending wire. *)
Theorem position_time_wire A source target t x y :
  0 <= t < 2 ^ 32 ->
  to_ulong (l3 (wire_cm (xdndPosition_msg A source target (to_int t) x y)))
  = if t <? 2 ^ 31 then t else t + 2 ^ 64 - 2 ^ 32.
Proof.
  intros Ht. cbn [xdndPosition_msg client_message wire_cm l3].
  destruct (Z.ltb_spec t (2 ^ 31)) as [Hlt | Hge].
  - rewrite (to_int_small t) by lia. apply wire_nonneg. lia.
  - unfold to_int. rewrite (swrap_high 32 t) by lia.
    rewrite wire32_small by lia. unfold to_ulong.
    rewrite <- (Z.mod_add (t - 2 ^ 32) 1 (2 ^ 64)) by lia.
    rewrite Z.mod_small by lia. ring.
Qed.

(** ** Witnesses *)

Lemma build_decode_witness :
  decode std_atoms (wire_cm (build std_atoms 200 (MPosition 100 300 40 1234 73)))
  = Some (MPosition 100 300 40 1234 73).
Proof.
  apply build_decode; [exact std_atoms_wf | vm_compute; reflexivity | vm_compute; reflexivity].
Defined.

Lemma position_time_wire_witness :
  to_ulong (l3 (wire_cm (xdndPosition_msg std_atoms 100 200 (to_int 2147483648) 300 40)))
  = 18446744071562067968.
Proof. apply (position_time_wire std_atoms 100 200 2147483648 300 40). lia. Defined.

Lemma unpack_pack_witness :
  unpack_position (wire32 (to_long (pack_position 40000 40))) = (swrap 16 40000, 40).
Proof. apply unpack_pack; lia. Defined.
