(* ===== verification/Negotiate.v ===== *)
(** * Type negotiation

    [doWeAcceptAtom] (src/spawn_window.c, lines 338-347), the scan of
    [getSupportedType] over the source's XdndTypeList property (lines
    351-375) and the inline scan of the three type slots of XdndEnter
    (lines 756-762).  The spec (section 4.2) asks for the first type of
    the peer's list, in the peer's order, that we accept, and for None
    when there is no overlap: [negotiated] states this, and the scans
    are shown to compute it. *)

From Stdlib Require Import ZArith List String Bool Lia.
From S2P Require Import Prelude XTypes Codec.
Import ListNotations.
Open Scope Z_scope.

Section Negotiate.
Context (A : Atoms).

(** [for (i = 0; i < 6; ++i) if (a == typesWeAccept[i]) return true;] *)
Definition doWeAcceptAtom (a : Atom) : bool :=
  existsb (fun t => a =? t) (typesWeAccept A).

(** The loop shared by both scans: the first advertised atom we accept,
    [None] when the loop runs to its end. *)
Fixpoint first_accepted (adv : list Atom) : Atom :=
  match adv with
  | [] => XNone
  | a :: rest => if doWeAcceptAtom a then a else first_accepted rest
  end.

(** [getSupportedType]: read at most 1024 32-bit items of the
    XdndTypeList property of the source window; [None] when the read
    does not return [Success] or the property does not exist.  A property of another
    format is read as an array of [Atom]s all the same, past its end
    once it holds any item: that read is undefined. *)
Definition getSupportedType (v : XView) (source : Window) : outcome Atom :=
  if v_fails v "XGetWindowProperty" then Ok XNone else
  match v_prop v source (XdndTypeList A) with
  | None => Ok XNone
  | Some p =>
      if p_format p =? 32 then Ok (first_accepted (firstn 1024 (p_items p)))
      else match p_items p with
           | [] => Ok XNone
           | _ => Undefined "getSupportedType: items are not Atoms"
           end
  end.

(** The inline scan of [l[2]], [l[3]], [l[4]] of an XdndEnter, each
    [long] read as an [Atom]. *)
Definition inline_type (m : XClientMessageEvent) : Atom :=
  first_accepted (map to_ulong [l2 m; l3 m; l4 m]).

(** The choice of lines 749-763: the type list when bit 0 of [l[1]]
    says there are more than three types, the inline slots otherwise. *)
Definition enter_proposed_type (v : XView) (m : XClientMessageEvent)
  : outcome Atom :=
  if Z.land (l1 m) 1 =? 0 then Ok (inline_type m)
  else getSupportedType v (to_ulong (l0 m)).

(** ** Specification: first acceptable in peer order *)

Definition accepted (a : Atom) : Prop := In a (typesWeAccept A).

Definition negotiated (adv : list Atom) (r : Atom) : Prop :=
  (r = XNone /\ Forall (fun a => ~ accepted a) adv) \/
  (exists pre post, adv = pre ++ r :: post /\ accepted r /\
                    Forall (fun a => ~ accepted a) pre).

Lemma doWeAcceptAtom_spec a : doWeAcceptAtom a = true <-> accepted a.
Proof.
  unfold doWeAcceptAtom, accepted. rewrite existsb_exists.
  split.
  - intros [t [Hin Heq]]. apply Z.eqb_eq in Heq. subst. exact Hin.
  - intros Hin. exists a. split; [exact Hin | apply Z.eqb_refl].
Qed.

Lemma doWeAcceptAtom_false a : doWeAcceptAtom a = false <-> ~ accepted a.
Proof.
  rewrite <- doWeAcceptAtom_spec. destruct (doWeAcceptAtom a); intuition congruence.
Qed.

Lemma none_not_accepted : atoms_wf A -> ~ accepted XNone.
Proof.
  intros (_ & _ & Hx & _). unfold accepted. intros Hin.
  rewrite Forall_forall in Hx. apply Hx in Hin. unfold xid_ok, XNone in Hin. lia.
Qed.

Lemma first_accepted_sound adv : negotiated adv (first_accepted adv).
  Proof.
    induction adv as [|a rest IH]; simpl.
    - left. split; [reflexivity | constructor].
    - destruct (doWeAcceptAtom a) eqn:E.
      + right. exists [], rest. split; [reflexivity|].
        split; [apply doWeAcceptAtom_spec; exact E | constructor].
      + apply doWeAcceptAtom_false in E.
        destruct IH as [[Hn Hall] | (pre & post & Heq & Hacc & Hpre)].
        * left. split; [exact Hn | constructor; assumption].
        * right. exists (a :: pre), post.
          split; [simpl; f_equal; exact Heq|].
          split; [exact Hacc | constructor; assumption].
  Qed.

Lemma negotiated_unique adv r : negotiated adv r -> r = first_accepted adv.
  Proof.
    intros [[-> Hall] | (pre & post & -> & Hacc & Hpre)].
    - induction adv as [|a rest IH]; simpl; [reflexivity|].
      inversion Hall as [|? ? Ha Hrest]; subst.
      apply doWeAcceptAtom_false in Ha. rewrite Ha. apply IH. exact Hrest.
    - induction pre as [|a pre IH]; simpl.
      + apply doWeAcceptAtom_spec in Hacc. rewrite Hacc. reflexivity.
      + inversion Hpre as [|? ? Ha Hrest]; subst.
        apply doWeAcceptAtom_false in Ha. rewrite Ha. apply IH. exact Hrest.
  Qed.
End Negotiate.

(** The scan of [getSupportedType] and of the XdndEnter slots computes
    exactly the spec's negotiation: the first advertised type we accept,
    in the peer's order, or None when nothing overlaps. *)
Theorem first_accepted_refines A adv r :
  negotiated A adv r <-> r = first_accepted A adv.
Proof.
  split.
  - apply negotiated_unique.
  - intros ->. apply first_accepted_sound.
Qed.

(** Two copies of this program always agree on a type: the XdndEnter
    that [sendXdndEnter] builds, once across the wire, advertises its
    types inline, and the receiving scan picks [typesWeAccept[0]]
    ("text/uri-list"). *)
Theorem own_enter_negotiates A (vw : XView) version source target :
  atoms_wf A -> 0 <= version < 128 -> xid_ok source ->
  enter_proposed_type A vw (wire_cm (xdndEnter_msg A version source target))
  = Ok (hd XNone (typesWeAccept A)).
Proof.
  intros HA Hv Hs. pose proof HA as (_ & _ & Hx & Hlen & _).
  destruct (typesWeAccept A) as [|t0 rest] eqn:Ht; [discriminate|].
  inversion Hx as [|? ? Ht0 _]; subst.
  unfold enter_proposed_type, inline_type, xdndEnter_msg, client_message, wire_cm.
  rewrite Ht. cbn [l1 l2 l3 l4 hd]. unfold to_int.
  rewrite Z.shiftl_mul_pow2 by lia.
  rewrite (swrap_small 32 (version * 2 ^ 24)) by lia.
  rewrite wire32_small by lia.
  change 1 with (Z.ones 1) at 1. rewrite Z.land_ones by lia.
  replace (version * 2 ^ 24) with ((version * 2 ^ 23) * 2 ^ 1) by ring.
  rewrite Z.mod_mul by lia.
  cbn -[to_long wire32 to_ulong].
  rewrite to_long_small by (unfold xid_ok in Ht0; lia).
  rewrite wire_nonneg by (unfold xid_ok in Ht0; lia).
  unfold doWeAcceptAtom. rewrite Ht. simpl. rewrite Z.eqb_refl. reflexivity.
Qed.

(** C22 The type list path of XdndEnter: with more than three types the
    target reads the source's XdndTypeList property and, when it holds
    at most the 1024 atoms read, picks exactly the spec's type: the
    first of the list, in the source's order, that it accepts. *)
Theorem getSupportedType_negotiates A v source t items :
  v_fails v "XGetWindowProperty" = false ->
  v_prop v source (XdndTypeList A) = Some {| p_type := t; p_format := 32; p_items := items |} ->
  (List.length items <= 1024)%nat ->
  exists r, getSupportedType A v source = Ok r /\ negotiated A items r.
Proof.
  intros Hf Hp Hlen. unfold getSupportedType. rewrite Hf, Hp. cbn [p_format p_items Z.eqb].
  rewrite firstn_all2 by exact Hlen.
  eexists. split; [reflexivity | apply first_accepted_sound].
Qed.

(** ** Witnesses *)

Lemma own_enter_negotiates_witness :
  enter_proposed_type std_atoms empty_view (wire_cm (xdndEnter_msg std_atoms 5 100 200))
  = Ok 83.
Proof.
  apply (own_enter_negotiates std_atoms empty_view 5 100 200);
    [exact std_atoms_wf | lia | unfold xid_ok; lia].
Defined.

Lemma getSupportedType_negotiates_witness :
  exists r, getSupportedType std_atoms
              {| v_tree := v_tree empty_view;
                 v_prop := fun _ _ => Some {| p_type := 70; p_format := 32;
                                              p_items := [500; 84; 83] |};
                 v_pointer := v_pointer empty_view; v_read_file := v_read_file empty_view;
                 v_fails := v_fails empty_view |}
              100 = Ok r /\ negotiated std_atoms [500; 84; 83] r.
Proof.
  apply (getSupportedType_negotiates std_atoms _ 100 70); [reflexivity | reflexivity | cbn; lia].
Defined.
