(* ===== verification/Payload.v ===== *)
(** * Payload transfer

    The bytes the source writes into the requestor's property in
    [sendSelectionNotify] (src/spawn_window.c, lines 300-315), the
    target's [getCopiedData] (lines 378-427), and the colour file of
    src/square_state.c ([saveSquareState], [restoreSquareState]).
    C character arrays are [string]s read up to their first NUL
    ([cstr]); property items and file contents are byte values in [Z]. *)

From Stdlib Require Import ZArith List String Ascii Bool Lia.
From S2P Require Import Prelude XTypes.
Import ListNotations.
Open Scope Z_scope.

(** ** C strings *)

Definition NUL : ascii := Ascii.zero.
Definition CR : ascii := ascii_of_nat 13.
Definition LF : ascii := ascii_of_nat 10.

(** The C string a [char *] points to: the characters up to the first NUL. *)
Fixpoint cstr (s : string) : string :=
  match s with
  | EmptyString => EmptyString
  | String c rest => if Ascii.eqb c NUL then EmptyString else String c (cstr rest)
  end.

Definition strlen (s : string) : nat := String.length (cstr s).

(** [strstr(hay, needle) != NULL] gives the offset of the first match. *)
Definition strstr (hay needle : string) : option nat := index 0 needle (cstr hay).

(** [p + n] for a [char *p]. *)
Fixpoint skip (n : nat) (s : string) : string :=
  match n, s with
  | O, _ => s
  | S n', String _ rest => skip n' rest
  | S _, EmptyString => EmptyString
  end.

(** The C string of [s] after [s[n] = '\0']. *)
Fixpoint truncate (n : nat) (s : string) : string :=
  match n, s with
  | O, _ => EmptyString
  | S n', String c rest => String c (truncate n' rest)
  | S _, EmptyString => EmptyString
  end.

(** Bytes of a [char] array and back ([unsigned char] values). *)
Definition byte_of_ascii (c : ascii) : Z := Z.of_N (N_of_ascii c).
Definition ascii_of_byte (b : Z) : ascii := ascii_of_N (Z.to_N (b mod 256)).

Fixpoint bytes_of_string (s : string) : list Z :=
  match s with
  | EmptyString => []
  | String c rest => byte_of_ascii c :: bytes_of_string rest
  end.

Fixpoint string_of_bytes (bs : list Z) : string :=
  match bs with
  | [] => EmptyString
  | b :: rest => String (ascii_of_byte b) (string_of_bytes rest)
  end.

(** ** Little-endian integers *)

(** The [n] bytes of [z] in memory on a little-endian machine. *)
Fixpoint le_bytes (n : nat) (z : Z) : list Z :=
  match n with
  | O => []
  | S n' => z mod 256 :: le_bytes n' (z / 256)
  end.

Definition le_value (bs : list Z) : Z := fold_right (fun b acc => b + 256 * acc) 0 bs.

(** ** Source side: the property written by [sendSelectionNotify] *)

Definition file_prefix : string := "file://".

(** [strcpy(propertyData, "file://"); strcat(propertyData, pathStr);]
    then CR, LF; the [sizeOfPropertyData - 1] bytes without the NUL. *)
Definition selection_payload (pathStr : string) : list Z :=
  bytes_of_string (file_prefix ++ cstr pathStr ++ String CR (String LF EmptyString)).

(** ** Target side: [getCopiedData] *)

(** [XGetWindowProperty(..., 0, 1024, ...)] returns at most 1024 32-bit
    units: 4096 items of format 8, 2048 of format 16, 1024 of format 32. *)
Definition item_limit (format : Z) : nat :=
  if format =? 8 then 4096%nat else if format =? 16 then 2048%nat else 1024%nat.

(** The data buffer Xlib hands back holds [char]s, [short]s or [long]s. *)
Definition client_bytes (format : Z) (items : list Z) : list Z :=
  if format =? 8 then map (fun b => b mod 256) items
  else if format =? 16 then flat_map (le_bytes 2) items
  else flat_map (le_bytes 8) items.

(** [memcpy(tempBuffer, data, numOfItems)]: the first [numOfItems]
    bytes of the buffer, whatever the format. *)
Definition copied_bytes (p : option PropVal) : list Z :=
  match p with
  | None => []
  | Some p =>
      let items := firstn (item_limit (p_format p)) (p_items p) in
      firstn (List.length items) (client_bytes (p_format p) items)
  end.

(** The string [tempPtr] points to after the prefix test of lines
    402-407: [tempBuffer + 7] when "file://" occurs anywhere in it. *)
Definition after_prefix (tempBuffer : string) : string :=
  match strstr tempBuffer file_prefix with
  | Some _ => cstr (skip 7 tempBuffer)
  | None => cstr tempBuffer
  end.

(** Lines 411-421.  [tempPtr[strlen(tempPtr)-2]] with [strlen] below 2
    indexes far outside the buffer ([size_t] wrap-around). *)
Definition strip_crlf (tempPtr : string) : outcome string :=
  let n := String.length tempPtr in
  if (n <? 2)%nat then Undefined "getCopiedData: read before the buffer"
  else if (match String.get (n - 2)%nat tempPtr, String.get (n - 1)%nat tempPtr with
           | Some c1, Some c2 => Ascii.eqb c1 CR && Ascii.eqb c2 LF
           | _, _ => false
           end)
       then Ok (truncate (n - 2) tempPtr)
       else Ok tempPtr.

Section Target.
Context (A : Atoms).

(** [getCopiedData(disp, wind)]: the XDND_DATA property of our window
    (an absent property reads as no items); [None] is the [NULL] it
    returns when [XGetWindowProperty] does not return [Success]; a
    failing [malloc] (lines 391-393 and 415-417) ends the process. *)
Definition getCopiedData (v : XView) (source : Window) : outcome (option string) :=
  if v_fails v "XGetWindowProperty" then Ok None else
  if v_fails v "malloc" then philError "malloc" else
  outcome_bind
    (strip_crlf (after_prefix (string_of_bytes (copied_bytes (v_prop v source (XDND_DATA A))))))
    (fun tempPtr => if v_fails v "malloc" then philError "malloc" else Ok (Some tempPtr)).
End Target.

(** ** The colour file (src/square_state.c) *)

Definition SQUARE_FILE_PATH : string := "/tmp/square.state".

(** [sizeof(SquareColour)]: the enum is an [unsigned int]. *)
Definition colour_size : nat := 4.

(** The bytes [saveSquareState] writes: [fwrite] of the colour. *)
Definition saveSquareState_bytes (sq : Square) : list Z := le_bytes colour_size (colour sq).

(** [saveSquareState] (lines 11-27): [fopen(SQUARE_FILE_PATH, "wb")],
    [fwrite] of the colour, [fclose], each failing call ending the
    process through [philError]; the path and the file's new contents. *)
Definition saveSquareState (v : XView) (sq : Square) : outcome (string * list Z) :=
  if v_fails v "fopen" then philError "fopen" else
  if v_fails v "fwrite" then philError "fwrite" else
  if v_fails v "fclose" then philError "fclose" else
  Ok (SQUARE_FILE_PATH, saveSquareState_bytes sq).

(** [square->colour = c] *)
Definition set_colour (sq : Square) (c : SquareColour) : Square :=
  {| sq_x := sq_x sq; sq_y := sq_y sq; mouse_x := mouse_x sq;
     mouse_y := mouse_y sq; size := size sq; visible := visible sq;
     selected := selected sq; colour := c |}.

(** [restoreSquareState] (lines 30-44): [fopen(pathStr, "rb")], [fread]
    of one colour, [fclose], each failing call ending the process
    through [philError]; [fopen] of the [NULL] path [getCopiedData]
    returns on a failed read is undefined. *)
Definition restoreSquareState (v : XView) (pathStr : option string) (sq : Square)
  : outcome Square :=
  match pathStr with
  | None => Undefined "restoreSquareState: fopen(NULL)"
  | Some path =>
      if v_fails v "fopen" then philError "fopen" else
      match v_read_file v (cstr path) with
      | None => philError "fopen"
      | Some bytes =>
          if (List.length bytes <? colour_size)%nat then philError "fread"
          else if v_fails v "fclose" then philError "fclose"
          else Ok (set_colour sq (le_value (firstn colour_size bytes)))
      end
  end.

(** ** Lemmas on C strings and bytes *)

(** A server on which window [w] holds an XDND_DATA property of
    format 8 with the given bytes, and a file system where every file
    holds [file]. *)
Definition payload_view (A : Atoms) (w : Window) (items file : list Z) : XView :=
  {| v_tree := WNode 1 0 0 1000 1000 [];
     v_prop := fun w' a =>
       if (w' =? w) && (a =? XDND_DATA A)
       then Some {| p_type := 83; p_format := 8; p_items := items |} else None;
     v_pointer := (0, 0); v_read_file := fun _ => Some file; v_fails := fun _ => false |}.

Definition ex_sq : Square :=
  {| sq_x := 0; sq_y := 0; mouse_x := 0; mouse_y := 0; size := 50;
     visible := false; selected := false; colour := RedSquare |}.

Local Open Scope string_scope.

Fixpoint has_nul (s : string) : bool :=
  match s with
  | EmptyString => false
  | String c rest => Ascii.eqb c NUL || has_nul rest
  end.

Lemma cstr_app p r : has_nul p = false -> cstr (p ++ r) = p ++ cstr r.
Proof.
  induction p as [|c p IH]; simpl; intros H; [reflexivity|].
  apply orb_false_iff in H as [Hc Hp]. rewrite Hc, IH by exact Hp. reflexivity.
Qed.

Lemma cstr_no_nul s : has_nul s = false -> cstr s = s.
Proof.
  induction s as [|c s IH]; simpl; intros H; [reflexivity|].
  apply orb_false_iff in H as [Hc Hs]. rewrite Hc, IH by exact Hs. reflexivity.
Qed.

Lemma has_nul_cstr s : has_nul (cstr s) = false.
Proof.
  induction s as [|c s IH]; simpl; [reflexivity|].
  destruct (Ascii.eqb c NUL) eqn:E; simpl; [reflexivity|]. rewrite E. exact IH.
Qed.

Lemma has_nul_app p r : has_nul (p ++ r) = has_nul p || has_nul r.
Proof.
  induction p as [|c p IH]; simpl; [reflexivity|]. rewrite IH. apply orb_assoc.
Qed.

Lemma skip_app p r : skip (String.length p) (p ++ r) = r.
Proof. induction p as [|c p IH]; simpl; [reflexivity | exact IH]. Qed.

Lemma truncate_app p r : truncate (String.length p) (p ++ r) = p.
Proof. induction p as [|c p IH]; simpl; [reflexivity | rewrite IH; reflexivity]. Qed.

Lemma get_app_len p c r : String.get (String.length p) (p ++ String c r) = Some c.
Proof. induction p as [|c' p IH]; simpl; [reflexivity | exact IH]. Qed.

Lemma length_app_string p r : String.length (p ++ r) = (String.length p + String.length r)%nat.
Proof. induction p as [|c p IH]; simpl; [reflexivity | rewrite IH; reflexivity]. Qed.

Lemma prefix_app p r : prefix p (p ++ r) = true.
Proof.
  induction p as [|c p IH]; simpl; [destruct r; reflexivity|].
  destruct (ascii_dec c c) as [_|n]; [exact IH | contradiction].
Qed.

Lemma index_prefix p r : index 0 p (p ++ r) = Some 0%nat.
Proof.
  destruct (p ++ r) as [|b s'] eqn:E.
  - destruct p; [reflexivity | discriminate].
  - change (index 0 p (String b s')) with
      (if prefix p (String b s') then Some 0%nat
       else match index 0 p s' with Some n => Some (S n) | None => None end).
    rewrite <- E, prefix_app. reflexivity.
Qed.

Lemma ascii_of_byte_of_ascii c : ascii_of_byte (byte_of_ascii c) = c.
Proof.
  unfold ascii_of_byte, byte_of_ascii.
  pose proof (N_ascii_bounded c) as Hb.
  rewrite Z.mod_small by lia. rewrite N2Z.id. apply ascii_N_embedding.
Qed.

Lemma string_of_bytes_of_string s : string_of_bytes (bytes_of_string s) = s.
Proof.
  induction s as [|c s IH]; simpl; [reflexivity|].
  rewrite ascii_of_byte_of_ascii, IH. reflexivity.
Qed.

Lemma bytes_of_string_range s : Forall (fun b => 0 <= b < 256) (bytes_of_string s).
Proof.
  induction s as [|c s IH]; simpl; constructor; [|exact IH].
  unfold byte_of_ascii. pose proof (N_ascii_bounded c). lia.
Qed.

Lemma length_bytes_of_string s : List.length (bytes_of_string s) = String.length s.
Proof. induction s as [|c s IH]; simpl; [reflexivity | rewrite IH; reflexivity]. Qed.

(** A format-8 property of at most 4096 bytes is read back whole. *)
Lemma copied_bytes_format8 t bs :
  Forall (fun b => 0 <= b < 256) bs -> (List.length bs <= 4096)%nat ->
  copied_bytes (Some {| p_type := t; p_format := 8; p_items := bs |}) = bs.
Proof.
  intros Hr Hl. unfold copied_bytes; cbn [p_format p_items].
  change (item_limit 8) with 4096%nat. rewrite (firstn_all2 (n := 4096%nat) bs Hl).
  unfold client_bytes. change ((8 =? 8)%Z) with true. cbv iota beta.
  rewrite map_ext_Forall with (g := fun b => b) by
    (eapply Forall_impl; [|exact Hr]; intros b Hb; apply Z.mod_small; exact Hb).
  rewrite map_id. apply firstn_all.
Qed.

Definition CRLF : string := String CR (String LF EmptyString).

Lemma strip_crlf_app p : strip_crlf (p ++ CRLF) = Ok p.
Proof.
  unfold strip_crlf. rewrite length_app_string. cbn [String.length CRLF].
  replace (String.length p + 2 <? 2)%nat with false by (symmetry; apply Nat.ltb_ge; lia).
  replace (String.length p + 2 - 2)%nat with (String.length p) by lia.
  replace (String.length p + 2 - 1)%nat with (1 + String.length p)%nat by lia.
  rewrite <- append_correct2. unfold CRLF. rewrite get_app_len. cbn.
  rewrite truncate_app. reflexivity.
Qed.

(** The framing [sendSelectionNotify] adds is the framing
    [getCopiedData] removes. *)
Lemma after_prefix_payload p :
  has_nul p = false -> after_prefix (file_prefix ++ p ++ CRLF) = p ++ CRLF.
Proof.
  intros Hp.
  assert (Hn : has_nul (file_prefix ++ p ++ CRLF) = false).
  { rewrite !has_nul_app, Hp. reflexivity. }
  unfold after_prefix, strstr. rewrite (cstr_no_nul _ Hn), index_prefix.
  change 7%nat with (String.length file_prefix). rewrite skip_app.
  apply cstr_no_nul. rewrite has_nul_app, Hp. reflexivity.
Qed.

(** C8 Payload round trip: the bytes the source writes into the
    requestor's XDND_DATA property are read back by [getCopiedData] as
    the path the source sent, as long as the property fits the 4096
    bytes [XGetWindowProperty] is asked for. *)
Theorem getCopiedData_roundtrip A v w t pathStr :
  v_fails v "XGetWindowProperty" = false -> v_fails v "malloc" = false ->
  v_prop v w (XDND_DATA A) =
    Some {| p_type := t; p_format := 8; p_items := selection_payload pathStr |} ->
  (String.length (cstr pathStr) + 9 <= 4096)%nat ->
  getCopiedData A v w = Ok (Some (cstr pathStr)).
Proof.
  intros Hg Hm Hprop Hlen. unfold getCopiedData. rewrite Hg, Hm, Hprop.
  rewrite copied_bytes_format8.
  - unfold selection_payload. rewrite string_of_bytes_of_string.
    fold CRLF. rewrite after_prefix_payload by apply has_nul_cstr.
    rewrite strip_crlf_app. reflexivity.
  - apply bytes_of_string_range.
  - unfold selection_payload. rewrite length_bytes_of_string, !length_app_string.
    cbn. lia.
Qed.

Lemma length_cstr s : (String.length (cstr s) <= String.length s)%nat.
Proof.
  induction s as [|c s IH]; simpl; [lia|]. destruct (Ascii.eqb c NUL); simpl; lia.
Qed.

Lemma length_skip n s : (String.length (skip n s) <= String.length s)%nat.
Proof.
  revert s; induction n as [|n IH]; intros [|c s]; simpl; try lia.
  specialize (IH s). lia.
Qed.

Lemma length_after_prefix s : (String.length (after_prefix s) <= String.length s)%nat.
Proof.
  unfold after_prefix. destruct (strstr s file_prefix).
  - eapply Nat.le_trans; [apply length_cstr | apply length_skip].
  - apply length_cstr.
Qed.

Lemma length_string_of_bytes bs : String.length (string_of_bytes bs) = List.length bs.
Proof. induction bs as [|b bs IH]; simpl; [reflexivity | rewrite IH; reflexivity]. Qed.

(** C29 A property with fewer than two bytes (in particular an absent
    one) makes [getCopiedData] read [tempPtr[strlen(tempPtr)-2]] far
    outside its buffer: the behaviour is undefined. *)
Theorem getCopiedData_short A v w :
  v_fails v "XGetWindowProperty" = false -> v_fails v "malloc" = false ->
  (List.length (copied_bytes (v_prop v w (XDND_DATA A))) < 2)%nat ->
  exists what, getCopiedData A v w = Undefined what.
Proof.
  intros Hg Hm Hlen. unfold getCopiedData, strip_crlf. rewrite Hg, Hm.
  pose proof (length_after_prefix
                (string_of_bytes (copied_bytes (v_prop v w (XDND_DATA A))))) as Hle.
  rewrite length_string_of_bytes in Hle.
  replace (_ <? 2)%nat with true by (symmetry; apply Nat.ltb_lt; lia).
  eexists. reflexivity.
Qed.

Lemma index_after p pre r : exists n, index 0 p (pre ++ p ++ r) = Some n.
Proof.
  induction pre as [|c pre [n IH]].
  - exists 0%nat. exact (index_prefix p r).
  - cbn [String.append index]. rewrite IH. destruct (prefix _ _); eexists; reflexivity.
Qed.

Lemma string_app_assoc p q r : (p ++ q) ++ r = p ++ q ++ r.
Proof. induction p as [|c p IH]; cbn; [reflexivity | rewrite IH; reflexivity]. Qed.

Lemma skip_app_le n p r : (n <= String.length p)%nat -> skip n (p ++ r) = skip n p ++ r.
Proof.
  revert p; induction n as [|n IH]; intros [|c p] H; cbn in *; try reflexivity; [lia|].
  apply IH. lia.
Qed.

Lemma length_skip_le n p :
  (n <= String.length p)%nat -> String.length (skip n p) = (String.length p - n)%nat.
Proof.
  revert p; induction n as [|n IH]; intros [|c p] H; cbn in *; try lia. apply IH. lia.
Qed.

Lemma has_nul_skip n p : has_nul p = false -> has_nul (skip n p) = false.
Proof.
  revert p; induction n as [|n IH]; intros [|c p] H; cbn in *; try exact H; try reflexivity.
  apply orb_false_iff in H as [_ H]. exact (IH p H).
Qed.

(** [tempBuffer + 7] of a buffer holding "file://" after [pre]. *)
Lemma after_prefix_anywhere pre path :
  has_nul pre = false -> has_nul path = false ->
  after_prefix (pre ++ file_prefix ++ path ++ CRLF) = skip 7 (pre ++ file_prefix ++ path) ++ CRLF.
Proof.
  intros Hpre Hp.
  assert (Hn : has_nul (pre ++ file_prefix ++ path) = false)
    by (rewrite !has_nul_app, Hpre, Hp; reflexivity).
  assert (Hl : (7 <= String.length (pre ++ file_prefix ++ path))%nat)
    by (rewrite !length_app_string; cbn; lia).
  unfold after_prefix, strstr.
  rewrite (cstr_no_nul (pre ++ file_prefix ++ path ++ CRLF))
    by (rewrite !has_nul_app, Hpre, Hp; reflexivity).
  destruct (index_after file_prefix pre (path ++ CRLF)) as [n ->].
  replace (pre ++ file_prefix ++ path ++ CRLF) with ((pre ++ file_prefix ++ path) ++ CRLF)
    by (rewrite !string_app_assoc; reflexivity).
  rewrite skip_app_le by exact Hl. apply cstr_no_nul.
  rewrite has_nul_app, has_nul_skip by exact Hn. reflexivity.
Qed.

(** C30 The prefix test looks for "file://" anywhere in the buffer but
    always skips its first seven bytes: when the framing of the source
    ("file://", path, CR LF) follows any bytes [pre] without a NUL,
    [getCopiedData] returns the buffer from its eighth byte on, which is
    the path only when [pre] is empty. *)
Theorem getCopiedData_misplaced_prefix A v w t pre path :
  v_fails v "XGetWindowProperty" = false -> v_fails v "malloc" = false ->
  v_prop v w (XDND_DATA A) =
    Some {| p_type := t; p_format := 8;
            p_items := bytes_of_string (pre ++ file_prefix ++ path ++ CRLF) |} ->
  has_nul pre = false -> has_nul path = false ->
  (String.length pre + String.length path + 9 <= 4096)%nat ->
  getCopiedData A v w = Ok (Some (skip 7 (pre ++ file_prefix ++ path))) /\
  (skip 7 (pre ++ file_prefix ++ path) = path <-> pre = EmptyString).
Proof.
  intros Hg Hm Hprop Hpre Hp Hlen. split.
  - unfold getCopiedData. rewrite Hg, Hm, Hprop, copied_bytes_format8.
    + rewrite string_of_bytes_of_string, after_prefix_anywhere, strip_crlf_app by assumption.
      reflexivity.
    + apply bytes_of_string_range.
    + rewrite length_bytes_of_string, !length_app_string. cbn. lia.
  - split; [|intros ->; reflexivity].
    intros E. assert (Hl := f_equal String.length E).
    rewrite length_skip_le, !length_app_string in Hl by (rewrite !length_app_string; cbn; lia).
    cbn in Hl. destruct pre; [reflexivity | cbn in Hl; lia].
Qed.

Lemma le_value_le_bytes n z : le_value (le_bytes n z) = z mod 2 ^ (8 * Z.of_nat n).
Proof.
  revert z; induction n as [|n IH]; intros z.
  - simpl. rewrite Z.mod_1_r. reflexivity.
  - cbn [le_bytes]. unfold le_value. cbn [fold_right]. fold (le_value (le_bytes n (z / 256))).
    rewrite IH. rewrite Nat2Z.inj_succ, Z.mul_succ_r, Z.pow_add_r by lia.
    rewrite (Z.mul_comm (2 ^ (8 * Z.of_nat n)) (2 ^ 8)). change (2 ^ 8) with 256.
    rewrite Z.rem_mul_r; [reflexivity | lia | apply Z.pow_pos_nonneg; lia].
Qed.

(** C24 The colour file round trip: the path and bytes a successful
    [saveSquareState] returns and writes, [restoreSquareState] later
    opens and reads back into the square's colour, for any 32-bit value
    of the enum, as long as its own [fopen] and [fclose] succeed. *)
Theorem restore_after_save v v' sq sq' path bytes :
  saveSquareState v sq = Ok (path, bytes) ->
  v_read_file v' (cstr path) = Some bytes ->
  v_fails v' "fopen" = false -> v_fails v' "fclose" = false ->
  0 <= colour sq < 2 ^ 32 ->
  restoreSquareState v' (Some path) sq' = Ok (set_colour sq' (colour sq)).
Proof.
  intros Hs Hf Ho Hcl Hc. unfold saveSquareState in Hs.
  destruct (v_fails v "fopen"), (v_fails v "fwrite"), (v_fails v "fclose"); try discriminate.
  injection Hs as <- <-. unfold restoreSquareState. rewrite Ho, Hf.
  unfold saveSquareState_bytes, colour_size. cbn [le_bytes List.length Nat.ltb Nat.leb].
  rewrite Hcl. f_equal. f_equal. fold (le_bytes 4 (colour sq)).
  rewrite firstn_all2 by (simpl; lia).
  rewrite le_value_le_bytes. apply Z.mod_small. exact Hc.
Qed.

(** ** Witnesses *)

Lemma getCopiedData_roundtrip_witness :
  getCopiedData std_atoms
    (payload_view std_atoms 200 (selection_payload SQUARE_FILE_PATH) []) 200
  = Ok (Some (cstr SQUARE_FILE_PATH)).
Proof.
  apply (getCopiedData_roundtrip std_atoms _ 200 83 SQUARE_FILE_PATH);
    [reflexivity | reflexivity | reflexivity | vm_compute; lia].
Defined.

Lemma getCopiedData_short_witness :
  exists what, getCopiedData std_atoms empty_view 200 = Undefined what.
Proof.
  apply getCopiedData_short; [reflexivity | reflexivity |].
  apply Nat.ltb_lt. vm_compute. reflexivity.
Defined.

Lemma getCopiedData_misplaced_prefix_witness :
  getCopiedData std_atoms
    (payload_view std_atoms 200 (bytes_of_string ("x" ++ file_prefix ++ "/p" ++ CRLF)) []) 200
  = Ok (Some (skip 7 ("x" ++ file_prefix ++ "/p"))) /\
  (skip 7 ("x" ++ file_prefix ++ "/p") = "/p" <-> "x" = EmptyString).
Proof.
  apply (getCopiedData_misplaced_prefix std_atoms _ 200 83); try reflexivity. cbn. lia.
Defined.

Lemma restore_after_save_witness :
  restoreSquareState
    (payload_view std_atoms 200 []
       (saveSquareState_bytes (set_colour ex_sq BlueSquare)))
    (Some SQUARE_FILE_PATH) ex_sq
  = Ok (set_colour ex_sq BlueSquare).
Proof.
  apply (restore_after_save empty_view _ (set_colour ex_sq BlueSquare) _ _
           (saveSquareState_bytes (set_colour ex_sq BlueSquare)));
    [reflexivity | reflexivity | reflexivity | reflexivity | cbn; unfold BlueSquare; lia].
Defined.
