(* ===== verification/EventType.v ===== *)
(** * Tracing: event type names and [printClientMessage]

    [getEventType] (src/xevent_type.c, lines 5-117) names an event type
    for the tracing of [spawnWindow] (line 725).  The [switch] is the
    table [event_names] read by [getEventType]; [event_type] gives the
    Xlib type code of each event the model distinguishes (X.h).  The
    table names every core event type 2-35 by a name of its own.

    [printClientMessage] (src/spawn_window.c, lines 122-152) prints a
    ClientMessage that is not part of the protocol (lines 718-727).  Its
    output is modelled as the sequence of its [printf] calls, each a
    format with its arguments; the bytes and shorts it prints are read
    through the [data] union of the event, whose [long]s the model
    keeps (LP64, little-endian). *)

From Stdlib Require Import ZArith List String Bool Lia.
From S2P Require Import Prelude XTypes Codec.
Import ListNotations.
Open Scope Z_scope.
Local Open Scope string_scope.

(** The cases of the [switch (event->type)], in order. *)
Definition event_names : list (Z * string) :=
  [(2, "KeyPress"); (3, "KeyRelease"); (4, "ButtonPress"); (5, "ButtonRelease");
   (6, "MotionNotify"); (7, "EnterNotify"); (8, "LeaveNotify"); (9, "FocusIn");
   (10, "FocusOut"); (11, "KeymapNotify"); (12, "Expose"); (13, "GraphicsExpose");
   (14, "NoExpose"); (15, "VisibilityNotify"); (16, "CreateNotify");
   (17, "DestroyNotify"); (18, "UnmapNotify"); (19, "MapNotify"); (20, "MapRequest");
   (21, "ReparentNotify"); (22, "ConfigureNotify"); (23, "ConfigureRequest");
   (24, "GravityNotify"); (25, "ResizeRequest"); (26, "CirculateNotify");
   (27, "CirculateRequest"); (28, "PropertyNotify"); (29, "SelectionClear");
   (30, "SelectionRequest"); (31, "SelectionNotify"); (32, "ColormapNotify");
   (33, "ClientMessage"); (34, "MappingNotify"); (35, "GenericEvent")].

(** [getEventType]: the name of the matching case, ["Unknown"] for the
    [default]. *)
Definition getEventType (type : Z) : string :=
  match find (fun e => Z.eqb (fst e) type) event_names with
  | Some (_, name) => name
  | None => "Unknown"
  end.

(** The type code of an event (X.h); [OtherEvent] carries its own. *)
Definition event_type (e : XEvent) : Z :=
  match e with
  | SelectionRequest _ => 30
  | SelectionNotify _ => 31
  | MotionNotify _ => 6
  | KeyRelease _ => 3
  | ButtonPress _ _ => 4
  | ButtonRelease _ _ => 5
  | Expose => 12
  | EnterNotify => 7
  | LeaveNotify => 8
  | ClientMessage _ => 33
  | OtherEvent t => t
  end.

(** The type a name stands for: the inverse of the table. *)
Definition type_of_name (name : string) : option Z :=
  match find (fun e => String.eqb (snd e) name) event_names with
  | Some (t, _) => Some t
  | None => None
  end.

(** ** [printClientMessage] *)

(** An argument of [printf]. *)
Inductive PrintArg := AStr (str : string) | AInt (z : Z).

(** One call of [printf]: its format and its arguments. *)
Record Printf := { pf_format : string; pf_args : list PrintArg }.

Definition zseq (n : nat) : list Z := map Z.of_nat (seq 0 n).

(** [data.l[i]]. *)
Definition data_l (m : XClientMessageEvent) (i : Z) : Z :=
  nth (Z.to_nat i) [l0 m; l1 m; l2 m; l3 m; l4 m] 0.

(** [data.b[i]] and [data.s[i]]: the bytes and shorts of the same
    union, as the signed values [%d] receives after promotion. *)
Definition data_b (m : XClientMessageEvent) (i : Z) : Z :=
  swrap 8 (Z.shiftr (data_l m (i / 8)) (8 * (i mod 8))).

Definition data_s (m : XClientMessageEvent) (i : Z) : Z :=
  swrap 16 (Z.shiftr (data_l m (i / 4)) (16 * (i mod 4))).

(** Lines 122-152.  [atom_name] is [XGetAtomName].  [%d] applied to a
    [long] (line 145) prints the low 32 bits of its argument, as [int]
    on the x86-64 calling convention. *)
Definition printClientMessage (atom_name : Atom -> string) (m : XClientMessageEvent)
  : list Printf :=
  [{| pf_format := "Message type: %s
"; pf_args := [AStr (atom_name (message_type m))] |};
   {| pf_format := "Message word size: %d bits
"; pf_args := [AInt (cm_format m)] |};
   {| pf_format := "Message "; pf_args := [] |}] ++
  (if Z.eqb (cm_format m) 8 then
     {| pf_format := "bytes: "; pf_args := [] |} ::
     map (fun i => {| pf_format := "%d "; pf_args := [AInt (data_b m i)] |}) (zseq 20)
   else if Z.eqb (cm_format m) 16 then
     {| pf_format := "16-bit shorts: "; pf_args := [] |} ::
     map (fun i => {| pf_format := "%d "; pf_args := [AInt (data_s m i)] |}) (zseq 10)
   else if Z.eqb (cm_format m) 32 then
     {| pf_format := "32-bit longs: "; pf_args := [] |} ::
     map (fun i => {| pf_format := "%d "; pf_args := [AInt (to_int (data_l m i))] |}) (zseq 5)
   else []) ++
  [{| pf_format := "
"; pf_args := [] |}].

(** Lines 718-727: a ClientMessage of none of the types the loop
    handles is traced with the name of its event type. *)
Definition trace_client_message (A : Atoms) (procStr : string) (atom_name : Atom -> string)
  (m : XClientMessageEvent) : list Printf :=
  if negb (existsb (Z.eqb (message_type m)) (message_atoms A)) then
    {| pf_format := "%s: received %s message
";
       pf_args := [AStr procStr; AStr (getEventType (event_type (ClientMessage m)))] |} ::
    printClientMessage atom_name m
  else [].

(** The integers a trace prints. *)
Definition printed_ints (out : list Printf) : list Z :=
  flat_map (fun p => flat_map (fun a => match a with AInt z => [z] | AStr _ => [] end)
                              (pf_args p)) out.

(** The core types, 2 to 35. *)
Definition core_types : list Z := map (fun n => Z.of_nat n + 2) (seq 0 34).

Lemma core_types_spec t : 2 <= t <= 35 <-> In t core_types.
Proof.
  unfold core_types. rewrite in_map_iff. split.
  - intros Ht. exists (Z.to_nat (t - 2)). split; [lia|]. apply in_seq. lia.
  - intros [n [<- Hn]]. apply in_seq in Hn. lia.
Qed.

Lemma event_names_core : Forall (fun e => 2 <= fst e <= 35) event_names.
Proof. repeat constructor; cbn; lia. Qed.

Lemma find_none_unknown t :
  find (fun e => Z.eqb (fst e) t) event_names = None -> getEventType t = "Unknown".
Proof. intros H. unfold getEventType. rewrite H. reflexivity. Qed.

(** The tracing names are unambiguous: every core event type 2-35
    gets a name of its own, from which the type is recovered; every
    other type is "Unknown", a name no core type has. *)
Theorem getEventType_roundtrip t :
  (2 <= t <= 35 -> type_of_name (getEventType t) = Some t) /\
  (~ 2 <= t <= 35 -> getEventType t = "Unknown" /\ type_of_name "Unknown" = None).
Proof.
  split.
  - intros Ht. apply core_types_spec in Ht. revert t Ht.
    apply Forall_forall. vm_compute. repeat constructor.
  - intros Ht. split; [|reflexivity]. apply find_none_unknown.
    destruct (find _ event_names) as [[t' name]|] eqn:E; [|reflexivity].
    exfalso. apply find_some in E as [Hin Heq]. cbn in Heq. apply Z.eqb_eq in Heq. subst t'.
    apply Ht. exact (proj1 (Forall_forall _ _) event_names_core _ Hin).
Qed.

Lemma to_int_wire32 z : to_int (wire32 z) = wire32 z.
Proof. unfold to_int, wire32. apply swrap_small; [lia | apply swrap_range; lia]. Qed.

(** The trace of a ClientMessage (lines 718-727, 122-152): the
    messages of the protocol and WM_PROTOCOLS are never traced; any
    other format-32 message received from the wire is traced with its
    format and its five slots exactly as received, although line 145
    prints each [long] with [%d]: the wire's 32-bit values survive the
    conversion. *)
Theorem trace_client_message_wire A procStr atom_name m :
  cm_format m = 32 ->
  printed_ints (trace_client_message A procStr atom_name (wire_cm m)) =
  if existsb (Z.eqb (message_type m)) (message_atoms A) then []
  else [32; wire32 (l0 m); wire32 (l1 m); wire32 (l2 m); wire32 (l3 m); wire32 (l4 m)].
Proof.
  intros Hf. unfold trace_client_message. cbn [message_type wire_cm].
  destruct (existsb _ _); [reflexivity|]. cbn. rewrite Hf. simpl.
  rewrite !to_int_wire32. reflexivity.
Qed.

(** ** Witnesses *)

Lemma getEventType_roundtrip_witness :
  type_of_name (getEventType 33) = Some 33 /\ getEventType 36 = "Unknown".
Proof.
  split; [apply (proj1 (getEventType_roundtrip 33)); lia|].
  apply (proj2 (getEventType_roundtrip 36)). lia.
Defined.

Lemma trace_client_message_wire_witness :
  printed_ints (trace_client_message std_atoms "Phil" (fun _ => "ATOM")
                  (wire_cm {| cm_window := 100; message_type := 5; cm_format := 32;
                              l0 := 2 ^ 31; l1 := 1; l2 := 2; l3 := 3; l4 := 4 |})) =
  [32; - 2 ^ 31; 1; 2; 3; 4].
Proof. rewrite trace_client_message_wire by reflexivity. reflexivity. Defined.
