(* ===== verification/HitTest.v ===== *)
(** * Hit-testing and target eligibility

    [getWindowPointerIsOver] (src/spawn_window.c, lines 61-96) walks the
    window tree from the root: at each level it scans the children from
    the top of the stacking order down ([for (i = n-1; i >= 0; --i)]),
    descends into the first one whose rectangle holds the pointer, and
    falls back to the window it started from.  [hasCorrectXdndAwareProperty]
    (lines 99-120) reads the first byte of a window's XdndAware property.

    The spec (section 9) suggests an iterative formulation; [hit_loop] is
    that loop (one level per iteration, bounded by fuel), and it is shown
    equal to the recursion once the fuel exceeds the depth of the tree. *)

From Stdlib Require Import ZArith List String Bool Lia.
From S2P Require Import Prelude XTypes Payload.
Import ListNotations.
Open Scope Z_scope.

(** ** Induction over the window tree *)

Definition wt_children (t : WTree) : list WTree :=
  match t with WNode _ _ _ _ _ cs => cs end.

Section WTreeInd.
Variable P : WTree -> Prop.
Hypothesis Hnode : forall w x y wd ht cs,
  Forall P cs -> P (WNode w x y wd ht cs).

Fixpoint WTree_ind' (t : WTree) : P t :=
  match t with
  | WNode w x y wd ht cs =>
      Hnode w x y wd ht cs
        ((fix go (l : list WTree) : Forall P l :=
            match l with
            | [] => Forall_nil P
            | c :: rest => Forall_cons c (WTree_ind' c) (go rest)
            end) cs)
  end.
End WTreeInd.

(** ** The recursion of the code *)

(** The test of lines 79-82 for a child at [(x, y)] of size [wd]x[ht],
    its parent's origin being [(ox, oy)]. *)
Definition inside (px py ox oy x y wd ht : Z) : bool :=
  (ox + x <=? px) && (px <? ox + x + wd) && (oy + y <=? py) && (py <? oy + y + ht).

(** The scan over [childList] from index [n-1] down to [0], recursing
    (through [rec]) into the first child that holds the pointer: the
    topmost child is the last of the list, so the scan looks at the
    tail first.  [None] is [returnWindow == None] after the loop. *)
Fixpoint scan_children (rec : WTree -> Z -> Z -> Window) (px py ox oy : Z)
  (l : list WTree) : option Window :=
  match l with
  | [] => None
  | c :: rest =>
      match scan_children rec px py ox oy rest with
      | Some r => Some r
      | None =>
          match c with
          | WNode _ x y wd ht _ =>
              if inside px py ox oy x y wd ht then Some (rec c (ox + x) (oy + y))
              else None
          end
      end
  end.

Fixpoint getWindowPointerIsOver (t : WTree) (px py ox oy : Z) : Window :=
  match t with
  | WNode w _ _ _ _ cs =>
      match scan_children (fun c ox' oy' => getWindowPointerIsOver c px py ox' oy')
              px py ox oy cs with
      | Some r => r
      | None => w
      end
  end.

(** ** The loop formulation *)

(** The spec's geometry, written on its own: the pointer lies in the
    half-open rectangle of size [wd]x[ht] whose corner is at [(ax, ay)]
    on the root window. *)
Definition in_rect (px py ax ay wd ht : Z) : bool :=
  (0 <=? px - ax) && (px - ax <? wd) && (0 <=? py - ay) && (py - ay <? ht).

(** A child of a window whose corner is at [(ox, oy)] holds the
    pointer. *)
Definition holds_pointer (px py ox oy : Z) (c : WTree) : bool :=
  match c with WNode _ x y wd ht _ => in_rect px py (ox + x) (oy + y) wd ht end.

(** The topmost child holding the pointer: the last of the list, in
    stacking order. *)
Fixpoint topmost_child (px py ox oy : Z) (cs : list WTree) : option WTree :=
  match cs with
  | [] => None
  | c :: rest =>
      match topmost_child px py ox oy rest with
      | Some r => Some r
      | None => if holds_pointer px py ox oy c then Some c else None
      end
  end.

Definition wt_x (t : WTree) : Z := match t with WNode _ x _ _ _ _ => x end.
Definition wt_y (t : WTree) : Z := match t with WNode _ _ y _ _ _ => y end.

(** [cur = root; while (some child of cur holds the pointer) cur = child;]
    with [fuel] iterations at most. *)
Fixpoint hit_loop (fuel : nat) (px py ox oy : Z) (t : WTree) : option Window :=
  match fuel with
  | O => None
  | S f =>
      match topmost_child px py ox oy (wt_children t) with
      | None => Some (wt_window t)
      | Some c => hit_loop f px py (ox + wt_x c) (oy + wt_y c) c
      end
  end.

Fixpoint depth (t : WTree) : nat :=
  match t with
  | WNode _ _ _ _ _ cs => S (list_max (map depth cs))
  end.

(** The windows of the tree. *)
Fixpoint windows (t : WTree) : list Window :=
  match t with
  | WNode w _ _ _ _ cs => w :: flat_map windows cs
  end.

(** ** XdndAware *)

Section Aware.
Context (A : Atoms).

(** [data[0]]: the first byte of the buffer Xlib returns (little
    endian), or the terminating NUL Xlib adds to an empty one. *)
Definition first_byte (p : PropVal) : Z :=
  hd 0 (client_bytes (p_format p) (p_items p)).

(** [hasCorrectXdndAwareProperty]: the version the window supports,
    [0] when the read fails, the window has no XdndAware property or it
    announces a version above ours. *)
Definition hasCorrectXdndAwareProperty (v : XView) (w : Window) : Z :=
  if v_fails v "XGetWindowProperty"%string then 0 else
  match v_prop v w (XdndAware A) with
  | None => 0
  | Some p => if first_byte p <=? XDND_PROTOCOL_VERSION then first_byte p else 0
  end.
End Aware.

(** Two windows side by side under a root window, the pointer over the
    second. *)
Definition ex_tree : WTree :=
  WNode 1 0 0 1000 1000 [WNode 100 0 0 200 200 []; WNode 200 200 0 200 200 []].

(** ** Properties *)

(** The code's containment test is the spec's rectangle. *)
Lemma inside_in_rect px py ox oy x y wd ht :
  inside px py ox oy x y wd ht = in_rect px py (ox + x) (oy + y) wd ht.
Proof.
  unfold inside, in_rect.
  destruct (Z.leb_spec (ox + x) px), (Z.ltb_spec px (ox + x + wd)),
    (Z.leb_spec (oy + y) py), (Z.ltb_spec py (oy + y + ht)),
    (Z.leb_spec 0 (px - (ox + x))), (Z.ltb_spec (px - (ox + x)) wd),
    (Z.leb_spec 0 (py - (oy + y))), (Z.ltb_spec (py - (oy + y)) ht);
    first [reflexivity | exfalso; lia].
Qed.

Lemma scan_children_topmost rec px py ox oy cs :
  scan_children rec px py ox oy cs =
  option_map (fun c => rec c (ox + wt_x c) (oy + wt_y c)) (topmost_child px py ox oy cs).
Proof.
  induction cs as [|c rest IH]; simpl; [reflexivity|].
  rewrite IH. destruct (topmost_child px py ox oy rest); [reflexivity|].
  destruct c as [w x y wd ht gs]; simpl. rewrite inside_in_rect.
  destruct (in_rect px py (ox + x) (oy + y) wd ht); reflexivity.
Qed.

Lemma topmost_child_in px py ox oy cs c :
  topmost_child px py ox oy cs = Some c -> In c cs.
Proof.
  induction cs as [|c' rest IH]; simpl; [discriminate|].
  destruct (topmost_child px py ox oy rest) eqn:E.
  - intros [= <-]. right. apply IH. reflexivity.
  - destruct (holds_pointer px py ox oy c'); [intros [= <-]; left; reflexivity | discriminate].
Qed.

Lemma depth_child c cs w x y wd ht :
  In c cs -> (depth c < depth (WNode w x y wd ht cs))%nat.
Proof.
  intros Hin. simpl. apply Nat.lt_succ_r.
  assert (H : Forall (fun k => k <= list_max (map depth cs))%nat (map depth cs))
    by (apply list_max_le; lia).
  rewrite Forall_forall in H. apply H, in_map, Hin.
Qed.

(** C23 The hit test terminates as a loop: with more iterations than the
    tree is deep, the one-level-per-iteration loop the spec suggests,
    with the spec's own rectangle test on absolute coordinates, returns
    exactly the window the recursion of the code returns. *)
Theorem hit_loop_equiv t px py : forall fuel ox oy,
  (depth t < fuel)%nat ->
  hit_loop fuel px py ox oy t = Some (getWindowPointerIsOver t px py ox oy).
Proof.
  induction t as [w x y wd ht cs IH] using WTree_ind'.
  intros [|f] ox oy Hf; [lia|].
  cbn [hit_loop wt_children getWindowPointerIsOver].
  rewrite scan_children_topmost.
  destruct (topmost_child px py ox oy cs) as [c|] eqn:E; [|reflexivity].
  cbn [option_map]. apply topmost_child_in in E as Hin.
  rewrite Forall_forall in IH. apply IH; [exact Hin|].
  pose proof (depth_child c cs w x y wd ht Hin). lia.
Qed.

Lemma in_windows_child c cs w x y wd ht r :
  In c cs -> In r (windows c) -> In r (windows (WNode w x y wd ht cs)).
Proof. intros Hc Hr. simpl. right. apply in_flat_map. exists c. auto. Qed.

(** The hit test always answers a window of the tree it searched:
    never a window outside it, and never [None] when no window of the
    tree is [None] (so the [targetWindow == None] test at line 618 never
    fires). *)
Theorem getWindowPointerIsOver_in_tree t px py : forall ox oy,
  In (getWindowPointerIsOver t px py ox oy) (windows t).
Proof.
  induction t as [w x y wd ht cs IH] using WTree_ind'. intros ox oy.
  cbn [getWindowPointerIsOver]. rewrite scan_children_topmost.
  destruct (topmost_child px py ox oy cs) as [c|] eqn:E; cbn [option_map].
  - apply topmost_child_in in E. rewrite Forall_forall in IH.
    eapply in_windows_child; [exact E | apply IH, E].
  - left. reflexivity.
Qed.

Lemma client_bytes_range f items : Forall (fun b => 0 <= b < 256) (client_bytes f items).
Proof.
  assert (Hle : forall n z, Forall (fun b => 0 <= b < 256) (le_bytes n z)).
  { induction n as [|n IH]; intros z; constructor; [apply Z.mod_pos_bound; lia | apply IH]. }
  unfold client_bytes. apply Forall_forall. intros b Hb.
  destruct (f =? 8); [|destruct (f =? 16)].
  - apply in_map_iff in Hb as [b0 [<- _]]. apply Z.mod_pos_bound. lia.
  - apply in_flat_map in Hb as [z [_ Hz]]. exact (proj1 (Forall_forall _ _) (Hle 2%nat z) b Hz).
  - apply in_flat_map in Hb as [z [_ Hz]]. exact (proj1 (Forall_forall _ _) (Hle 8%nat z) b Hz).
Qed.

(** The version [hasCorrectXdndAwareProperty] answers is between 0
    and [XDND_PROTOCOL_VERSION], whatever the property holds: the
    XdndEnter a source sends after the test [supportsXdnd == 0] carries
    a version in 1..5, well inside the 8 bits of [l[1] >> 24] where the
    message codec round trip holds. *)
Theorem hasCorrectXdndAwareProperty_range A v w :
  0 <= hasCorrectXdndAwareProperty A v w <= XDND_PROTOCOL_VERSION.
Proof.
  unfold hasCorrectXdndAwareProperty, XDND_PROTOCOL_VERSION.
  destruct (v_fails v "XGetWindowProperty"%string); [lia|].
  destruct (v_prop v w (XdndAware A)) as [p|]; [|lia].
  assert (H : 0 <= first_byte p).
  { unfold first_byte. pose proof (client_bytes_range (p_format p) (p_items p)) as Hr.
    destruct (client_bytes (p_format p) (p_items p)) as [|b bs]; cbn; [lia|].
    inversion Hr; lia. }
  destruct (Z.leb_spec (first_byte p) 5); lia.
Qed.

(** ** Witnesses *)

Lemma hit_loop_equiv_witness :
  hit_loop 3 250 50 0 0 ex_tree = Some (getWindowPointerIsOver ex_tree 250 50 0 0).
Proof. apply (hit_loop_equiv ex_tree 250 50 3 0 0). vm_compute. lia. Defined.
