(* ===== verification/Session.v ===== *)
(** * The XDND session and the guarded senders

    [XDNDStateMachine] (src/spawn_window.c, lines 17-31) and the static
    [xdndState]; the process state of [spawnWindow] a handler reads and
    writes ([Peer]); [memset(&xdndState, 0, ...)] ([xdnd_reset]); the
    six senders with their guards on the session flags (lines 154-294)
    and [sendSelectionNotify] (lines 297-335), as operations of the
    handler monad; the session invariant; the abstract phases of the
    spec (section 4.1) and the transitions it allows. *)

From Stdlib Require Import ZArith List String Bool Lia.
From S2P Require Import Prelude XTypes Codec Payload.
Import ListNotations.
Open Scope Z_scope.

Record XDNDStateMachine := {
  xdndExchangeStarted : bool;
  xdndPositionReceived : bool;
  xdndStatusReceived : bool;
  xdndStatusSent : bool;
  xdndDropReceived : bool;
  xdndDropTimestamp : Time;
  xdndLastPositionTimestamp : Time;
  amISource : bool;
  p_rootX : Z;
  p_rootY : Z;
  otherWindow : Window;
  proposedAction : Atom;
  proposedType : Atom
}.

(** [memset(&xdndState, 0, sizeof(xdndState))], also the value of the
    zero-initialised static. *)
Definition xdnd_reset : XDNDStateMachine := {|
  xdndExchangeStarted := false; xdndPositionReceived := false;
  xdndStatusReceived := false; xdndStatusSent := false;
  xdndDropReceived := false; xdndDropTimestamp := 0;
  xdndLastPositionTimestamp := 0; amISource := false;
  p_rootX := 0; p_rootY := 0; otherWindow := 0;
  proposedAction := 0; proposedType := 0 |}.

(** ** Field updates performed by the handlers *)

(** Lines 647-649 and 744-746: the exchange starts with a role and a peer. *)
Definition start_exchange (s : XDNDStateMachine) (source : bool) (other : Window) :=
  {| xdndExchangeStarted := true; xdndPositionReceived := xdndPositionReceived s;
     xdndStatusReceived := xdndStatusReceived s; xdndStatusSent := xdndStatusSent s;
     xdndDropReceived := xdndDropReceived s; xdndDropTimestamp := xdndDropTimestamp s;
     xdndLastPositionTimestamp := xdndLastPositionTimestamp s; amISource := source;
     p_rootX := p_rootX s; p_rootY := p_rootY s; otherWindow := other;
     proposedAction := proposedAction s; proposedType := proposedType s |}.

(** Lines 751 and 756-759. *)
Definition set_proposedType (s : XDNDStateMachine) (t : Atom) :=
  {| xdndExchangeStarted := xdndExchangeStarted s;
     xdndPositionReceived := xdndPositionReceived s;
     xdndStatusReceived := xdndStatusReceived s; xdndStatusSent := xdndStatusSent s;
     xdndDropReceived := xdndDropReceived s; xdndDropTimestamp := xdndDropTimestamp s;
     xdndLastPositionTimestamp := xdndLastPositionTimestamp s; amISource := amISource s;
     p_rootX := p_rootX s; p_rootY := p_rootY s; otherWindow := otherWindow s;
     proposedAction := proposedAction s; proposedType := t |}.

(** Line 771. *)
Definition set_statusReceived (s : XDNDStateMachine) :=
  {| xdndExchangeStarted := xdndExchangeStarted s;
     xdndPositionReceived := xdndPositionReceived s;
     xdndStatusReceived := true; xdndStatusSent := xdndStatusSent s;
     xdndDropReceived := xdndDropReceived s; xdndDropTimestamp := xdndDropTimestamp s;
     xdndLastPositionTimestamp := xdndLastPositionTimestamp s; amISource := amISource s;
     p_rootX := p_rootX s; p_rootY := p_rootY s; otherWindow := otherWindow s;
     proposedAction := proposedAction s; proposedType := proposedType s |}.

(** Lines 803-807. *)
Definition record_position (s : XDNDStateMachine) (x y : Z) (action : Atom) (time : Time) :=
  {| xdndExchangeStarted := xdndExchangeStarted s; xdndPositionReceived := true;
     xdndStatusReceived := xdndStatusReceived s; xdndStatusSent := xdndStatusSent s;
     xdndDropReceived := xdndDropReceived s; xdndDropTimestamp := xdndDropTimestamp s;
     xdndLastPositionTimestamp := time; amISource := amISource s;
     p_rootX := x; p_rootY := y; otherWindow := otherWindow s;
     proposedAction := action; proposedType := proposedType s |}.

(** Line 812. *)
Definition set_statusSent (s : XDNDStateMachine) :=
  {| xdndExchangeStarted := xdndExchangeStarted s;
     xdndPositionReceived := xdndPositionReceived s;
     xdndStatusReceived := xdndStatusReceived s; xdndStatusSent := true;
     xdndDropReceived := xdndDropReceived s; xdndDropTimestamp := xdndDropTimestamp s;
     xdndLastPositionTimestamp := xdndLastPositionTimestamp s; amISource := amISource s;
     p_rootX := p_rootX s; p_rootY := p_rootY s; otherWindow := otherWindow s;
     proposedAction := proposedAction s; proposedType := proposedType s |}.

(** Lines 837-838. *)
Definition record_drop (s : XDNDStateMachine) (time : Time) :=
  {| xdndExchangeStarted := xdndExchangeStarted s;
     xdndPositionReceived := xdndPositionReceived s;
     xdndStatusReceived := xdndStatusReceived s; xdndStatusSent := xdndStatusSent s;
     xdndDropReceived := true; xdndDropTimestamp := time;
     xdndLastPositionTimestamp := xdndLastPositionTimestamp s; amISource := amISource s;
     p_rootX := p_rootX s; p_rootY := p_rootY s; otherWindow := otherWindow s;
     proposedAction := proposedAction s; proposedType := proposedType s |}.

(** ** The process *)

(** The state a handler of [spawnWindow]'s loop reads and writes: the
    static [xdndState] and the locals [square], [clickedStillInWindow]
    and [continueEventLoop]. *)
Record Peer := {
  xdndState : XDNDStateMachine;
  square : Square;
  clickedStillInWindow : bool;
  continueEventLoop : bool
}.

Definition set_state (p : Peer) (s : XDNDStateMachine) : Peer :=
  {| xdndState := s; square := square p;
     clickedStillInWindow := clickedStillInWindow p;
     continueEventLoop := continueEventLoop p |}.

Definition set_square (p : Peer) (sq : Square) : Peer :=
  {| xdndState := xdndState p; square := sq;
     clickedStillInWindow := clickedStillInWindow p;
     continueEventLoop := continueEventLoop p |}.

Definition set_clicked (p : Peer) (b : bool) : Peer :=
  {| xdndState := xdndState p; square := square p;
     clickedStillInWindow := b; continueEventLoop := continueEventLoop p |}.

Definition stop_loop (p : Peer) : Peer :=
  {| xdndState := xdndState p; square := square p;
     clickedStillInWindow := clickedStillInWindow p; continueEventLoop := false |}.

(** The handler monad: process state, X requests, [Exit]/[Undefined]. *)
Definition PM := @SWE Peer XRequest.

Definition modify_state (f : XDNDStateMachine -> XDNDStateMachine) : PM unit :=
  modify (fun p => set_state p (f (xdndState p))).

Definition get_state : PM XDNDStateMachine :=
  p <- get ;; ret (xdndState p).

(** ** The guarded senders *)

Section Senders.
Context (A : Atoms) (v : XView).

(** A library call that issues a request and reports failure by its
    return value, checked as [if (call(...) == 0) philError("call")]:
    a failed call issues nothing and ends the process. *)
Definition xcall (name : string) (rq : XRequest) : PM unit :=
  if v_fails v name then lift (philError name) else emit rq.

(** [if (XSendEvent(disp, target, False, 0, &message) == 0)
    philError("XSendEvent");] *)
Definition send_cm (target : Window) (m : XClientMessageEvent) : PM unit :=
  xcall "XSendEvent" (ReqSendEvent target (ClientMessage m)).

(** [if (!xdndState.xdndExchangeStarted)] *)
Definition sendXdndEnter (xdndVersion : Z) (source target : Window) : PM unit :=
  s <- get_state ;;
  when (negb (xdndExchangeStarted s))
    (send_cm target (xdndEnter_msg A xdndVersion source target)).

(** [if (started && amISource)]; [time] is the [int] parameter. *)
Definition sendXdndPosition (source target : Window) (time p_rootX p_rootY : Z) : PM unit :=
  s <- get_state ;;
  when (xdndExchangeStarted s && amISource s)
    (send_cm target (xdndPosition_msg A source target time p_rootX p_rootY)).

Definition sendXdndLeave (source target : Window) : PM unit :=
  s <- get_state ;;
  when (xdndExchangeStarted s && amISource s)
    (send_cm target (xdndLeave_msg A source target)).

(** [if (started && !amISource)] *)
Definition sendXdndFinished (source target : Window) : PM unit :=
  s <- get_state ;;
  when (xdndExchangeStarted s && negb (amISource s))
    (send_cm target (xdndFinished_msg A source target)).

Definition sendXdndStatus (source target : Window) (action : Atom) : PM unit :=
  s <- get_state ;;
  when (xdndExchangeStarted s && negb (amISource s))
    (send_cm target (xdndStatus_msg A source target action)).

Definition sendXdndDrop (source target : Window) : PM unit :=
  s <- get_state ;;
  when (xdndExchangeStarted s && amISource s)
    (send_cm target (xdndDrop_msg A source target (xdndLastPositionTimestamp s))).

(** [sendSelectionNotify]: allocate the buffer ([malloc], line 302),
    write the framed path into the requestor's property
    ([XChangeProperty], format 8, type [typesWeAccept[0]], its result
    unchecked), then tell the requestor with a SelectionNotify. *)
Definition sendSelectionNotify (req : XSelectionRequestEvent) (pathStr : string) : PM unit :=
  s <- get_state ;;
  when (xdndExchangeStarted s && amISource s)
    ((if v_fails v "malloc" then lift (philError "malloc") else ret tt) ;;
     emit (ReqChangeProperty (sr_requestor req) (sr_property req)
             (hd XNone (typesWeAccept A)) 8 (selection_payload pathStr)) ;;
     xcall "XSendEvent"
       (ReqSendEvent (sr_requestor req)
          (SelectionNotify {| sn_requestor := sr_requestor req;
                              sn_selection := sr_selection req;
                              sn_target := sr_target req;
                              sn_property := sr_property req;
                              sn_time := sr_time req |}))).
End Senders.

(** ** The session invariant *)

(** No field is set outside an exchange; a source never touches the
    target's flags; a target never receives a status, sends its status
    exactly when it has seen a position, and accepts a drop only after a
    position. *)
Definition session_invb (s : XDNDStateMachine) : bool :=
  if negb (xdndExchangeStarted s) then
    negb (xdndPositionReceived s) && negb (xdndStatusReceived s) &&
    negb (xdndStatusSent s) && negb (xdndDropReceived s) &&
    (xdndDropTimestamp s =? 0) && (xdndLastPositionTimestamp s =? 0) &&
    negb (amISource s) && (p_rootX s =? 0) && (p_rootY s =? 0) &&
    (otherWindow s =? 0) && (proposedAction s =? 0) && (proposedType s =? 0)
  else if amISource s then
    negb (xdndPositionReceived s) && negb (xdndStatusSent s) &&
    negb (xdndDropReceived s) && (xdndLastPositionTimestamp s =? 0)
  else
    negb (xdndStatusReceived s) && Bool.eqb (xdndStatusSent s) (xdndPositionReceived s) &&
    implb (xdndDropReceived s) (xdndPositionReceived s).

Definition session_inv (s : XDNDStateMachine) : Prop := session_invb s = true.

(** ** The phases of the spec (section 4.1) *)

Inductive Phase :=
| Idle
| SourceNegotiating
| SourceAcked
| TargetNegotiating
| TargetTracking
| TargetDropped.

(** The phase a session is in, read off its flags. *)
Definition phase_of (s : XDNDStateMachine) : Phase :=
  if negb (xdndExchangeStarted s) then Idle
  else if amISource s then
    if xdndStatusReceived s then SourceAcked else SourceNegotiating
  else if xdndDropReceived s then TargetDropped
  else if xdndStatusSent s then TargetTracking
  else TargetNegotiating.

(** The abstract session of the spec: its phase and its peer. *)
Definition abs_session (s : XDNDStateMachine) : Phase * Window := (phase_of s, otherWindow s).

(** The transitions of section 4.1: entering an eligible window or
    receiving the opening message from [Idle], with any peer; an
    accepted acknowledgment; the first position (which sends the
    acknowledgment); an accepted drop, each with the same peer; and the
    reset of the whole session to [Idle], on completion, abandonment or
    retargeting, from any phase. *)
Inductive spec_step : Phase * Window -> Phase * Window -> Prop :=
| ss_enter_source w : spec_step (Idle, 0) (SourceNegotiating, w)
| ss_enter_target w : spec_step (Idle, 0) (TargetNegotiating, w)
| ss_acked w : spec_step (SourceNegotiating, w) (SourceAcked, w)
| ss_tracking w : spec_step (TargetNegotiating, w) (TargetTracking, w)
| ss_dropped w : spec_step (TargetTracking, w) (TargetDropped, w)
| ss_reset a : spec_step a (Idle, 0).

(** What one event may do to the abstract session: nothing, one
    transition, or the retargeting rule of section 4.1 (abandon, reset
    and re-run the entry rule as the source of the new window). *)
Inductive spec_event : Phase * Window -> Phase * Window -> Prop :=
| se_stay a : spec_event a a
| se_step a b : spec_step a b -> spec_event a b
| se_retarget a w : spec_event a (SourceNegotiating, w).

#[export] Hint Constructors spec_step spec_event : xdnd.

(** ** The atomic session steps

    Every change the handlers make to [xdndState] is a sequence of the
    following steps ([Peer] shows it handler by handler). *)
Inductive xstep : XDNDStateMachine -> XDNDStateMachine -> Prop :=
(** [memset(&xdndState, 0, ...)] *)
| xs_reset s : xstep s xdnd_reset
(** Lines 647-649, outside an exchange. *)
| xs_start_source s w :
    xdndExchangeStarted s = false -> xstep s (start_exchange s true w)
(** Lines 744-763, outside an exchange. *)
| xs_enter s w t :
    xdndExchangeStarted s = false ->
    xstep s (set_proposedType (start_exchange s false w) t)
(** Line 771, as source. *)
| xs_status s :
    xdndExchangeStarted s = true -> amISource s = true -> xstep s (set_statusReceived s)
(** Lines 803-807, as target, the status already sent. *)
| xs_position s x y a ts :
    xdndExchangeStarted s = true -> amISource s = false -> xdndStatusSent s = true ->
    xstep s (record_position s x y a ts)
(** Lines 803-812, as target, the first position: the status is sent. *)
| xs_first_position s x y a ts :
    xdndExchangeStarted s = true -> amISource s = false -> xdndStatusSent s = false ->
    xstep s (set_statusSent (record_position s x y a ts))
(** Lines 837-838, as target, after a position. *)
| xs_drop s ts :
    xdndExchangeStarted s = true -> amISource s = false -> xdndPositionReceived s = true ->
    xstep s (record_drop s ts).

(** What one handler does to the session: nothing, one atomic step,
    or the retargeting of lines 623-649 (a reset, then a new exchange
    as source). *)
Inductive xevent : XDNDStateMachine -> XDNDStateMachine -> Prop :=
| xe_stay s : xevent s s
| xe_step s s' : xstep s s' -> xevent s s'
| xe_retarget s w : xevent s (start_exchange xdnd_reset true w).

#[export] Hint Constructors xstep xevent : xdnd.

(** Unfold the invariant into facts about the fields. *)
Ltac inv_facts H :=
  unfold session_inv, session_invb in H; cbn in H;
  repeat match type of H with
         | context [if ?b then _ else _] => let E := fresh "E" in destruct b eqn:E
         end;
  zbool; repeat match goal with
                | H' : Bool.eqb _ _ = true |- _ => apply Bool.eqb_prop in H'
                | H' : implb ?a _ = true |- _ => destruct a eqn:?; cbn in H'
                end.

Lemma not_started_reset s :
  session_inv s -> xdndExchangeStarted s = false -> s = xdnd_reset.
Proof.
  intros H Hs. destruct s; cbn in *; subst. inv_facts H; try discriminate.
  subst. reflexivity.
Qed.

(** Each atomic step keeps the session invariant. *)
Lemma xstep_inv s s' : session_inv s -> xstep s s' -> session_inv s'.
Proof.
  intros H Hs. destruct Hs;
    try (destruct s as [st pr sr ss dr dt lt src x0 y0 ow pa pt]; cbn in *; subst;
         inv_facts H; subst; try discriminate; reflexivity).
Qed.

(** Each atomic step stays in its abstract session or makes one
    transition of the spec. *)
Lemma xstep_spec s s' :
  session_inv s -> xstep s s' -> spec_event (abs_session s) (abs_session s').
Proof.
  intros H Hs. destruct Hs;
    try (destruct s as [st pr sr ss dr dt lt src x0 y0 ow pa pt]; cbn in *; subst;
         inv_facts H; subst; try discriminate; unfold abs_session, phase_of; cbn;
         repeat match goal with |- context [if ?b then _ else _] => destruct b end;
         eauto with xdnd).
Qed.

Lemma xevent_inv s s' : session_inv s -> xevent s s' -> session_inv s'.
Proof.
  intros H Hs. destruct Hs as [s|s s' Hs|s w]; [exact H | exact (xstep_inv _ _ H Hs)|].
  reflexivity.
Qed.

Lemma xevent_spec s s' :
  session_inv s -> xevent s s' -> spec_event (abs_session s) (abs_session s').
Proof.
  intros H Hs. destruct Hs as [s|s s' Hs|s w]; [constructor | exact (xstep_spec _ _ H Hs)|].
  apply se_retarget.
Qed.
