(* ===== verification/Peer.v ===== *)
(** * The event handlers of [spawnWindow]

    One definition per [case] of the [switch (event.type)] of
    [spawnWindow] (src/spawn_window.c, lines 546-847), with the helpers
    it calls ([drawSquare], [isPointerInsideSquare]), composed into
    [handle_event]; [run_events] is the [while (continueEventLoop)]
    loop over a sequence of events.  A [break] that leaves the switch
    early skips the rest of the case, the final [drawSquare] included.

    The theorems on [handle_event]: the session invariant is kept,
    every handler moves the session along the phases the spec allows,
    and the behaviour of the protocol paths the spec names (send-once
    acknowledgment, rejection, retargeting, drop checks, completion),
    with the places where the code departs from the spec.  Concrete
    runs on three copies of the program witness each of them. *)

From Stdlib Require Import ZArith List String Bool Lia.
From S2P Require Import Prelude XTypes Codec Negotiate Payload HitTest Session.
Import ListNotations.
Open Scope Z_scope.

(** ** The square *)

(** [unsigned long red = 0xFF << 16; blue = 0xFF; green = 0xFF << 8;] *)
Definition red : Z := Z.shiftl 255 16.
Definition blue : Z := 255.
Definition green : Z := Z.shiftl 255 8.

(** [square.colour == RedSquare ? red : blue] *)
Definition colour_pixel (c : SquareColour) : Z := if c =? RedSquare then red else blue.

(** [isPointerInsideSquare], lines 53-57. *)
Definition isPointerInsideSquare (x y : Z) (sq : Square) : bool :=
  (sq_x sq <=? x) && (x <? sq_x sq + size sq) && (sq_y sq <=? y) && (y <? sq_y sq + size sq).

(** [if (v < 0) v = 0;] then [if (v > 150) v = 150;] *)
Definition clamp (v : Z) : Z :=
  let v1 := if v <? 0 then 0 else v in
  if v1 >? 150 then 150 else v1.

Definition mk_square (sq : Square) (x y mx my : Z) (vis sel : bool) (c : SquareColour) :=
  {| sq_x := x; sq_y := y; mouse_x := mx; mouse_y := my; size := size sq;
     visible := vis; selected := sel; colour := c |}.

(** Lines 601-612: drag the square by the pointer's displacement. *)
Definition drag_square (sq : Square) (x y : Z) : Square :=
  mk_square sq (clamp (sq_x sq + (x - mouse_x sq))) (clamp (sq_y sq + (y - mouse_y sq)))
    x y (visible sq) (selected sq) (colour sq).

(** Lines 581-590: centre the square on the pointer. *)
Definition place_square (sq : Square) (wx wy : Z) : Square :=
  mk_square sq (clamp (wx - 25)) (clamp (wy - 25)) (mouse_x sq) (mouse_y sq)
    (visible sq) (selected sq) (colour sq).

Definition set_visible (sq : Square) (b : bool) : Square :=
  mk_square sq (sq_x sq) (sq_y sq) (mouse_x sq) (mouse_y sq) b (selected sq) (colour sq).

(** Lines 678-680. *)
Definition grab_square (sq : Square) (x y : Z) : Square :=
  mk_square sq (sq_x sq) (sq_y sq) x y (visible sq) true (colour sq).

Definition release_square (sq : Square) : Square :=
  mk_square sq (sq_x sq) (sq_y sq) (mouse_x sq) (mouse_y sq) (visible sq) false (colour sq).

(** Line 668. *)
Definition toggle_colour (sq : Square) : Square :=
  mk_square sq (sq_x sq) (sq_y sq) (mouse_x sq) (mouse_y sq) (visible sq) (selected sq)
    (if colour sq =? RedSquare then BlueSquare else RedSquare).

Definition modify_square (f : Square -> Square) : PM unit :=
  modify (fun p => set_square p (f (square p))).

(** [drawSquare], lines 41-49: clear, fill if visible, flush. *)
Definition drawSquare : PM unit := p <- get ;; emit (ReqDraw (square p)).

Section Handlers.
Context (A : Atoms) (wind : Window) (v : XView).

(** [case SelectionRequest], lines 548-554. *)
Definition handleSelectionRequest (req : XSelectionRequestEvent) : PM unit :=
  s <- get_state ;;
  when (xdndExchangeStarted s && amISource s)
    (p <- get ;;
     saved <- lift (saveSquareState v (square p)) ;;
     emit (ReqWriteFile (fst saved) (snd saved)) ;;
     sendSelectionNotify A v req (fst saved)).

(** [case SelectionNotify], lines 556-597. *)
Definition handleSelectionNotify (e : XSelectionEvent) : PM unit :=
  if negb (sn_property e =? XDND_DATA A) then ret tt else
  pathStr <- lift (getCopiedData A v wind) ;;
  emit (ReqDeleteProperty wind (XDND_DATA A)) ;;
  p <- get ;;
  sq <- lift (restoreSquareState v pathStr (square p)) ;;
  modify_square (fun _ => set_visible sq true) ;;
  emit (ReqSetForeground (colour_pixel (colour sq))) ;;
  modify_square (fun sq => place_square sq (fst (v_pointer v)) (snd (v_pointer v))) ;;
  s <- get_state ;;
  sendXdndFinished A v wind (otherWindow s) ;;
  modify_state (fun _ => xdnd_reset) ;;
  drawSquare.

(** Lines 652-658, then [drawSquare] at line 661. *)
Definition motion_position (e : XMotionEvent) (targetWindow : Window) : PM unit :=
  s <- get_state ;;
  when (negb (xdndStatusReceived s))
    (sendXdndPosition A v wind targetWindow (to_int (mo_time e)) (mo_x_root e) (mo_y_root e)) ;;
  drawSquare.

(** Lines 614-659: the XDND part of a drag outside our window. *)
Definition motion_xdnd (e : XMotionEvent) : PM unit :=
  let targetWindow := getWindowPointerIsOver (v_tree v) (mo_x_root e) (mo_y_root e) 0 0 in
  if targetWindow =? XNone then ret tt else
  s <- get_state ;;
  when (xdndExchangeStarted s && negb (targetWindow =? otherWindow s))
    (sendXdndLeave A v wind (otherWindow s) ;;
     modify_state (fun _ => xdnd_reset)) ;;
  s <- get_state ;;
  if xdndExchangeStarted s then motion_position e targetWindow else
  let supportsXdnd := hasCorrectXdndAwareProperty A v targetWindow in
  if supportsXdnd =? 0 then ret tt else
  emit (ReqSetSelectionOwner (XdndSelection A) wind (mo_time e)) ;;
  sendXdndEnter A v supportsXdnd wind targetWindow ;;
  modify_state (fun s => start_exchange s true targetWindow) ;;
  motion_position e targetWindow.

(** [case MotionNotify], lines 599-662. *)
Definition handleMotionNotify (e : XMotionEvent) : PM unit :=
  p <- get ;;
  if negb (selected (square p)) then drawSquare else
  modify_square (fun sq => drag_square sq (mo_x e) (mo_y e)) ;;
  if clickedStillInWindow p then drawSquare else motion_xdnd e.

(** [case KeyRelease], lines 664-673: key 'a' swaps the colour. *)
Definition handleKeyRelease (keycode : Z) : PM unit :=
  p <- get ;;
  when (visible (square p) && (keycode =? 38))
    (modify_square toggle_colour ;;
     p <- get ;;
     emit (ReqSetForeground (colour_pixel (colour (square p)))) ;;
     drawSquare).

(** [case ButtonPress], lines 675-685. *)
Definition handleButtonPress (x y : Z) : PM unit :=
  p <- get ;;
  when (isPointerInsideSquare x y (square p))
    (modify_square (fun sq => grab_square sq x y) ;;
     modify (fun p => set_clicked p true) ;;
     emit (ReqSetForeground green) ;;
     drawSquare).

(** [case ButtonRelease], lines 687-699. *)
Definition handleButtonRelease : PM unit :=
  s <- get_state ;;
  when (xdndExchangeStarted s && amISource s && xdndStatusReceived s)
    (sendXdndDrop A v wind (otherWindow s)) ;;
  p <- get ;;
  when (selected (square p))
    (modify_square release_square ;;
     p <- get ;;
     emit (ReqSetForeground (colour_pixel (colour (square p)))) ;;
     drawSquare).

(** [case Expose], lines 700-702: redraw the square. *)
Definition handleExpose : PM unit := drawSquare.

(** [case EnterNotify] and [case LeaveNotify], lines 705-715. *)
Definition handleCrossing (entering : bool) : PM unit :=
  p <- get ;;
  when (selected (square p)) (modify (fun p => set_clicked p entering)).

(** Lines 740-764: the opening message, outside an exchange. *)
Definition client_idle (m : XClientMessageEvent) : PM unit :=
  when (message_type m =? XdndEnter A)
    (modify_state (fun s => start_exchange s false (to_ulong (l0 m))) ;;
     t <- lift (enter_proposed_type A v m) ;;
     modify_state (fun s => set_proposedType s t)).

(** Lines 768-788: the source's side of an exchange. *)
Definition client_source (m : XClientMessageEvent) : PM unit :=
  if message_type m =? XdndStatus A then
    modify_state set_statusReceived ;;
    (if negb (Z.land (l1 m) 1 =? 1) then
       s <- get_state ;;
       sendXdndLeave A v wind (otherWindow s) ;;
       modify_state (fun _ => xdnd_reset)
     else ret tt)
  else if message_type m =? XdndFinished A then
    modify_square (fun sq => set_visible sq false) ;;
    modify_state (fun _ => xdnd_reset) ;;
    drawSquare
  else ret tt.

(** Lines 818-843: XdndLeave, then XdndDrop. *)
Definition client_target_rest (m : XClientMessageEvent) : PM unit :=
  when (message_type m =? XdndLeave A) (modify_state (fun _ => xdnd_reset)) ;;
  when (message_type m =? XdndDrop A)
    (s <- get_state ;;
     if negb (xdndPositionReceived s) || negb (to_ulong (l0 m) =? otherWindow s)
     then ret tt
     else
       modify_state (fun s => record_drop s (to_ulong (l2 m))) ;;
       s <- get_state ;;
       emit (ReqConvertSelection (XdndSelection A) (proposedType s) (XDND_DATA A)
               wind (xdndDropTimestamp s))).

(** Lines 790-843: the target's side; a position from another window
    than the recorded peer, once one position was received, leaves
    the switch. *)
Definition client_target (m : XClientMessageEvent) : PM unit :=
  if message_type m =? XdndPosition A then
    s <- get_state ;;
    if xdndPositionReceived s && negb (to_ulong (l0 m) =? otherWindow s) then ret tt
    else
      modify_state (fun s => record_position s (fst (unpack_position (l2 m)))
                               (snd (unpack_position (l2 m)))
                               (to_ulong (l4 m)) (to_ulong (l3 m))) ;;
      s <- get_state ;;
      when (negb (xdndStatusSent s))
        (modify_state set_statusSent ;;
         s <- get_state ;;
         sendXdndStatus A v wind (otherWindow s) (proposedAction s)) ;;
      client_target_rest m
  else client_target_rest m.

(** [case ClientMessage], lines 717-846. *)
Definition handleClientMessage (m : XClientMessageEvent) : PM unit :=
  if (message_type m =? WM_PROTOCOLS A) && (to_ulong (l0 m) =? WM_DELETE_WINDOW A)
  then modify stop_loop
  else
    s <- get_state ;;
    if negb (xdndExchangeStarted s) then client_idle m
    else if amISource s then client_source m
    else client_target m.

(** The [switch (event.type)]. *)
Definition handle_event (e : XEvent) : PM unit :=
  match e with
  | SelectionRequest req => handleSelectionRequest req
  | SelectionNotify sn => handleSelectionNotify sn
  | MotionNotify mo => handleMotionNotify mo
  | KeyRelease k => handleKeyRelease k
  | ButtonPress x y => handleButtonPress x y
  | ButtonRelease _ _ => handleButtonRelease
  | Expose => handleExpose
  | EnterNotify => handleCrossing true
  | LeaveNotify => handleCrossing false
  | ClientMessage m => handleClientMessage m
  | OtherEvent _ => ret tt
  end.
End Handlers.

(** [while (continueEventLoop) { XNextEvent(...); switch ... }] over a
    finite sequence of events, each handled against the server view at
    the time it is dequeued. *)
Fixpoint run_events (A : Atoms) (wind : Window) (evs : list (XView * XEvent)) (p : Peer)
  : outcome (Peer * list XRequest) :=
  match evs with
  | [] => Ok (p, [])
  | (v, e) :: rest =>
      if negb (continueEventLoop p) then Ok (p, []) else
      match handle_event A wind v e p with
      | Ok (_, p1, r1) =>
          match run_events A wind rest p1 with
          | Ok (p2, r2) => Ok (p2, r1 ++ r2)
          | Exit w => Exit w
          | Undefined w => Undefined w
          end
      | Exit w => Exit w
      | Undefined w => Undefined w
      end
  end.

(** ** Definitions used by the statements *)

(** The values an XdndPosition carries, as the target stores them. *)
Definition position_of (s : XDNDStateMachine) (m : XClientMessageEvent) :=
  record_position s (fst (unpack_position (l2 m))) (snd (unpack_position (l2 m)))
    (to_ulong (l4 m)) (to_ulong (l3 m)).

Definition is_status_req (A : Atoms) (rq : XRequest) : bool :=
  match rq with
  | ReqSendEvent _ (ClientMessage m) => message_type m =? XdndStatus A
  | _ => false
  end.

Definition count_status (A : Atoms) (rs : list XRequest) : nat :=
  List.length (filter (is_status_req A) rs).

Definition deliver_all (v : XView) (ms : list XClientMessageEvent) : list (XView * XEvent) :=
  map (fun m => (v, ClientMessage m)) ms.


(** The ClientMessage of the window manager closing the window. *)
Definition is_close (A : Atoms) (e : XEvent) : bool :=
  match e with
  | ClientMessage m => (message_type m =? WM_PROTOCOLS A) && (to_ulong (l0 m) =? WM_DELETE_WINDOW A)
  | _ => false
  end.

(** The six message types of the protocol. *)
Definition xdnd_messages (A : Atoms) : list Atom :=
  [XdndEnter A; XdndPosition A; XdndLeave A; XdndStatus A; XdndDrop A; XdndFinished A].

Definition square_ok (sq : Square) : Prop :=
  0 <= sq_x sq <= 150 /\ 0 <= sq_y sq <= 150.


(** ** Example data *)

(** Three copies of the program with windows 100, 200 and 300 side by
    side on a root window 1, and a window 400 without XdndAware.  The
    X server holds the XdndAware property (version 5) of the three
    copies and, on window 200, an XDND_DATA property with the framed path
    of the colour file; the colour file holds [BlueSquare]. *)
Definition ex_square : Square :=
  {| sq_x := 0; sq_y := 0; mouse_x := 0; mouse_y := 0; size := 50;
     visible := false; selected := false; colour := RedSquare |}.

Definition ex_aware : PropVal := {| p_type := 70; p_format := 32; p_items := [5] |}.

Definition ex_view : XView :=
  {| v_tree := WNode 1 0 0 1000 1000
                 [WNode 100 0 0 200 200 []; WNode 200 200 0 200 200 [];
                  WNode 300 400 0 200 200 []; WNode 400 600 0 200 200 []];
     v_prop := fun w a =>
       if (w =? 200) && (a =? XDND_DATA std_atoms)
       then Some {| p_type := 83; p_format := 8;
                    p_items := selection_payload SQUARE_FILE_PATH |}
       else if (w <? 400) && (a =? XdndAware std_atoms) then Some ex_aware
       else None;
     v_pointer := (60, 70);
     v_read_file := fun _ => Some (le_bytes 4 BlueSquare);
     v_fails := fun _ => false |}.

Definition ex_peer (s : XDNDStateMachine) (sq : Square) : Peer :=
  {| xdndState := s; square := sq; clickedStillInWindow := false;
     continueEventLoop := true |}.

(** Window 100 dragging its square, the source of an acknowledged
    exchange with window 200. *)
Definition ex_source : Peer :=
  ex_peer (set_statusReceived (start_exchange xdnd_reset true 200))
    {| sq_x := 20; sq_y := 20; mouse_x := 10; mouse_y := 10; size := 50;
       visible := true; selected := true; colour := RedSquare |}.

(** Window 200 outside any exchange, then the target of window 100
    before any position, and after one. *)
Definition ex_idle : Peer := ex_peer xdnd_reset ex_square.

Definition ex_target : Peer :=
  ex_peer (set_proposedType (start_exchange xdnd_reset false 100) 83) ex_square.

Definition ex_tracking_target : Peer :=
  ex_peer (set_statusSent (record_position
             (start_exchange xdnd_reset false 100) 300 40
             (XdndActionCopy std_atoms) 1234)) ex_square.

(** The messages window 100 sends window 200, and back, as received. *)
Definition ex_enter := wire_cm (xdndEnter_msg std_atoms 5 100 200).
Definition ex_position := wire_cm (xdndPosition_msg std_atoms 100 200 1234 300 40).
Definition ex_drop := wire_cm (xdndDrop_msg std_atoms 100 200 1234).
Definition ex_status := wire_cm (xdndStatus_msg std_atoms 200 100 (XdndActionCopy std_atoms)).

(** The pointer at (450, 50) on the root window, over window 300, and
    at (650, 50), over window 400. *)
Definition ex_motion_300 : XMotionEvent :=
  {| mo_x := 30; mo_y := 30; mo_x_root := 450; mo_y_root := 50; mo_time := 5000 |}.

(** The same motion 24.8 days later, its time past 2^31 ms. *)
Definition ex_motion_late : XMotionEvent :=
  {| mo_x := 30; mo_y := 30; mo_x_root := 450; mo_y_root := 50; mo_time := 2 ^ 31 + 5000 |}.

Definition ex_motion_400 : XMotionEvent :=
  {| mo_x := 30; mo_y := 30; mo_x_root := 650; mo_y_root := 50; mo_time := 5000 |}.

Definition ex_selection_notify : XSelectionEvent :=
  {| sn_requestor := 200; sn_selection := XdndSelection std_atoms; sn_target := 83;
     sn_property := XDND_DATA std_atoms; sn_time := 0 |}.

(** The window manager closing window 200. *)
Definition ex_close : XClientMessageEvent :=
  {| cm_window := 200; message_type := WM_PROTOCOLS std_atoms; cm_format := 32;
     l0 := WM_DELETE_WINDOW std_atoms; l1 := 0; l2 := 0; l3 := 0; l4 := 0 |}.

(** [ex_view] where the library call [name] fails. *)
Definition ex_view_failing (name : string) : XView :=
  {| v_tree := v_tree ex_view; v_prop := v_prop ex_view; v_pointer := v_pointer ex_view;
     v_read_file := v_read_file ex_view; v_fails := fun n => String.eqb n name |}.

(** ** Running a handler symbolically *)

(** Unfold the monad and the senders in a hypothesis [m p = Ok ...],
    and split on every test and every fallible call it meets. *)
Ltac pm_unfold H :=
  unfold sendXdndEnter, sendXdndPosition, sendXdndLeave, sendXdndFinished,
    sendXdndStatus, sendXdndDrop, sendSelectionNotify, get_state, modify_state,
    send_cm, xcall, philError, modify_square, drawSquare, when, lift, outcome_bind,
    bind, ret, get, put, modify, emit in H.

Ltac pm_cbn H :=
  cbn -[getWindowPointerIsOver hasCorrectXdndAwareProperty getCopiedData
        restoreSquareState saveSquareState enter_proposed_type Z.shiftr Z.land to_int to_ulong
        wire32 unpack_position clamp] in H.

Ltac pm_split H :=
  repeat (pm_cbn H;
          match type of H with
          | context [if ?b then _ else _] => let E := fresh "E" in destruct b eqn:E
          | context [match enter_proposed_type ?a ?b ?c with Ok _ => _ | Exit _ => _
                     | Undefined _ => _ end] =>
              let E := fresh "E" in destruct (enter_proposed_type a b c) eqn:E
          | context [match getCopiedData ?a ?b ?c with Ok _ => _ | Exit _ => _
                     | Undefined _ => _ end] =>
              let E := fresh "E" in destruct (getCopiedData a b c) eqn:E
          | context [match restoreSquareState ?a ?b ?c with Ok _ => _ | Exit _ => _
                     | Undefined _ => _ end] =>
              let E := fresh "E" in destruct (restoreSquareState a b c) eqn:E
          | context [match saveSquareState ?a ?b with Ok _ => _ | Exit _ => _
                     | Undefined _ => _ end] =>
              let E := fresh "E" in destruct (saveSquareState a b) eqn:E
          end);
  pm_cbn H; try discriminate H.

Ltac pm_run H := pm_unfold H; pm_split H.

(** Evaluate a handler in the goal, rewriting with the facts of the
    context about the state and the event. *)
Ltac pm_unfold_goal :=
  unfold sendXdndEnter, sendXdndPosition, sendXdndLeave, sendXdndFinished,
    sendXdndStatus, sendXdndDrop, sendSelectionNotify, get_state, modify_state,
    send_cm, xcall, philError, modify_square, drawSquare, when, lift, outcome_bind,
    bind, ret, get, put, modify, emit.

Ltac rewrite_facts :=
  repeat match goal with
         | H : ?x = _ |- context [?x] =>
             lazymatch x with
             | _ _ => rewrite H
             end
         end.

Ltac pm_goal_eval :=
  cbn -[getWindowPointerIsOver hasCorrectXdndAwareProperty
        getCopiedData restoreSquareState saveSquareState enter_proposed_type
        Z.shiftr Z.land to_int to_ulong wire32 unpack_position clamp
        xdndLeave_msg xdndEnter_msg xdndPosition_msg xdndStatus_msg
        xdndDrop_msg xdndFinished_msg].

Ltac pm_eval HA :=
  pm_unfold_goal; repeat (progress (pm_goal_eval; rewrite_facts; atoms_eqb HA)).

Ltac pm_eval0 :=
  pm_unfold_goal; repeat (progress (pm_goal_eval; rewrite_facts)).

(** Close [xevent s s']: no change, one atomic step, or a retargeting. *)
Ltac xstep_side := cbn; first [assumption | reflexivity | congruence].
Ltac xevent_solve :=
  first
    [ apply xe_stay
    | apply xe_step; econstructor; xstep_side
    | apply xe_retarget ].

Ltac pm_goal_cbn :=
  cbn -[getWindowPointerIsOver hasCorrectXdndAwareProperty getCopiedData
        restoreSquareState saveSquareState enter_proposed_type Z.shiftr Z.land to_int to_ulong
        wire32 unpack_position clamp].

Ltac handler_xevent H := pm_run H; injection H as _ <- _; pm_goal_cbn; zbool; xevent_solve.

(** ** Every handler changes the session by at most one atomic step or a retargeting *)

Lemma handleClientMessage_xevent A wind v m p a p' r :
  atoms_wf A ->
  handleClientMessage A wind v m p = Ok (a, p', r) -> xevent (xdndState p) (xdndState p').
Proof.
  intros HA H. unfold handleClientMessage, client_idle, client_source, client_target,
    client_target_rest in H.
  pm_run H; injection H as _ <- _; pm_goal_cbn; zbool;
    first [xevent_solve | exfalso; atoms_nodup HA; intuition congruence].
Qed.

Lemma handleMotionNotify_xevent A wind v e p a p' r :
  handleMotionNotify A wind v e p = Ok (a, p', r) -> xevent (xdndState p) (xdndState p').
Proof.
  intros H. unfold handleMotionNotify, motion_xdnd, motion_position in H.
  handler_xevent H.
Qed.

Lemma handleSelectionNotify_xevent A wind v e p a p' r :
  handleSelectionNotify A wind v e p = Ok (a, p', r) -> xevent (xdndState p) (xdndState p').
Proof. intros H. unfold handleSelectionNotify in H. handler_xevent H. Qed.

(** The handlers that do not touch the session. *)
Lemma handle_other_xevent A wind v e p a p' r :
  match e with ClientMessage _ | MotionNotify _ | SelectionNotify _ => False | _ => True end ->
  handle_event A wind v e p = Ok (a, p', r) -> xevent (xdndState p) (xdndState p').
Proof.
  intros He H. destruct e; try contradiction; unfold handle_event in H;
    unfold handleSelectionRequest, handleKeyRelease, handleButtonPress,
      handleButtonRelease, handleExpose, handleCrossing in H;
    handler_xevent H.
Qed.

(** Every event changes the session by [xevent]. *)
Lemma handle_event_xevent A wind v e p a p' r :
  atoms_wf A ->
  handle_event A wind v e p = Ok (a, p', r) -> xevent (xdndState p) (xdndState p').
Proof.
  intros HA H. destruct e; try (eapply handle_other_xevent; [| exact H]; exact I).
  - eapply handleSelectionNotify_xevent; exact H.
  - eapply handleMotionNotify_xevent; exact H.
  - eapply handleClientMessage_xevent; [exact HA | exact H].
Qed.

(** ** The session invariant and the refinement *)

(** C1 Every event handler keeps the session invariant: outside an
    exchange the session is all zero, a source never sets the target's
    flags, a target has sent its acknowledgment exactly when it has seen
    a position and accepts a drop only after one. *)
Theorem handle_event_inv A wind v e p a p' r :
  atoms_wf A -> session_inv (xdndState p) ->
  handle_event A wind v e p = Ok (a, p', r) ->
  session_inv (xdndState p').
Proof.
  intros HA Hi H. apply handle_event_xevent in H; [|exact HA]. exact (xevent_inv _ _ Hi H).
Qed.

(** C2 Refinement: each event either leaves the abstract session
    (phase and peer) of the spec unchanged, makes one transition of the
    spec's state machine (Idle to SourceNegotiating or TargetNegotiating
    with any peer; SourceNegotiating to SourceAcked, TargetNegotiating to
    TargetTracking to TargetDropped with the same peer; any phase to
    Idle), or retargets (abandons and enters a new window as source).
    No event turns a source into a target, skips a phase or changes the
    peer of a session without a reset. *)
Theorem handle_event_refines A wind v e p a p' r :
  atoms_wf A -> session_inv (xdndState p) ->
  handle_event A wind v e p = Ok (a, p', r) ->
  spec_event (abs_session (xdndState p)) (abs_session (xdndState p')).
Proof.
  intros HA Hi H. apply handle_event_xevent in H; [|exact HA]. exact (xevent_spec _ _ Hi H).
Qed.

(** ** The source's side *)

(** C7 Acknowledgment handling on both branches (spec Scenario B): a
    source receiving XdndStatus records it; if the accept bit is clear
    it sends XdndLeave to its peer, and only that, and discards the
    session. *)
Theorem source_status A wind v m p :
  atoms_wf A ->
  v_fails v "XSendEvent"%string = false ->
  xdndExchangeStarted (xdndState p) = true -> amISource (xdndState p) = true ->
  message_type m = XdndStatus A ->
  handle_event A wind v (ClientMessage m) p =
    if Z.land (l1 m) 1 =? 1
    then Ok (tt, set_state p (set_statusReceived (xdndState p)), [])
    else Ok (tt, set_state p xdnd_reset,
             [ReqSendEvent (otherWindow (xdndState p))
                (ClientMessage (xdndLeave_msg A wind (otherWindow (xdndState p))))]).
Proof.
  intros HA Hx Hs Hsrc Hm. unfold handle_event, handleClientMessage, client_source.
  pm_eval HA.
  destruct (Z.land (l1 m) 1 =? 1); cbn; rewrite_facts; reflexivity.
Qed.

(** ** The target's side *)

(** The target's handling of XdndPosition, computed. *)
Lemma handle_position A wind v m p :
  atoms_wf A ->
  v_fails v "XSendEvent"%string = false ->
  xdndExchangeStarted (xdndState p) = true -> amISource (xdndState p) = false ->
  message_type m = XdndPosition A ->
  handle_event A wind v (ClientMessage m) p =
    let s := xdndState p in
    if xdndPositionReceived s && negb (to_ulong (l0 m) =? otherWindow s)
    then Ok (tt, p, [])
    else if xdndStatusSent s
    then Ok (tt, set_state p (position_of s m), [])
    else Ok (tt, set_state p (set_statusSent (position_of s m)),
             [ReqSendEvent (otherWindow s)
                (ClientMessage (xdndStatus_msg A wind (otherWindow s) (to_ulong (l4 m))))]).
Proof.
  intros HA Hx Hs Hsrc Hm. unfold handle_event, handleClientMessage, client_target,
    client_target_rest, position_of.
  pm_eval HA.
  destruct (xdndPositionReceived (xdndState p) && _); [reflexivity|].
  destruct (xdndStatusSent (xdndState p)); cbn; rewrite_facts; atoms_eqb HA; reflexivity.
Qed.

(** C6 XdndPosition handling on every branch: once a position was
    received, one from another window is ignored; otherwise the target
    records the position, timestamp and action, and only if it has not
    sent one yet, sends a single XdndStatus to its peer echoing the
    action. *)
Theorem target_position A wind v m p :
  atoms_wf A ->
  v_fails v "XSendEvent"%string = false ->
  xdndExchangeStarted (xdndState p) = true -> amISource (xdndState p) = false ->
  message_type m = XdndPosition A ->
  handle_event A wind v (ClientMessage m) p =
    let s := xdndState p in
    if xdndPositionReceived s && negb (to_ulong (l0 m) =? otherWindow s)
    then Ok (tt, p, [])
    else if xdndStatusSent s
    then Ok (tt, set_state p (position_of s m), [])
    else Ok (tt, set_state p (set_statusSent (position_of s m)),
             [ReqSendEvent (otherWindow s)
                (ClientMessage (xdndStatus_msg A wind (otherWindow s) (to_ulong (l4 m))))]).
Proof. exact (handle_position A wind v m p). Qed.

(** C4 XdndDrop handling on every branch (spec Scenario D): a drop from
    another window than the recorded peer, or before any position, is
    ignored with no state change and no request; otherwise the target
    records it and asks for the selection with the negotiated type and
    the drop's timestamp. *)
Theorem target_drop A wind v m p :
  atoms_wf A ->
  xdndExchangeStarted (xdndState p) = true -> amISource (xdndState p) = false ->
  message_type m = XdndDrop A ->
  handle_event A wind v (ClientMessage m) p =
    let s := xdndState p in
    if negb (xdndPositionReceived s) || negb (to_ulong (l0 m) =? otherWindow s)
    then Ok (tt, p, [])
    else Ok (tt, set_state p (record_drop s (to_ulong (l2 m))),
             [ReqConvertSelection (XdndSelection A) (proposedType s) (XDND_DATA A) wind
                (to_ulong (l2 m))]).
Proof.
  intros HA Hs Hsrc Hm. unfold handle_event, handleClientMessage, client_target,
    client_target_rest.
  pm_eval HA.
  destruct (negb (xdndPositionReceived (xdndState p)) || _); reflexivity.
Qed.

(** C32 XdndLeave from any window ends the target's session: the code
    does not compare the sender with the recorded peer (the spec asks
    that a message from another window change nothing). *)
Theorem target_leave_any_sender A wind v m p :
  atoms_wf A ->
  xdndExchangeStarted (xdndState p) = true -> amISource (xdndState p) = false ->
  message_type m = XdndLeave A ->
  handle_event A wind v (ClientMessage m) p = Ok (tt, set_state p xdnd_reset, []).
Proof.
  intros HA Hs Hsrc Hm. unfold handle_event, handleClientMessage, client_target,
    client_target_rest.
  pm_eval HA. reflexivity.
Qed.

(** C16 The opening message: outside an exchange, XdndEnter makes the
    process the target of the sender, with the type chosen by the
    negotiation (or the failure of reading the type list). *)
Theorem idle_enter A wind v m p :
  atoms_wf A -> session_inv (xdndState p) ->
  xdndExchangeStarted (xdndState p) = false ->
  message_type m = XdndEnter A ->
  handle_event A wind v (ClientMessage m) p =
    match enter_proposed_type A v m with
    | Ok t => Ok (tt, set_state p (set_proposedType
                                     (start_exchange xdnd_reset false (to_ulong (l0 m))) t), [])
    | Exit w => Exit w
    | Undefined w => Undefined w
    end.
Proof.
  intros HA Hi Hs Hm. pose proof (not_started_reset _ Hi Hs) as Hr.
  unfold handle_event, handleClientMessage, client_idle.
  pm_eval HA.
  destruct (enter_proposed_type A v m); reflexivity.
Qed.

(** ** Pointer motion and the button *)

(** C12 Retargeting (spec Scenario C): a source dragging over a new
    XDND-aware window [w2] sends XdndLeave to its old peer [w1], claims
    the selection, sends XdndEnter and XdndPosition to [w2], in this
    order, and starts a fresh session with [w2]; nothing is sent to
    [w1] after the XdndLeave. *)
Theorem motion_retarget A wind v e p w1 w2 ver :
  atoms_wf A ->
  v_fails v "XSendEvent"%string = false ->
  xdndExchangeStarted (xdndState p) = true -> amISource (xdndState p) = true ->
  otherWindow (xdndState p) = w1 ->
  selected (square p) = true -> clickedStillInWindow p = false ->
  getWindowPointerIsOver (v_tree v) (mo_x_root e) (mo_y_root e) 0 0 = w2 ->
  w2 <> XNone -> w2 <> w1 ->
  hasCorrectXdndAwareProperty A v w2 = ver -> ver <> 0 ->
  handle_event A wind v (MotionNotify e) p =
    Ok (tt, set_state (set_square p (drag_square (square p) (mo_x e) (mo_y e)))
              (start_exchange xdnd_reset true w2),
        [ReqSendEvent w1 (ClientMessage (xdndLeave_msg A wind w1));
         ReqSetSelectionOwner (XdndSelection A) wind (mo_time e);
         ReqSendEvent w2 (ClientMessage (xdndEnter_msg A ver wind w2));
         ReqSendEvent w2 (ClientMessage (xdndPosition_msg A wind w2 (to_int (mo_time e))
                                           (mo_x_root e) (mo_y_root e)));
         ReqDraw (drag_square (square p) (mo_x e) (mo_y e))]).
Proof.
  intros HA Hx Hs Hsrc Hw1 Hsel Hcl Hhit Hn Hne Hver Hv0.
  assert (E1 : (w2 =? XNone) = false) by (apply Z.eqb_neq; exact Hn).
  assert (E2 : (w2 =? w1) = false) by (apply Z.eqb_neq; exact Hne).
  assert (E3 : (ver =? 0) = false) by (apply Z.eqb_neq; exact Hv0).
  unfold handle_event, handleMotionNotify, motion_xdnd, motion_position.
  pm_eval HA. reflexivity.
Qed.

(** C33 A target whose own square is dragged onto another window drops
    its session silently: nothing is sent to the source it was talking
    to (the XdndLeave is guarded by [amISource]), so that source stays
    in its exchange; over a window without XdndAware the [break] also
    skips the redraw. *)
Theorem target_drag_abandons A wind v e p w2 :
  atoms_wf A ->
  xdndExchangeStarted (xdndState p) = true -> amISource (xdndState p) = false ->
  selected (square p) = true -> clickedStillInWindow p = false ->
  getWindowPointerIsOver (v_tree v) (mo_x_root e) (mo_y_root e) 0 0 = w2 ->
  w2 <> XNone -> w2 <> otherWindow (xdndState p) ->
  hasCorrectXdndAwareProperty A v w2 = 0 ->
  handle_event A wind v (MotionNotify e) p =
    Ok (tt, set_state (set_square p (drag_square (square p) (mo_x e) (mo_y e))) xdnd_reset, []).
Proof.
  intros HA Hs Hsrc Hsel Hcl Hhit Hn Hne Hver.
  assert (E1 : (w2 =? XNone) = false) by (apply Z.eqb_neq; exact Hn).
  assert (E2 : (w2 =? otherWindow (xdndState p)) = false) by (apply Z.eqb_neq; exact Hne).
  unfold handle_event, handleMotionNotify, motion_xdnd, motion_position.
  pm_eval HA. reflexivity.
Qed.

(** The drop message of a source whose session satisfies the invariant
    carries the timestamp the invariant gives it, 0: the source never
    records a position timestamp. *)
Lemma source_drop_timestamp_inv A wind v x y p :
  v_fails v "XSendEvent"%string = false ->
  session_inv (xdndState p) ->
  xdndExchangeStarted (xdndState p) = true -> amISource (xdndState p) = true ->
  xdndStatusReceived (xdndState p) = true ->
  exists p' rs,
    handle_event A wind v (ButtonRelease x y) p =
      Ok (tt, p', ReqSendEvent (otherWindow (xdndState p))
                    (ClientMessage (xdndDrop_msg A wind (otherWindow (xdndState p)) 0)) :: rs).
Proof.
  intros Hx Hi Hs Hsrc Hst.
  assert (Ht : xdndLastPositionTimestamp (xdndState p) = 0).
  { destruct (xdndState p) as [st pr sr ss dr dt lt src x0 y0 ow pa pt]; cbn in *; subst.
    inv_facts Hi; congruence. }
  unfold handle_event, handleButtonRelease.
  pm_eval0. destruct (selected (square p)); eexists; eexists; reflexivity.
Qed.

(** C35 ButtonRelease never changes the session: the source has no
    state for "drop sent" (the spec's SourceDropped), so while it waits
    for the data request every further release sends XdndDrop again. *)
Theorem release_keeps_session A wind v x y p a p' r :
  handle_event A wind v (ButtonRelease x y) p = Ok (a, p', r) ->
  xdndState p' = xdndState p.
Proof.
  intros H. unfold handle_event, handleButtonRelease in H. pm_run H;
    injection H as _ <- _; reflexivity.
Qed.

(** ** Send-once acknowledgment (spec section 8, idempotence) *)

Lemma run_events_cons A wind v e rest p :
  run_events A wind ((v, e) :: rest) p =
  if negb (continueEventLoop p) then Ok (p, []) else
  match handle_event A wind v e p with
  | Ok (_, p1, r1) =>
      match run_events A wind rest p1 with
      | Ok (p2, r2) => Ok (p2, r1 ++ r2)
      | Exit w => Exit w
      | Undefined w => Undefined w
      end
  | Exit w => Exit w
  | Undefined w => Undefined w
  end.
Proof. reflexivity. Qed.

Lemma count_status_app A r1 r2 : count_status A (r1 ++ r2) = (count_status A r1 + count_status A r2)%nat.
Proof. unfold count_status. rewrite filter_app, length_app. reflexivity. Qed.

(** Once the acknowledgment is sent, positions send no other. *)
Lemma positions_after_status A wind v ms : forall p p' rs,
  atoms_wf A ->
  v_fails v "XSendEvent"%string = false ->
  xdndExchangeStarted (xdndState p) = true -> amISource (xdndState p) = false ->
  xdndStatusSent (xdndState p) = true ->
  Forall (fun m => message_type m = XdndPosition A) ms ->
  run_events A wind (deliver_all v ms) p = Ok (p', rs) -> count_status A rs = 0%nat.
Proof.
  induction ms as [|m ms IH]; intros p p' rs HA Hx Hs Hsrc Hss Hall Hrun;
    [injection Hrun as _ <-; reflexivity|].
  change (deliver_all v (m :: ms)) with ((v, ClientMessage m) :: deliver_all v ms) in Hrun.
  rewrite run_events_cons in Hrun.
  inversion Hall as [|? ? Hm Hall']; subst.
  destruct (continueEventLoop p); cbn [negb] in Hrun; [|injection Hrun as _ <-; reflexivity].
  rewrite (handle_position A wind v m p HA Hx Hs Hsrc Hm) in Hrun. cbn zeta in Hrun.
  rewrite Hss in Hrun.
  destruct (xdndPositionReceived (xdndState p) && _);
    destruct (run_events _ _ _ _) as [[p2 r2]| |] eqn:E; try discriminate;
    injection Hrun as _ <-; cbn;
    refine (IH _ p2 r2 HA Hx _ _ _ Hall' E); cbn; assumption.
Qed.

(** C3 Send-once rule: a target that has not acknowledged yet, given any
    non-empty sequence of XdndPosition messages, sends exactly one
    XdndStatus. *)
Theorem status_sent_once A wind v ms p p' rs :
  atoms_wf A -> session_inv (xdndState p) -> continueEventLoop p = true ->
  v_fails v "XSendEvent"%string = false ->
  xdndExchangeStarted (xdndState p) = true -> amISource (xdndState p) = false ->
  xdndStatusSent (xdndState p) = false ->
  ms <> [] -> Forall (fun m => message_type m = XdndPosition A) ms ->
  run_events A wind (deliver_all v ms) p = Ok (p', rs) ->
  count_status A rs = 1%nat.
Proof.
  intros HA Hi Hc Hx Hs Hsrc Hss Hne Hall Hrun.
  destruct ms as [|m ms]; [contradiction|]. inversion Hall as [|? ? Hm Hall']; subst.
  assert (Hpr : xdndPositionReceived (xdndState p) = false).
  { destruct (xdndState p) as [st pr sr ss dr dt lt src x0 y0 ow pa pt]; cbn in *; subst.
    inv_facts Hi; congruence. }
  change (deliver_all v (m :: ms)) with ((v, ClientMessage m) :: deliver_all v ms) in Hrun.
  rewrite run_events_cons, Hc in Hrun.
  cbn [negb] in Hrun.
  rewrite (handle_position A wind v m p HA Hx Hs Hsrc Hm) in Hrun. cbn zeta in Hrun.
  rewrite Hpr, Hss in Hrun. cbn [andb negb] in Hrun.
  destruct (run_events _ _ _ _) as [[p2 r2]| |] eqn:E; try discriminate.
  injection Hrun as _ <-.
  pose proof (positions_after_status A wind v ms
                (set_state p (set_statusSent (position_of (xdndState p) m))) p2 r2 HA
                Hx Hs Hsrc eq_refl Hall' E) as H0.
  unfold count_status in *. cbn. rewrite Z.eqb_refl. cbn. rewrite H0. reflexivity.
Qed.

(** ** Completion *)

(** Split a hypothesis [In rq [r1; ...; rn]] and discard the requests
    that cannot be [rq]. *)
Ltac in_requests Hin :=
  cbn in Hin;
  repeat match type of Hin with
         | _ \/ _ => destruct Hin as [Hin|Hin]
         end;
  try contradiction Hin; try discriminate Hin.

(** Every handler, on every path, of every event. *)
Ltac all_handlers H :=
  unfold handle_event, handleSelectionRequest, handleSelectionNotify, handleMotionNotify,
    motion_xdnd, motion_position, handleKeyRelease, handleButtonPress,
    handleButtonRelease, handleExpose, handleCrossing, handleClientMessage, client_idle,
    client_source, client_target, client_target_rest in H;
  pm_run H; injection H as <- <- <-.

(** Only a target in an exchange ever sends XdndFinished: no event
    makes an idle process or a source emit the closing message. *)
Theorem finished_only_by_target A wind v e p a p' r d m :
  atoms_wf A ->
  handle_event A wind v e p = Ok (a, p', r) ->
  In (ReqSendEvent d (ClientMessage m)) r -> message_type m = XdndFinished A ->
  xdndExchangeStarted (xdndState p) = true /\ amISource (xdndState p) = false.
Proof.
  intros HA H Hin Hm. destruct e; all_handlers H; in_requests Hin;
    injection Hin as _ <-; cbn in Hm; zbool;
    first [ split; assumption
          | exfalso; atoms_nodup HA; intuition congruence ].
Qed.

(** C28 Position times across the wire: the time of the XdndPosition a
    source sends on a MotionNotify, as the target stores it at line 807
    ([xdndLastPositionTimestamp = l[3]], a [Time]), is the motion time
    when below 2^31 ms, and otherwise a different 64-bit value: Xlib
    sign-extends the 32-bit slot and the [Time] reads it unsigned, so
    after 24.8 days of server uptime the target records a time that is
    not the source's. *)
Theorem position_time_recorded A wind v e p a p' r d m s :
  atoms_wf A ->
  handle_event A wind v (MotionNotify e) p = Ok (a, p', r) ->
  In (ReqSendEvent d (ClientMessage m)) r -> message_type m = XdndPosition A ->
  0 <= mo_time e < 2 ^ 32 ->
  xdndLastPositionTimestamp (position_of s (wire_cm m)) =
  if mo_time e <? 2 ^ 31 then mo_time e else mo_time e + 2 ^ 64 - 2 ^ 32.
Proof.
  intros HA H Hin Hm Ht. all_handlers H; in_requests Hin;
    injection Hin as _ <-; cbn in Hm; zbool;
    first [ exact (position_time_wire _ _ _ _ _ _ Ht)
          | exfalso; atoms_nodup HA; intuition congruence ].
Qed.

(** C10 Every ClientMessage a handler sends is well formed: format 32,
    addressed to the window it is sent to ([message.xclient.window =
    target]), and of one of the six XDND message types. *)
Theorem sent_messages_wellformed A wind v e p a p' r d m :
  handle_event A wind v e p = Ok (a, p', r) ->
  In (ReqSendEvent d (ClientMessage m)) r ->
  cm_format m = 32 /\ cm_window m = d /\ In (message_type m) (xdnd_messages A).
Proof.
  intros H Hin. destruct e; all_handlers H; in_requests Hin;
    injection Hin as <- <-; repeat split; cbn; auto 8.
Qed.

(** C20 A failing [XSendEvent] ends the process: a handler that returns
    has sent nothing, since every send is followed by
    [philError("XSendEvent")] when the call fails. *)
Theorem send_failure_silences A wind v e p a p' r d ev :
  v_fails v "XSendEvent"%string = true ->
  handle_event A wind v e p = Ok (a, p', r) ->
  ~ In (ReqSendEvent d ev) r.
Proof.
  intros Hf H Hin. destruct e; all_handlers H; in_requests Hin; congruence.
Qed.

(** The ClientMessage of the window manager closing the window. *)
Lemma handle_close A wind v m p :
  message_type m = WM_PROTOCOLS A -> to_ulong (l0 m) = WM_DELETE_WINDOW A ->
  handle_event A wind v (ClientMessage m) p = Ok (tt, stop_loop p, []).
Proof.
  intros Hm Hl. cbn [handle_event]. unfold handleClientMessage.
  rewrite Hm, Hl, !Z.eqb_refl. reflexivity.
Qed.

(** Once [continueEventLoop] is false the loop handles nothing more. *)
Lemma run_events_stopped A wind evs p :
  continueEventLoop p = false -> run_events A wind evs p = Ok (p, []).
Proof. intros H. destruct evs as [|[v e] evs]; cbn; [|rewrite H]; reflexivity. Qed.

(** Only the closing message touches [continueEventLoop]. *)
Lemma handle_event_loop_flag A wind v e p a p' r :
  handle_event A wind v e p = Ok (a, p', r) ->
  continueEventLoop p' = continueEventLoop p \/ is_close A e = true.
Proof.
  intros H. destruct e; all_handlers H; first [left; reflexivity | right; assumption].
Qed.

(** A loop that was running and has stopped has handled a closing
    message. *)
Lemma run_events_stop_close A wind evs : forall p p' rs,
  run_events A wind evs p = Ok (p', rs) -> continueEventLoop p = true ->
  continueEventLoop p' = false -> exists v e, In (v, e) evs /\ is_close A e = true.
Proof.
  induction evs as [|[v e] evs IH]; intros p p' rs H Hc Hs; cbn [run_events] in H.
  - injection H as <- _. congruence.
  - rewrite Hc in H. cbn in H.
    destruct (handle_event A wind v e p) as [[[a p1] r1]| |] eqn:E; [|discriminate ..].
    destruct (run_events A wind evs p1) as [[p2 r2]| |] eqn:E2; [|discriminate ..].
    injection H as <- _.
    destruct (handle_event_loop_flag _ _ _ _ _ _ _ _ E) as [Hf|Hf].
    + rewrite Hc in Hf. destruct (IH _ _ _ E2 Hf Hs) as (v' & e' & Hin & Hcl).
      exists v', e'. split; [right; exact Hin | exact Hcl].
    + exists v, e. split; [left; reflexivity | exact Hf].
Qed.

(** The loop over [pre ++ rest] goes on with [rest] where the loop over
    [pre] stopped. *)
Lemma run_events_app A wind pre rest : forall p p1 r1,
  run_events A wind pre p = Ok (p1, r1) ->
  run_events A wind (pre ++ rest) p =
  outcome_bind (run_events A wind rest p1) (fun '(p2, r2) => Ok (p2, r1 ++ r2)).
Proof.
  induction pre as [|[v e] pre IH]; intros p p1 r1 H.
  - injection H as <- <-. cbn. destruct (run_events A wind rest p) as [[]| |]; reflexivity.
  - cbn [run_events app] in *. destruct (continueEventLoop p) eqn:Hc; cbn in H |- *.
    + destruct (handle_event A wind v e p) as [[[a p'] r']| |]; [|discriminate ..].
      destruct (run_events A wind pre p') as [[p'' r'']| |] eqn:E; [|discriminate ..].
      injection H as <- <-. rewrite (IH _ _ _ E).
      destruct (run_events A wind rest p'') as [[p2 r2]| |]; cbn; [|reflexivity ..].
      rewrite app_assoc. reflexivity.
    + injection H as <- <-. rewrite run_events_stopped by exact Hc. reflexivity.
Qed.

(** C11 The event loop ends at WM_DELETE_WINDOW (lines 719-724): the
    ClientMessage of the window manager clears [continueEventLoop],
    issues no request, and every event queued after it is left
    unhandled, so the loop returns at once. *)
Theorem close_ends_loop A wind v m p rest :
  continueEventLoop p = true ->
  message_type m = WM_PROTOCOLS A -> to_ulong (l0 m) = WM_DELETE_WINDOW A ->
  run_events A wind ((v, ClientMessage m) :: rest) p = Ok (stop_loop p, []) /\
  continueEventLoop (stop_loop p) = false.
Proof.
  intros Hc Hm Hl. split; [|reflexivity]. cbn [run_events]. rewrite Hc.
  rewrite handle_close by assumption. rewrite run_events_stopped by reflexivity. reflexivity.
Qed.

(** C25 When the target cannot read XDND_DATA, [getCopiedData] returns
    NULL and [restoreSquareState] passes it to [fopen] (lines 567-573):
    the SelectionNotify handler has undefined behaviour instead of
    reporting the failure. *)
Theorem selection_read_failure A wind v sn p :
  v_fails v "XGetWindowProperty"%string = true ->
  sn_property sn = XDND_DATA A ->
  exists what, handle_event A wind v (SelectionNotify sn) p = Undefined what.
Proof.
  intros Hf Hs. cbn [handle_event]. unfold handleSelectionNotify, getCopiedData.
  rewrite Hs, Z.eqb_refl, Hf. cbn. eexists. reflexivity.
Qed.

(** C36 The ordering property of spec section 8 does not hold of one
    process on its own: every target in an exchange, whether or not it
    has received an XdndDrop, that gets a SelectionNotify for XDND_DATA
    whose data it can read and load sends XdndFinished to the source
    and resets its session (the handler checks neither the drop flag
    nor where the notification comes from). *)
Theorem finished_without_drop A wind v sn p path sq :
  xdndExchangeStarted (xdndState p) = true -> amISource (xdndState p) = false ->
  sn_property sn = XDND_DATA A ->
  getCopiedData A v wind = Ok (Some path) ->
  restoreSquareState v (Some path) (square p) = Ok sq ->
  v_fails v "XSendEvent"%string = false ->
  exists p' rs,
    handle_event A wind v (SelectionNotify sn) p = Ok (tt, p', rs) /\
    In (ReqSendEvent (otherWindow (xdndState p))
          (ClientMessage (xdndFinished_msg A wind (otherWindow (xdndState p))))) rs /\
    xdndState p' = xdnd_reset.
Proof.
  intros Hx Ha Hs Hg Hr Hf. cbn [handle_event]. unfold handleSelectionNotify.
  rewrite Hs, Z.eqb_refl. pm_eval0. do 2 eexists. split; [reflexivity|].
  split; [|reflexivity]. cbn. rewrite ?in_app_iff. cbn. tauto.
Qed.

(** ** The square stays in the window *)

Lemma clamp_range z : 0 <= clamp z <= 150.
Proof. unfold clamp. case_ifs; zbool; lia. Qed.

(** Every handler keeps the square's origin inside [0, 150] x [0, 150],
    so the 50x50 square stays inside the 200x200 window. *)
Theorem handle_event_square_ok A wind v e p a p' r :
  square_ok (square p) ->
  handle_event A wind v e p = Ok (a, p', r) -> square_ok (square p').
Proof.
  intros Hsq H. destruct e; all_handlers H; unfold square_ok in *; cbn;
    first [exact Hsq | split; apply clamp_range].
Qed.

(** ** Witnesses *)

(** Run a handler on concrete data: [exists a p' r, t = Ok (a, p', r) /\ P]
    becomes [P] with [E : t = Ok (a, p', r)] for the computed result. *)
Ltac run_concrete E :=
  lazymatch goal with
  | |- exists _ _ _, ?t = _ /\ _ =>
      destruct t as [[[?a ?p'] ?r]| ?w | ?w] eqn:E;
      [do 3 eexists; split; [reflexivity|] | vm_compute in E; discriminate ..]
  end.

Lemma handle_event_inv_witness :
  exists a p' r,
    handle_event std_atoms 200 ex_view (ClientMessage ex_position) ex_target = Ok (a, p', r) /\
    session_inv (xdndState p').
Proof.
  run_concrete E.
  apply (handle_event_inv std_atoms 200 ex_view (ClientMessage ex_position) ex_target a p' r);
    [exact std_atoms_wf | reflexivity | exact E].
Defined.

Lemma handle_event_refines_witness :
  exists a p' r,
    handle_event std_atoms 200 ex_view (ClientMessage ex_position) ex_target = Ok (a, p', r) /\
    spec_event (abs_session (xdndState ex_target)) (abs_session (xdndState p')).
Proof.
  run_concrete E.
  apply (handle_event_refines std_atoms 200 ex_view (ClientMessage ex_position) ex_target a p' r);
    [exact std_atoms_wf | reflexivity | exact E].
Defined.

Lemma handle_event_square_ok_witness :
  exists a p' r,
    handle_event std_atoms 100 ex_view (MotionNotify ex_motion_300) ex_source = Ok (a, p', r) /\
    square_ok (square p').
Proof.
  run_concrete E.
  apply (handle_event_square_ok std_atoms 100 ex_view (MotionNotify ex_motion_300) ex_source a p' r);
    [unfold square_ok; cbn; lia | exact E].
Defined.

Lemma finished_only_by_target_witness :
  exists a p' r,
    handle_event std_atoms 200 ex_view (SelectionNotify ex_selection_notify)
      ex_tracking_target = Ok (a, p', r) /\
    (xdndExchangeStarted (xdndState ex_tracking_target) = true /\
     amISource (xdndState ex_tracking_target) = false).
Proof.
  run_concrete E.
  apply (finished_only_by_target std_atoms 200 ex_view
           (SelectionNotify ex_selection_notify) ex_tracking_target a p' r 100
           (wire_cm (xdndFinished_msg std_atoms 200 100)) std_atoms_wf E); [|reflexivity].
  vm_compute in E. injection E as _ _ <-. cbn. tauto.
Defined.

Lemma status_sent_once_witness :
  exists p' rs,
    run_events std_atoms 200 (deliver_all ex_view [ex_position; ex_position]) ex_target
      = Ok (p', rs) /\ count_status std_atoms rs = 1%nat.
Proof.
  destruct (run_events std_atoms 200 (deliver_all ex_view [ex_position; ex_position]) ex_target)
    as [[p' rs]| w | w] eqn:E; [| vm_compute in E; discriminate ..].
  exists p', rs. split; [reflexivity|].
  apply (status_sent_once std_atoms 200 ex_view [ex_position; ex_position] ex_target p' rs
           std_atoms_wf); try reflexivity; [discriminate | repeat constructor | exact E].
Defined.

Lemma source_status_witness :
  handle_event std_atoms 100 ex_view (ClientMessage ex_status) ex_source =
    Ok (tt, set_state ex_source (set_statusReceived (xdndState ex_source)), []).
Proof.
  rewrite (source_status std_atoms 100 ex_view ex_status ex_source std_atoms_wf eq_refl eq_refl
             eq_refl eq_refl).
  reflexivity.
Defined.

Lemma target_position_witness :
  handle_event std_atoms 200 ex_view (ClientMessage ex_position) ex_target =
    Ok (tt, set_state ex_target (set_statusSent (position_of (xdndState ex_target) ex_position)),
        [ReqSendEvent 100 (ClientMessage (xdndStatus_msg std_atoms 200 100 73))]).
Proof.
  rewrite (target_position std_atoms 200 ex_view ex_position ex_target std_atoms_wf eq_refl
             eq_refl eq_refl eq_refl).
  reflexivity.
Defined.

Lemma target_drop_witness :
  handle_event std_atoms 200 ex_view (ClientMessage ex_drop) ex_tracking_target =
    Ok (tt, set_state ex_tracking_target (record_drop (xdndState ex_tracking_target) 1234),
        [ReqConvertSelection (XdndSelection std_atoms) 0 (XDND_DATA std_atoms) 200 1234]).
Proof.
  rewrite (target_drop std_atoms 200 ex_view ex_drop ex_tracking_target std_atoms_wf eq_refl
             eq_refl eq_refl).
  reflexivity.
Defined.

(** XdndLeave from window 300 ends the exchange with window 100. *)
Lemma target_leave_any_sender_witness :
  handle_event std_atoms 200 ex_view
    (ClientMessage (wire_cm (xdndLeave_msg std_atoms 300 200))) ex_target =
    Ok (tt, set_state ex_target xdnd_reset, []).
Proof.
  rewrite (target_leave_any_sender std_atoms 200 ex_view
             (wire_cm (xdndLeave_msg std_atoms 300 200)) ex_target)
    by first [exact std_atoms_wf | reflexivity].
  reflexivity.
Defined.

Lemma idle_enter_witness :
  handle_event std_atoms 200 ex_view (ClientMessage ex_enter) ex_idle =
    Ok (tt, set_state ex_idle (set_proposedType (start_exchange xdnd_reset false 100) 83), []).
Proof.
  rewrite (idle_enter std_atoms 200 ex_view ex_enter ex_idle std_atoms_wf eq_refl eq_refl
             eq_refl).
  reflexivity.
Defined.

Lemma motion_retarget_witness :
  handle_event std_atoms 100 ex_view (MotionNotify ex_motion_300) ex_source =
    Ok (tt, set_state (set_square ex_source (drag_square (square ex_source) 30 30))
              (start_exchange xdnd_reset true 300),
        [ReqSendEvent 200 (ClientMessage (xdndLeave_msg std_atoms 100 200));
         ReqSetSelectionOwner (XdndSelection std_atoms) 100 5000;
         ReqSendEvent 300 (ClientMessage (xdndEnter_msg std_atoms 5 100 300));
         ReqSendEvent 300 (ClientMessage (xdndPosition_msg std_atoms 100 300 (to_int 5000)
                                            450 50));
         ReqDraw (drag_square (square ex_source) 30 30)]).
Proof.
  rewrite (motion_retarget std_atoms 100 ex_view ex_motion_300 ex_source 200 300 5)
    by first [exact std_atoms_wf | reflexivity | discriminate].
  reflexivity.
Defined.

(** Window 200, the target of 100, drags its own square over 400. *)
Lemma target_drag_abandons_witness :
  handle_event std_atoms 200 ex_view (MotionNotify ex_motion_400)
    (ex_peer (xdndState ex_target) (square ex_source)) =
    Ok (tt, set_state (set_square (ex_peer (xdndState ex_target) (square ex_source))
                         (drag_square (square ex_source) 30 30)) xdnd_reset, []).
Proof.
  rewrite (target_drag_abandons std_atoms 200 ex_view ex_motion_400
             (ex_peer (xdndState ex_target) (square ex_source)) 400)
    by first [exact std_atoms_wf | reflexivity | discriminate].
  reflexivity.
Defined.

Lemma release_keeps_session_witness :
  exists a p' r,
    handle_event std_atoms 100 ex_view (ButtonRelease 30 30) ex_source = Ok (a, p', r) /\
    xdndState p' = xdndState ex_source.
Proof.
  run_concrete E. exact (release_keeps_session std_atoms 100 ex_view 30 30 ex_source a p' r E).
Defined.

Lemma sent_messages_wellformed_witness :
  exists a p' r,
    handle_event std_atoms 200 ex_view (ClientMessage ex_position) ex_target = Ok (a, p', r) /\
    (cm_format (xdndStatus_msg std_atoms 200 100 73) = 32 /\
     cm_window (xdndStatus_msg std_atoms 200 100 73) = 100 /\
     In (message_type (xdndStatus_msg std_atoms 200 100 73)) (xdnd_messages std_atoms)).
Proof.
  run_concrete E.
  apply (sent_messages_wellformed std_atoms 200 ex_view (ClientMessage ex_position) ex_target
           a p' r 100 _ E).
  vm_compute in E. injection E as _ _ <-. left. reflexivity.
Defined.

Lemma send_failure_silences_witness :
  exists a p' r,
    handle_event std_atoms 100 (ex_view_failing "XSendEvent") Expose ex_source = Ok (a, p', r) /\
    ~ In (ReqSendEvent 300 (ClientMessage ex_position)) r.
Proof.
  run_concrete E.
  exact (send_failure_silences std_atoms 100 (ex_view_failing "XSendEvent")
           Expose ex_source a p' r 300 _ eq_refl E).
Defined.

Lemma close_ends_loop_witness :
  run_events std_atoms 200 [(ex_view, ClientMessage ex_close); (ex_view, ClientMessage ex_position)]
    ex_target = Ok (stop_loop ex_target, []) /\
  continueEventLoop (stop_loop ex_target) = false.
Proof. apply close_ends_loop; reflexivity. Defined.

Lemma selection_read_failure_witness :
  exists what, handle_event std_atoms 200 (ex_view_failing "XGetWindowProperty")
    (SelectionNotify ex_selection_notify) ex_tracking_target = Undefined what.
Proof. apply selection_read_failure; reflexivity. Defined.

Lemma finished_without_drop_witness :
  xdndDropReceived (xdndState ex_tracking_target) = false /\
  exists p' rs,
    handle_event std_atoms 200 ex_view (SelectionNotify ex_selection_notify)
      ex_tracking_target = Ok (tt, p', rs) /\
    In (ReqSendEvent 100 (ClientMessage (xdndFinished_msg std_atoms 200 100))) rs /\
    xdndState p' = xdnd_reset.
Proof.
  split; [reflexivity|].
  eapply (finished_without_drop std_atoms 200 ex_view ex_selection_notify ex_tracking_target);
    vm_compute; reflexivity.
Defined.

Lemma position_time_recorded_witness :
  exists a p' r,
    handle_event std_atoms 100 ex_view (MotionNotify ex_motion_late) ex_source = Ok (a, p', r) /\
    xdndLastPositionTimestamp (position_of (xdndState ex_target)
      (wire_cm (xdndPosition_msg std_atoms 100 300 (to_int (mo_time ex_motion_late)) 450 50))) =
    if mo_time ex_motion_late <? 2 ^ 31 then mo_time ex_motion_late
    else mo_time ex_motion_late + 2 ^ 64 - 2 ^ 32.
Proof.
  run_concrete E.
  apply (position_time_recorded std_atoms 100 ex_view ex_motion_late ex_source a p' r 300
           (xdndPosition_msg std_atoms 100 300 (to_int (mo_time ex_motion_late)) 450 50)
           (xdndState ex_target) std_atoms_wf E).
  - vm_compute in E. injection E as _ _ <-. repeat (first [left; reflexivity | right]).
  - reflexivity.
  - cbn. lia.
Defined.
