(* ===== verification/Process.v ===== *)
(** * The set-up and the end of a process

    [main] (src/main.c) forks; each process runs [spawnWindow]
    (src/spawn_window.c), whose set-up (lines 440-541) connects to the
    server, interns its atoms ([Intern]), creates and shows its window
    and reaches the event loop of [Peer] with its initial state; when
    the loop ends (WM_DELETE_WINDOW) the process frees its resources and
    exits with status 0 (lines 851-857).  This file holds that life
    cycle: the set-up with its error checks, [main]'s fork, and
    [spawnWindow] as a whole over a finite sequence of events. *)

From Stdlib Require Import ZArith List String Bool Lia.
From S2P Require Import Prelude XTypes Intern Payload EventType Session Peer.
Import ListNotations.
Open Scope Z_scope.

(** ** The set-up of [spawnWindow] *)

(** The square of lines 444-453, made visible at line 541 in the process
    with [procId == 0] (the child of the [fork]). *)
Definition initial_square (procId : Z) : Square :=
  {| sq_x := 0; sq_y := 0; mouse_x := 0; mouse_y := 0; size := 50;
     visible := procId =? 0; selected := false; colour := RedSquare |}.

(** [x = 0 + procId * 200] (line 500), computed in [int]. *)
Definition window_x (procId : Z) : Z := to_int (0 + procId * 200).

(** [procStr] (line 436), the title of the window. *)
Definition procStr (procId : Z) : string :=
  if procId =? 0 then "Phil"%string else "Stuart"%string.

(** Predefined atoms of Xatom.h: [XA_STRING] and [XA_WM_NAME], the type
    and the property [XStoreName] writes. *)
Definition XA_STRING : Atom := 31.
Definition XA_WM_NAME : Atom := 39.

(** The masks of X.h that line 512 combines. *)
Definition KeyPressMask : Z := Z.shiftl 1 0.
Definition KeyReleaseMask : Z := Z.shiftl 1 1.
Definition ButtonPressMask : Z := Z.shiftl 1 2.
Definition ButtonReleaseMask : Z := Z.shiftl 1 3.
Definition EnterWindowMask : Z := Z.shiftl 1 4.
Definition LeaveWindowMask : Z := Z.shiftl 1 5.
Definition PointerMotionMask : Z := Z.shiftl 1 6.
Definition ExposureMask : Z := Z.shiftl 1 15.

(** The events the window selects (lines 512-513). *)
Definition event_mask : Z :=
  Z.lor PointerMotionMask (Z.lor KeyPressMask (Z.lor KeyReleaseMask (Z.lor ButtonPressMask
    (Z.lor ButtonReleaseMask (Z.lor ExposureMask (Z.lor EnterWindowMask LeaveWindowMask)))))).

(** [WhitePixel(disp, screen)] (line 496): white on a 24-bit TrueColor
    screen, the visual of current servers. *)
Definition white : Z := Z.ones 24.

(** The cases of the event switch (line 545): every event but the
    ones the [default] ignores. *)
Definition handled_event (e : XEvent) : bool :=
  match e with OtherEvent _ => false | _ => true end.

(** The event masks of X.h that select each core event type, from the
    X protocol: an event of type [t] reaches a window whose mask shares
    a bit with [mask_of_type t]; [None] for the types the event mask
    does not govern (GraphicsExpose and NoExpose depend on the GC,
    selection events, ClientMessage and MappingNotify are always sent,
    GenericEvent is selected by extensions). *)
Definition mask_of_type (t : Z) : option Z :=
  let bit n := Z.shiftl 1 n in
  let structure := Z.lor (bit 17) (bit 19) in
  match t with
  | 2 => Some KeyPressMask | 3 => Some KeyReleaseMask
  | 4 => Some ButtonPressMask | 5 => Some ButtonReleaseMask
  | 6 => Some (Z.lor PointerMotionMask (Z.shiftl (Z.ones 6) 8))
  | 7 => Some EnterWindowMask | 8 => Some LeaveWindowMask
  | 9 | 10 => Some (bit 21) | 11 => Some (bit 14) | 12 => Some ExposureMask
  | 15 => Some (bit 16) | 16 => Some (bit 19)
  | 17 | 18 | 19 | 21 | 22 | 24 | 26 => Some structure
  | 20 | 23 | 27 => Some (bit 20) | 25 => Some (bit 18)
  | 28 => Some (bit 22) | 32 => Some (bit 23)
  | _ => None
  end.

(** The event mask selects events of type [t]. *)
Definition mask_selects (mask t : Z) : bool :=
  match mask_of_type t with
  | Some m => negb (Z.land mask m =? 0)
  | None => false
  end.

(** The process state entering the loop (lines 433-434, the static
    [xdndState] zero-initialised, and the square of lines 444-453 made
    visible at line 541) and the requests of the set-up, in order:
    [XCreateSimpleWindow] (line 502), [XStoreName] (line 508: the
    WM_NAME property, type STRING, format 8), [XSelectInput] (line 512),
    the XdndAware property (lines 517-519: format 32, one item, of the
    atom interned as "XA_ATOM" at line 465), [XSetWMProtocols] (line
    522: the WM_PROTOCOLS property listing WM_DELETE_WINDOW, of the
    predefined type ATOM, as Xlib writes it), [XMapWindow] (line 525),
    [XCreateGC] (line 529) and the two colours (lines 534-537). *)
Definition spawnWindow_init (A : Atoms) (procId : Z) (wind : Window) : Peer * list XRequest :=
  ({| xdndState := xdnd_reset; square := initial_square procId;
      clickedStillInWindow := false; continueEventLoop := true |},
   [ReqCreateWindow wind (window_x procId) 0 200 200 1 red white;
    ReqChangeProperty wind XA_WM_NAME XA_STRING 8 (bytes_of_string (procStr procId));
    ReqSelectInput wind event_mask;
    ReqChangeProperty wind (XdndAware A) (XA_ATOM A) 32 [XDND_PROTOCOL_VERSION];
    ReqChangeProperty wind (WM_PROTOCOLS A) XA_ATOM_predefined 32 [WM_DELETE_WINDOW A];
    ReqMapWindow wind; ReqCreateGC wind; ReqSetForeground red; ReqSetBackground white]).

(** The set-up with its error checks (lines 459-537): each call whose
    failure the code tests ends the process with [philError] of its
    name when it fails; after [XOpenDisplay] the atoms are interned in
    the server's table [t] (lines 463-486); the XdndAware property and
    [XSetWMProtocols] are not checked.  [fails] is the failure oracle of
    the library calls, as [v_fails] of a view. *)
Definition spawnWindow_setup (fails : string -> bool) (t : AtomTable) (procId : Z) (wind : Window)
  : outcome (AtomTable * Atoms * (Peer * list XRequest)) :=
  if fails "XOpenDisplay"%string then philError "XOpenDisplay" else
  let (t', A) := intern_setup_atoms t in
  if fails "XCreateSimpleWindow"%string then philError "XCreateSimpleWindow" else
  if fails "XStoreName"%string then philError "XStoreName" else
  if fails "XSelectInput"%string then philError "XSelectInput" else
  if fails "XMapWindow"%string then philError "XMapWindow" else
  if fails "XCreateGC"%string then philError "XCreateGC" else
  if fails "XSetForeground"%string then philError "XSetForeground" else
  if fails "XSetBackground"%string then philError "XSetBackground" else
  Ok (t', A, spawnWindow_init A procId wind).

(** The checked calls of the set-up, in the order the code makes them. *)
Definition setup_calls : list string :=
  ["XOpenDisplay"; "XCreateSimpleWindow"; "XStoreName"; "XSelectInput";
   "XMapWindow"; "XCreateGC"; "XSetForeground"; "XSetBackground"]%string.

(** [main] (src/main.c, lines 16-27): [fork] returns -1 when it fails,
    and otherwise 0 in the child and the child's pid in the parent; each
    process calls [spawnWindow] with the value it got.  The result is
    the [procId] of every process that reaches [spawnWindow]. *)
Definition main (fork_result : Z) : outcome (list Z) :=
  if fork_result =? -1 then philError "fork" else Ok [0; fork_result].

(** The largest pid Linux hands out ([PID_MAX_LIMIT], 2^22). *)
Definition PID_MAX_LIMIT : Z := 2 ^ 22.

(** Lines 851-857: [XFreeGC], [XDestroyWindow], [XCloseDisplay]; then
    [exit(0)]. *)
Definition teardown (wind : Window) : list XRequest :=
  [ReqFreeGC; ReqDestroyWindow wind; ReqCloseDisplay].

(** Where a run of [spawnWindow] over a finite sequence of events is
    when the events run out: still in the loop, or exited with a status
    after the teardown. *)
Inductive Run :=
| Looping (p : Peer) (rs : list XRequest)
| Exited (status : Z) (rs : list XRequest).

(** [spawnWindow(procId)] (lines 430-858): the set-up, the event loop
    over [evs] (each event with the server as the handler sees it),
    and, once the loop has ended, the teardown and [exit(0)]. *)
Definition spawnWindow (fails : string -> bool) (t : AtomTable) (procId : Z) (wind : Window)
  (evs : list (XView * XEvent)) : outcome Run :=
  match spawnWindow_setup fails t procId wind with
  | Ok (_, A, (p0, rs0)) =>
      match run_events A wind evs p0 with
      | Ok (p, rs) =>
          if continueEventLoop p then Ok (Looping p (rs0 ++ rs))
          else Ok (Exited 0 (rs0 ++ rs ++ teardown wind))
      | Exit what => Exit what
      | Undefined what => Undefined what
      end
  | Exit what => Exit what
  | Undefined what => Undefined what
  end.

(** ** Properties *)

Lemma spawnWindow_setup_ok fails t procId wind :
  find fails setup_calls = None ->
  spawnWindow_setup fails t procId wind =
  Ok (fst (intern_setup_atoms t), snd (intern_setup_atoms t),
      spawnWindow_init (snd (intern_setup_atoms t)) procId wind).
Proof.
  unfold spawnWindow_setup, setup_calls. cbn [find].
  destruct (intern_setup_atoms t) as [t' A]. cbn [fst snd].
  repeat (destruct (fails _); [discriminate|]). reflexivity.
Qed.

(** A set-up that returns has interned the atoms and built the initial
    state. *)
Lemma spawnWindow_setup_result fails t procId wind t' A x :
  spawnWindow_setup fails t procId wind = Ok (t', A, x) ->
  A = snd (intern_setup_atoms t) /\ x = spawnWindow_init A procId wind.
Proof.
  unfold spawnWindow_setup. destruct (intern_setup_atoms t) as [t0 A0]. cbn [snd].
  repeat (destruct (fails _); [discriminate|]). intros H. injection H as _ <- <-. split; reflexivity.
Qed.

(** C19 The set-up selects the events the loop handles, and those
    only: the mask given to [XSelectInput] (line 512) selects every
    input event of the switch (motion, key release, button press and
    release, exposure, crossing), the protocol's ClientMessages and
    selection events being sent regardless of the mask; of all the core
    event types the mask governs, it selects exactly those and KeyPress,
    which the switch ignores. *)
Theorem setup_selects_handled_events A procId wind :
  exists mask, In (ReqSelectInput wind mask) (snd (spawnWindow_init A procId wind)) /\
    (forall e, handled_event e = true ->
               mask_of_type (event_type e) = None \/ mask_selects mask (event_type e) = true) /\
    filter (mask_selects mask) core_types = [2; 3; 4; 5; 6; 7; 8; 12].
Proof.
  exists event_mask. split; [cbn; tauto|]. split.
  - intros e He. destruct e; first [discriminate He | left; reflexivity | right; reflexivity].
  - vm_compute. reflexivity.
Qed.

(** Error paths of the set-up: [spawnWindow] ends with [philError]
    of the first of its checked calls that fails, in the order of lines
    459-537, and enters its event loop with the initial state and
    requests of [spawnWindow_init] exactly when none fails. *)
Theorem spawnWindow_setup_first_failure fails t procId wind :
  spawnWindow_setup fails t procId wind =
  match find fails setup_calls with
  | Some c => Exit c
  | None => Ok (fst (intern_setup_atoms t), snd (intern_setup_atoms t),
                spawnWindow_init (snd (intern_setup_atoms t)) procId wind)
  end.
Proof.
  unfold spawnWindow_setup, setup_calls, philError. cbn [find].
  destruct (intern_setup_atoms t) as [t' A]. cbn [fst snd].
  repeat (destruct (fails _); [reflexivity|]). reflexivity.
Qed.

(** C31 The window position of line 500 for the two processes of [main]:
    when [fork] succeeds the child gets [procId] 0 and the parent the
    child's pid, so for every pid Linux can give the [int] product does
    not wrap, the child's window is at x = 0 and the parent's at
    x = pid * 200, beside the child's only when the pid is 1. *)
Theorem main_window_x pid :
  0 < pid <= PID_MAX_LIMIT ->
  match main pid with
  | Ok ids => map window_x ids = [0; pid * 200] /\ pid * 200 < 2 ^ 31
  | _ => False
  end.
Proof.
  intros H. unfold PID_MAX_LIMIT in H. unfold main.
  rewrite (proj2 (Z.eqb_neq pid (-1))) by lia. cbn [map]. unfold window_x.
  rewrite !to_int_small by lia. split; [do 2 f_equal|]; lia.
Qed.

(** C14 The life cycle of a process: after a set-up in which no checked
    call fails, the first WM_DELETE_WINDOW message the loop handles
    ends it; whatever events follow are never handled, and the process
    frees its resources, destroys its window, closes the display and
    exits with status 0, having issued the requests of the set-up, of
    the events before the message and of the teardown, in that
    order. *)
Theorem spawnWindow_exits fails t procId wind pre v m post p rs :
  find fails setup_calls = None ->
  run_events (snd (intern_setup_atoms t)) wind pre
    (fst (spawnWindow_init (snd (intern_setup_atoms t)) procId wind)) = Ok (p, rs) ->
  continueEventLoop p = true ->
  message_type m = WM_PROTOCOLS (snd (intern_setup_atoms t)) ->
  to_ulong (l0 m) = WM_DELETE_WINDOW (snd (intern_setup_atoms t)) ->
  spawnWindow fails t procId wind (pre ++ (v, ClientMessage m) :: post) =
  Ok (Exited 0 (snd (spawnWindow_init (snd (intern_setup_atoms t)) procId wind) ++ rs ++
                teardown wind)).
Proof.
  intros Hf Hpre Hc Hm Hl. unfold spawnWindow. rewrite spawnWindow_setup_ok by exact Hf.
  destruct (spawnWindow_init (snd (intern_setup_atoms t)) procId wind) as [p0 rs0] eqn:Ei.
  cbn [fst snd] in *. rewrite (run_events_app _ _ _ _ _ _ _ Hpre). cbn [run_events].
  rewrite Hc, (handle_close _ _ _ _ _ Hm Hl), run_events_stopped by reflexivity.
  cbn. rewrite !app_nil_r. reflexivity.
Qed.

(** C15 A process ends only through WM_DELETE_WINDOW: whenever a run of
    [spawnWindow] has exited, its status is 0, one of the events it
    received was the closing message of the window manager, and its
    last requests are the teardown of lines 851-853. *)
Theorem spawnWindow_exit_only_by_close fails t procId wind evs st rs :
  spawnWindow fails t procId wind evs = Ok (Exited st rs) ->
  st = 0 /\ (exists v e, In (v, e) evs /\ is_close (snd (intern_setup_atoms t)) e = true) /\
  exists rs', rs = rs' ++ teardown wind.
Proof.
  unfold spawnWindow. destruct (spawnWindow_setup fails t procId wind) as [[[t' A] [p0 rs0]]| |] eqn:Es;
    [|discriminate ..].
  destruct (spawnWindow_setup_result _ _ _ _ _ _ _ Es) as [-> Hx]. injection Hx as Hp0 _.
  destruct (run_events _ wind evs p0) as [[p rs1]| |] eqn:Er; [|discriminate ..].
  destruct (continueEventLoop p) eqn:Hc; intros H; [discriminate|]. injection H as <- <-.
  split; [reflexivity|]. split.
  - apply (run_events_stop_close _ _ _ _ _ _ Er); [subst p0; reflexivity | exact Hc].
  - exists (rs0 ++ rs1). rewrite app_assoc. reflexivity.
Qed.

(** ** Witnesses *)

Lemma main_window_x_witness :
  match main 1234 with
  | Ok ids => map window_x ids = [0; 1234 * 200] /\ 1234 * 200 < 2 ^ 31
  | _ => False
  end.
Proof. apply main_window_x. unfold PID_MAX_LIMIT. lia. Defined.

(** Window 200 of the examples of [Peer], set up on a server with only
    the predefined atoms, redrawn, closed, and sent one more event. *)
Definition ex_events : list (XView * XEvent) :=
  [(ex_view, Expose)] ++ (ex_view, ClientMessage ex_close) :: [(ex_view, Expose)].

Lemma spawnWindow_exits_witness :
  exists p rs,
    run_events (snd (intern_setup_atoms predefined_atoms)) 200 [(ex_view, Expose)]
      (fst (spawnWindow_init (snd (intern_setup_atoms predefined_atoms)) 1 200)) = Ok (p, rs) /\
    spawnWindow (fun _ => false) predefined_atoms 1 200 ex_events =
    Ok (Exited 0 (snd (spawnWindow_init (snd (intern_setup_atoms predefined_atoms)) 1 200) ++ rs ++
                  teardown 200)).
Proof.
  destruct (run_events (snd (intern_setup_atoms predefined_atoms)) 200 [(ex_view, Expose)]
              (fst (spawnWindow_init (snd (intern_setup_atoms predefined_atoms)) 1 200)))
    as [[p rs]| w | w] eqn:E; [| vm_compute in E; discriminate ..].
  exists p, rs. split; [reflexivity|].
  apply (spawnWindow_exits (fun _ => false) predefined_atoms 1 200 [(ex_view, Expose)] ex_view
           ex_close [(ex_view, Expose)] p rs eq_refl E);
    [vm_compute in E; injection E as <- _; reflexivity | vm_compute; reflexivity ..].
Defined.

Lemma spawnWindow_exit_only_by_close_witness :
  exists st rs,
    spawnWindow (fun _ => false) predefined_atoms 1 200 ex_events = Ok (Exited st rs) /\
    (st = 0 /\ (exists v e, In (v, e) ex_events /\
                            is_close (snd (intern_setup_atoms predefined_atoms)) e = true) /\
     exists rs', rs = rs' ++ teardown 200).
Proof.
  destruct (spawnWindow (fun _ => false) predefined_atoms 1 200 ex_events)
    as [[p rs | st rs]| w | w] eqn:E; [vm_compute in E; discriminate | | vm_compute in E; discriminate ..].
  exists st, rs. split; [reflexivity|]. exact (spawnWindow_exit_only_by_close _ _ _ _ _ _ _ E).
Defined.
