(* ===== verification/System.v ===== *)
(** * Two or more copies of the program and the X server

    The processes [main] forks (src/main.c) each run [spawnWindow]
    (src/spawn_window.c): its set-up (lines 440-541, [Process]) gives the
    initial process state and the first requests ([spawnWindow_init]);
    its event loop is [handle_event] of [Peer]; when the loop ends the
    teardown destroys the window.  The processes share only the X
    server, modelled here as the environment of the code: one event
    queue per window, the window properties, the owner of XdndSelection,
    the pointer, and the files of the machine.  A system step either
    lets the environment (the user) put an input event into a queue, or
    lets one process take the first event of its queue, handle it
    against the current server, and have the server carry out the
    requests it issued, in order.  [XSendEvent] of a format-32
    ClientMessage goes over the 32-bit wire ([wire_cm]);
    [XConvertSelection] becomes a SelectionRequest to the selection's
    owner, or a SelectionNotify with property None when it has none.

    The theorems hold of every system reachable from the set-up; the
    end-to-end scenarios of the spec (A: a complete drop; C:
    retargeting) are test runs of this system on fixed schedules, on a
    desktop with the windows side by side. *)

From Stdlib Require Import ZArith List String Bool Lia.
From S2P Require Import Prelude XTypes Intern Codec Negotiate Payload HitTest Session Peer Process.
Import ListNotations.
Open Scope Z_scope.

(** ** The server *)

Record Proc := {
  pr_window : Window;
  pr_peer : Peer;
  pr_queue : list XEvent
}.

Record Server := {
  sv_props : list ((Window * Atom) * PropVal);
  sv_owner : Window;
  sv_files : list (string * list Z);
  sv_pointer : Z * Z;
  sv_log : list (Window * XEvent);
  sv_fails : list string
}.

Record Sys := {
  s_procs : list Proc;
  s_server : Server
}.

Section Server.
Context (A : Atoms) (tree : WTree).

Definition prop_lookup (props : list ((Window * Atom) * PropVal)) (w : Window) (a : Atom)
  : option PropVal :=
  match find (fun e => (fst (fst e) =? w) && (snd (fst e) =? a)) props with
  | Some (_, p) => Some p
  | None => None
  end.

Definition prop_remove (props : list ((Window * Atom) * PropVal)) (w : Window) (a : Atom) :=
  filter (fun e => negb ((fst (fst e) =? w) && (snd (fst e) =? a))) props.

(** The properties of the windows other than [w]: [XDestroyWindow]
    deletes those of [w]. *)
Definition props_without (props : list ((Window * Atom) * PropVal)) (w : Window) :=
  filter (fun e => negb (fst (fst e) =? w)) props.

Definition file_lookup (files : list (string * list Z)) (path : string) : option (list Z) :=
  match find (fun e => String.eqb (fst e) path) files with
  | Some (_, bs) => Some bs
  | None => None
  end.

(** The origin of a top-level window on the root window. *)
Definition origin (w : Window) : Z * Z :=
  match find (fun c => wt_window c =? w) (wt_children tree) with
  | Some c => (wt_x c, wt_y c)
  | None => (0, 0)
  end.

(** What a handler of window [w] reads: [XQueryPointer] answers the
    pointer relative to [w]. *)
Definition view_of (sv : Server) (w : Window) : XView :=
  {| v_tree := tree;
     v_prop := prop_lookup (sv_props sv);
     v_pointer := (fst (sv_pointer sv) - fst (origin w), snd (sv_pointer sv) - snd (origin w));
     v_read_file := file_lookup (sv_files sv);
     v_fails := fun name => existsb (String.eqb name) (sv_fails sv) |}.

(** Events as they reach the receiving client. *)
Definition on_wire (ev : XEvent) : XEvent :=
  match ev with
  | ClientMessage m => ClientMessage (wire_cm m)
  | _ => ev
  end.

Definition deliver (s : Sys) (dest : Window) (ev : XEvent) : Sys :=
  {| s_procs := map (fun pr => if pr_window pr =? dest
                               then {| pr_window := pr_window pr; pr_peer := pr_peer pr;
                                       pr_queue := pr_queue pr ++ [ev] |}
                               else pr) (s_procs s);
     s_server := let sv := s_server s in
                 {| sv_props := sv_props sv; sv_owner := sv_owner sv;
                    sv_files := sv_files sv; sv_pointer := sv_pointer sv;
                    sv_log := sv_log sv ++ [(dest, ev)]; sv_fails := sv_fails sv |} |}.

Definition with_server (s : Sys) (f : Server -> Server) : Sys :=
  {| s_procs := s_procs s; s_server := f (s_server s) |}.

Definition set_props (props : list ((Window * Atom) * PropVal)) (sv : Server) : Server :=
  {| sv_props := props; sv_owner := sv_owner sv; sv_files := sv_files sv;
     sv_pointer := sv_pointer sv; sv_log := sv_log sv; sv_fails := sv_fails sv |}.

Definition set_owner (o : Window) (sv : Server) : Server :=
  {| sv_props := sv_props sv; sv_owner := o; sv_files := sv_files sv;
     sv_pointer := sv_pointer sv; sv_log := sv_log sv; sv_fails := sv_fails sv |}.

Definition set_files (files : list (string * list Z)) (sv : Server) : Server :=
  {| sv_props := sv_props sv; sv_owner := sv_owner sv; sv_files := files;
     sv_pointer := sv_pointer sv; sv_log := sv_log sv; sv_fails := sv_fails sv |}.

Definition set_pointer (pt : Z * Z) (sv : Server) : Server :=
  {| sv_props := sv_props sv; sv_owner := sv_owner sv; sv_files := sv_files sv;
     sv_pointer := pt; sv_log := sv_log sv; sv_fails := sv_fails sv |}.

(** The library calls that fail from now on. *)
Definition set_fails (fails : list string) (sv : Server) : Server :=
  {| sv_props := sv_props sv; sv_owner := sv_owner sv; sv_files := sv_files sv;
     sv_pointer := sv_pointer sv; sv_log := sv_log sv; sv_fails := fails |}.

(** The owner of a selection: only XdndSelection is ever owned. *)
Definition owner_of (sv : Server) (sel : Atom) : Window :=
  if sel =? XdndSelection A then sv_owner sv else XNone.

(** The server carrying out one request. *)
Definition apply_req (s : Sys) (rq : XRequest) : Sys :=
  let sv := s_server s in
  match rq with
  | ReqSendEvent dest ev => deliver s dest (on_wire ev)
  | ReqChangeProperty w prop ty fmt items =>
      with_server s (set_props (((w, prop), {| p_type := ty; p_format := fmt; p_items := items |})
                                  :: prop_remove (sv_props sv) w prop))
  | ReqDeleteProperty w prop => with_server s (set_props (prop_remove (sv_props sv) w prop))
  | ReqSetSelectionOwner sel o _ =>
      if sel =? XdndSelection A then with_server s (set_owner o) else s
  | ReqConvertSelection sel target prop requestor time =>
      let o := owner_of sv sel in
      if o =? XNone then
        deliver s requestor (SelectionNotify {| sn_requestor := requestor; sn_selection := sel;
                                                sn_target := target; sn_property := XNone;
                                                sn_time := time |})
      else
        deliver s o (SelectionRequest {| sr_owner := o; sr_requestor := requestor;
                                         sr_selection := sel; sr_target := target;
                                         sr_property := prop; sr_time := time |})
  | ReqWriteFile path bytes =>
      with_server s (set_files ((path, bytes) :: sv_files sv))
  | ReqDestroyWindow w =>
      with_server (with_server s (set_props (props_without (sv_props sv) w)))
        (set_owner (if sv_owner sv =? w then XNone else sv_owner sv))
  | ReqSetForeground _ | ReqDraw _ | ReqFreeGC | ReqCloseDisplay
  | ReqCreateWindow _ _ _ _ _ _ _ _ | ReqSelectInput _ _ | ReqMapWindow _ | ReqCreateGC _
  | ReqSetBackground _ => s
  end.

Definition apply_reqs (s : Sys) (rs : list XRequest) : Sys := fold_left apply_req rs s.

Definition find_proc (s : Sys) (w : Window) : option Proc :=
  find (fun pr => pr_window pr =? w) (s_procs s).

Definition set_proc (s : Sys) (w : Window) (p : Peer) (q : list XEvent) : Sys :=
  {| s_procs := map (fun pr => if pr_window pr =? w
                               then {| pr_window := w; pr_peer := p; pr_queue := q |}
                               else pr) (s_procs s);
     s_server := s_server s |}.

(** Process [w] takes the first event of its queue: [None] when there
    is no such process, its queue is empty or its loop has ended.  A
    handler that ends the loop is followed by the teardown of
    [spawnWindow] (lines 851-857). *)
Definition run_proc (s : Sys) (w : Window) : option (outcome Sys) :=
  match find_proc s w with
  | Some {| pr_peer := p; pr_queue := e :: rest |} =>
      if negb (continueEventLoop p) then None else
      Some (match handle_event A w (view_of (s_server s) w) e p with
            | Ok (_, p', rs) =>
                Ok (apply_reqs (set_proc s w p' rest)
                      (if continueEventLoop p' then rs else rs ++ teardown w))
            | Exit what => Exit what
            | Undefined what => Undefined what
            end)
  | _ => None
  end.

(** The environment puts an input event in the queue of window [w],
    the pointer being at [pt] on the root window. *)
Definition input (s : Sys) (w : Window) (pt : Z * Z) (ev : XEvent) : Sys :=
  deliver (with_server s (set_pointer pt)) w ev.

(** A schedule: inputs and the turns of the processes. *)
Inductive Action :=
| Input (w : Window) (pt : Z * Z) (ev : XEvent)
| Run (w : Window).

Fixpoint run_schedule (s : Sys) (sched : list Action) : option (outcome Sys) :=
  match sched with
  | [] => Some (Ok s)
  | Input w pt ev :: rest => run_schedule (input s w pt ev) rest
  | Run w :: rest =>
      match run_proc s w with
      | Some (Ok s') => run_schedule s' rest
      | Some (Exit what) => Some (Exit what)
      | Some (Undefined what) => Some (Undefined what)
      | None => None
      end
  end.

(** The system after the set-up of each process [(window, procId)]. *)
Definition sys_init (procs : list (Window * Z)) : Sys :=
  let s0 := {| s_procs := map (fun wp => {| pr_window := fst wp;
                                             pr_peer := fst (spawnWindow_init A (snd wp) (fst wp));
                                             pr_queue := [] |}) procs;
               s_server := {| sv_props := []; sv_owner := XNone; sv_files := [];
                              sv_pointer := (0, 0); sv_log := []; sv_fails := [] |} |} in
  fold_left (fun s wp => apply_reqs s (snd (spawnWindow_init A (snd wp) (fst wp)))) procs s0.

(** A system step, as a relation. *)
Inductive sys_step : Sys -> Sys -> Prop :=
| st_input s w pt ev : sys_step s (input s w pt ev)
| st_run s w s' : run_proc s w = Some (Ok s') -> sys_step s s'.

End Server.

(** ** Scenarios *)

(** Top-level windows side by side, window [w] of process [procId] at
    [window_x procId] (the processes with [procId] 0, 1, 2 stand for the
    child of the [fork] and parents whose [procId] is small). *)
Definition desktop (ws : list (Window * Z)) : WTree :=
  WNode 1 0 0 1000 1000 (map (fun wp => WNode (fst wp) (window_x (snd wp)) 0 200 200 []) ws).

(** A motion of the pointer, grabbed by the window it started in, to
    [(x, y)] on the root window; window 100 sits at the origin. *)
Definition motion_at (x y t : Z) : XMotionEvent :=
  {| mo_x := x; mo_y := y; mo_x_root := x; mo_y_root := y; mo_time := t |}.

Definition two_windows : list (Window * Z) := [(100, 0); (200, 1)].
Definition three_windows : list (Window * Z) := [(100, 0); (200, 1); (300, 2)].

(** Spec scenario A: window 100 (the visible square, optionally after
    key 'a' turned it blue) drags its square onto window 200 and drops
    it there; each process takes its events as they arrive. *)
Definition scenario_A (blue_first : bool) : list Action :=
  (if blue_first then [Input 100 (30, 30) (KeyRelease 38); Run 100] else []) ++
  [Input 100 (30, 30) (ButtonPress 30 30); Run 100;
   Input 100 (201, 50) LeaveNotify; Run 100;
   Input 100 (250, 50) (MotionNotify (motion_at 250 50 1000)); Run 100;
   Run 200; Run 200; Run 100;
   Input 100 (250, 50) (ButtonRelease 250 50); Run 100;
   Run 200; Run 100; Run 200; Run 100].

(** The drop has completed: both sessions are reset, both queues are
    empty, the square has left [src] and is shown by [tgt] in colour
    [c]. *)
Definition drop_completed (s : Sys) (src tgt : Window) (c : SquareColour) : bool :=
  match find_proc s src, find_proc s tgt with
  | Some ps, Some pt =>
      session_invb (xdndState (pr_peer ps)) && negb (xdndExchangeStarted (xdndState (pr_peer ps))) &&
      session_invb (xdndState (pr_peer pt)) && negb (xdndExchangeStarted (xdndState (pr_peer pt))) &&
      negb (visible (square (pr_peer ps))) && visible (square (pr_peer pt)) &&
      (colour (square (pr_peer pt)) =? c) &&
      (List.length (pr_queue ps) =? 0)%nat && (List.length (pr_queue pt) =? 0)%nat
  | _, _ => false
  end.

(** Spec scenario C: window 100 drags over window 200 and on to window
    300 before it reads the acknowledgment 200 sends; 200's stale
    XdndStatus then reaches 100, already negotiating with 300.  Then 100
    drops on 300. *)
Definition scenario_C_moves : list Action :=
  [Input 100 (30, 30) (ButtonPress 30 30); Run 100;
   Input 100 (201, 50) LeaveNotify; Run 100;
   Input 100 (250, 50) (MotionNotify (motion_at 250 50 1000)); Run 100;
   Input 100 (450, 50) (MotionNotify (motion_at 450 50 1100));
   Run 200; Run 200; Run 100; Run 100].

Definition scenario_C_rest : list Action :=
  [Run 200; Run 300; Run 300; Run 100;
   Input 100 (450, 50) (ButtonRelease 450 50); Run 100;
   Run 300; Run 100; Run 300; Run 100].

(** Whether window [w] is sent anything after an XdndLeave addressed to
    it, in the order the server delivered events. *)
Fixpoint sent_after_leave (leave_type : Atom) (w : Window) (log : list (Window * XEvent))
  : bool :=
  match log with
  | [] => false
  | (d, ClientMessage m) :: rest =>
      if (d =? w) && (message_type m =? leave_type)
      then existsb (fun e => fst e =? w) rest
      else sent_after_leave leave_type w rest
  | _ :: rest => sent_after_leave leave_type w rest
  end.

(** Whether window [from] ever sent an XdndStatus, by the log. *)
Definition status_sent_by (A : Atoms) (from : Window) (log : list (Window * XEvent)) : bool :=
  existsb (fun e => match snd e with
                    | ClientMessage m => (message_type m =? XdndStatus A) && (l0 m =? from)
                    | _ => false
                    end) log.

Definition sys_of (o : option (outcome Sys)) : option Sys :=
  match o with Some (Ok s) => Some s | _ => None end.

(** ** The system invariant *)

Definition peers (s : Sys) : list (Window * Peer) :=
  map (fun pr => (pr_window pr, pr_peer pr)) (s_procs s).

(** Every process's session satisfies [session_inv]. *)
Definition sys_inv (s : Sys) : Prop :=
  Forall (fun wp => session_inv (xdndState (snd wp))) (peers s).

(** The systems reachable from the set-up of the processes [ws]. *)
Inductive reachable (A : Atoms) (tree : WTree) (ws : list (Window * Z)) : Sys -> Prop :=
| r_init : reachable A tree ws (sys_init A ws)
| r_step s s' : reachable A tree ws s -> sys_step A tree s s' -> reachable A tree ws s'.

(** The server never changes a process's state: requests only move
    events and server data. *)
Lemma peers_deliver s d ev : peers (deliver s d ev) = peers s.
Proof.
  unfold peers, deliver; cbn. rewrite map_map. apply map_ext.
  intros pr. destruct (pr_window pr =? d); reflexivity.
Qed.

Lemma peers_apply_req A s rq : peers (apply_req A s rq) = peers s.
Proof.
  destruct rq; cbn; try reflexivity; try apply peers_deliver.
  - destruct (_ =? _); reflexivity.
  - destruct (_ =? XNone); apply peers_deliver.
Qed.

(** What every request keeps, the requests of a handler and the set-up
    of every process keep. *)
Section Kept.
Context {X : Type} (A : Atoms) (f : Sys -> X).
Hypothesis Hkept : forall s rq, f (apply_req A s rq) = f s.

Lemma kept_apply_reqs rs : forall s, f (apply_reqs A s rs) = f s.
Proof.
  induction rs as [|rq rs IH]; intros s; [reflexivity|].
  cbn. unfold apply_reqs in IH. rewrite IH. apply Hkept.
Qed.

Lemma kept_init ws : forall s,
  f (fold_left (fun s wp => apply_reqs A s (snd (spawnWindow_init A (snd wp) (fst wp)))) ws s)
  = f s.
Proof.
  induction ws as [|wp ws IH]; intros s; [reflexivity|]. cbn [fold_left]. rewrite IH.
  apply kept_apply_reqs.
Qed.
End Kept.

Lemma peers_apply_reqs A rs s : peers (apply_reqs A s rs) = peers s.
Proof. apply kept_apply_reqs. intros. apply peers_apply_req. Qed.

Lemma peers_set_proc s w p q :
  peers (set_proc s w p q) = map (fun wp => if fst wp =? w then (w, p) else wp) (peers s).
Proof.
  unfold peers, set_proc; cbn. rewrite !map_map. apply map_ext.
  intros pr. cbn. destruct (pr_window pr =? w); reflexivity.
Qed.

Lemma find_proc_peers s w pr :
  find_proc s w = Some pr -> In (pr_window pr, pr_peer pr) (peers s).
Proof.
  intros H. apply find_some in H as [Hin _]. unfold peers.
  apply in_map_iff. exists pr. split; [reflexivity | exact Hin].
Qed.

#[export] Hint Rewrite peers_deliver peers_apply_req peers_apply_reqs peers_set_proc : xdnd_rw.

(** One step of the system keeps every session invariant. *)
Lemma sys_step_inv A tree s s' :
  atoms_wf A -> sys_inv s -> sys_step A tree s s' -> sys_inv s'.
Proof.
  intros HA Hi Hs. destruct Hs as [s w pt ev | s w s' Hrun].
  - unfold sys_inv, input in *. rewrite peers_deliver. exact Hi.
  - unfold run_proc in Hrun.
    destruct (find_proc s w) as [[w0 p [|e rest]]|] eqn:Hf; try discriminate.
    destruct (negb (continueEventLoop p)); [discriminate|].
    destruct (handle_event A w _ e p) as [[[a p'] rs]| |] eqn:Hh; try discriminate.
    injection Hrun as <-. apply find_proc_peers in Hf. cbn in Hf.
    unfold sys_inv in *. autorewrite with xdnd_rw.
    rewrite Forall_forall in Hi |- *. intros wp Hwp.
    apply in_map_iff in Hwp as [wp0 [<- Hin]].
    destruct (fst wp0 =? w); [|apply Hi, Hin].
    exact (xevent_inv _ _ (Hi _ Hf) (handle_event_xevent _ _ _ _ _ _ _ _ HA Hh)).
Qed.

Lemma sys_init_inv A ws : sys_inv (sys_init A ws).
Proof.
  unfold sys_init, sys_inv.
  rewrite (kept_init A peers (peers_apply_req A)). unfold peers. cbn. rewrite map_map.
  apply Forall_forall. intros wp Hin. apply in_map_iff in Hin as [x [<- _]].
  reflexivity.
Qed.

(** ** Closing a window *)

Lemma prop_lookup_without props w a : prop_lookup (props_without props w) w a = None.
Proof.
  unfold prop_lookup, props_without.
  induction props as [|[[w0 a0] pv] props IH]; [reflexivity|]. cbn.
  destruct (w0 =? w) eqn:E; cbn; [exact IH|]. rewrite E. exact IH.
Qed.

Lemma find_set_proc s w p q :
  find_proc s w <> None ->
  find_proc (set_proc s w p q) w = Some {| pr_window := w; pr_peer := p; pr_queue := q |}.
Proof.
  unfold find_proc, set_proc. cbn. induction (s_procs s) as [|pr procs IH]; cbn; [congruence|].
  intros H. destruct (pr_window pr =? w) eqn:E; cbn; [rewrite Z.eqb_refl; reflexivity|].
  rewrite E. exact (IH H).
Qed.

(** The step of a process that handles the closing message: its
    session ends, then its teardown destroys its window. *)
Lemma run_proc_close A tree s w p q m :
  find_proc s w = Some {| pr_window := w; pr_peer := p; pr_queue := ClientMessage m :: q |} ->
  continueEventLoop p = true ->
  message_type m = WM_PROTOCOLS A -> to_ulong (l0 m) = WM_DELETE_WINDOW A ->
  run_proc A tree s w = Some (Ok (apply_reqs A (set_proc s w (stop_loop p) q) (teardown w))).
Proof.
  intros Hf Hc Hm Hl. unfold run_proc. rewrite Hf, Hc. cbn [negb].
  rewrite (handle_close _ _ _ _ _ Hm Hl). reflexivity.
Qed.

(** ** The set-up seen by the other processes *)

Definition aware_prop (A : Atoms) : PropVal :=
  {| p_type := XA_ATOM A; p_format := 32; p_items := [XDND_PROTOCOL_VERSION] |}.

Lemma prop_lookup_remove props w a w' a' :
  (w' =? w) && (a' =? a) = false ->
  prop_lookup (prop_remove props w a) w' a' = prop_lookup props w' a'.
Proof.
  intros Hne. unfold prop_lookup, prop_remove.
  induction props as [|[[w0 a0] pv] props IH]; [reflexivity|]. cbn.
  destruct ((w0 =? w) && (a0 =? a)) eqn:E0; cbn.
  - destruct ((w0 =? w') && (a0 =? a')) eqn:E1; [|exact IH].
    exfalso. zbool. apply andb_false_iff in Hne as [Hn|Hn]; zbool; congruence.
  - destruct ((w0 =? w') && (a0 =? a')); [reflexivity | exact IH].
Qed.

Lemma prop_lookup_cons k v props w a :
  prop_lookup ((k, v) :: props) w a =
  if (fst k =? w) && (snd k =? a) then Some v else prop_lookup props w a.
Proof. destruct k as [w0 a0]. unfold prop_lookup. cbn. destruct (w0 =? w), (a0 =? a); reflexivity. Qed.

Definition protocols_prop (A : Atoms) : PropVal :=
  {| p_type := XA_ATOM_predefined; p_format := 32; p_items := [WM_DELETE_WINDOW A] |}.

(** [XChangeProperty] in mode Replace, read back. *)
Lemma prop_lookup_set props w a pv w' a' :
  prop_lookup (((w, a), pv) :: prop_remove props w a) w' a' =
  if (w =? w') && (a =? a') then Some pv else prop_lookup props w' a'.
Proof.
  rewrite prop_lookup_cons. cbn [fst snd].
  destruct ((w =? w') && (a =? a')) eqn:E; [reflexivity|].
  apply prop_lookup_remove. rewrite (Z.eqb_sym w'), (Z.eqb_sym a'). exact E.
Qed.

(** The three properties the set-up writes on its window: WM_NAME,
    XdndAware and WM_PROTOCOLS, in that order. *)
Lemma init_props A s pid w0 :
  sv_props (s_server (apply_reqs A s (snd (spawnWindow_init A pid w0)))) =
  ((w0, WM_PROTOCOLS A), protocols_prop A) ::
  prop_remove (((w0, XdndAware A), aware_prop A) ::
               prop_remove (((w0, XA_WM_NAME), {| p_type := XA_STRING; p_format := 8;
                                                  p_items := bytes_of_string (procStr pid) |}) ::
                            prop_remove (sv_props (s_server s)) w0 XA_WM_NAME)
                 w0 (XdndAware A)) w0 (WM_PROTOCOLS A).
Proof. reflexivity. Qed.

Lemma init_lookup_aware A s pid w0 w' :
  atoms_wf A ->
  prop_lookup (sv_props (s_server (apply_reqs A s (snd (spawnWindow_init A pid w0))))) w' (XdndAware A)
  = if w0 =? w' then Some (aware_prop A) else prop_lookup (sv_props (s_server s)) w' (XdndAware A).
Proof.
  intros HA. pose proof HA as (_ & _ & _ & _ & _ & _ & _ & _ & _ & Hne).
  rewrite init_props, !prop_lookup_set, (proj2 (Z.eqb_neq _ _) (not_eq_sym Hne)), Z.eqb_refl,
    !andb_false_r, !andb_true_r.
  destruct (w0 =? w'); reflexivity.
Qed.

Lemma init_lookup_protocols A s pid w0 w' :
  prop_lookup (sv_props (s_server (apply_reqs A s (snd (spawnWindow_init A pid w0))))) w' (WM_PROTOCOLS A)
  = if w0 =? w' then Some (protocols_prop A)
    else prop_lookup (sv_props (s_server s)) w' (WM_PROTOCOLS A).
Proof.
  rewrite init_props, prop_lookup_set, Z.eqb_refl, andb_true_r.
  destruct (w0 =? w') eqn:E; [reflexivity|]. rewrite !prop_lookup_set, E. reflexivity.
Qed.

Lemma fails_apply_req A s rq : sv_fails (s_server (apply_req A s rq)) = sv_fails (s_server s).
Proof. destruct rq; cbn; repeat (case_ifs; cbn); reflexivity. Qed.

(** No library call fails during the set-up the model keeps. *)
Lemma sys_init_fails A ws : sv_fails (s_server (sys_init A ws)) = [].
Proof.
  unfold sys_init. rewrite (kept_init A (fun s => sv_fails (s_server s)) (fails_apply_req A)).
  reflexivity.
Qed.

(** After the set-up of the processes [done], each of their windows
    carries the property [a] every set-up writes on its own window. *)
Lemma init_fold_prop A a pv
  (Hstep : forall s pid w0 w',
     prop_lookup (sv_props (s_server (apply_reqs A s (snd (spawnWindow_init A pid w0))))) w' a
     = if w0 =? w' then Some pv else prop_lookup (sv_props (s_server s)) w' a) ws :
  forall s done,
  (forall w, In w done -> prop_lookup (sv_props (s_server s)) w a = Some pv) ->
  forall w, In w (done ++ map fst ws) ->
  prop_lookup (sv_props (s_server (fold_left (fun s wp => apply_reqs A s
     (snd (spawnWindow_init A (snd wp) (fst wp)))) ws s))) w a = Some pv.
Proof.
  induction ws as [|[w0 pid] ws IH]; intros s done Hdone w Hw; cbn [fold_left].
  - rewrite app_nil_r in Hw. exact (Hdone w Hw).
  - assert (Hin : In w ((w0 :: done) ++ map fst ws)).
    { apply in_app_or in Hw. cbn in Hw |- *. destruct Hw as [Hw|[Hw|Hw]];
        [right; apply in_or_app; left | left | right; apply in_or_app; right]; exact Hw. }
    apply (IH _ (w0 :: done)); [|exact Hin].
    intros w' Hw'. rewrite Hstep. cbn [fst snd].
    destruct (w0 =? w') eqn:E; [reflexivity|].
    destruct Hw' as [-> | Hw']; [rewrite Z.eqb_refl in E; discriminate|].
    exact (Hdone w' Hw').
Qed.

Lemma sys_init_prop A a pv ws w pid
  (Hstep : forall s pid w0 w',
     prop_lookup (sv_props (s_server (apply_reqs A s (snd (spawnWindow_init A pid w0))))) w' a
     = if w0 =? w' then Some pv else prop_lookup (sv_props (s_server s)) w' a) :
  In (w, pid) ws -> prop_lookup (sv_props (s_server (sys_init A ws))) w a = Some pv.
Proof.
  intros Hin. unfold sys_init.
  apply (init_fold_prop A a pv Hstep ws _ [] (fun w' H => match H with end) w).
  apply in_map_iff. exists (w, pid). split; [reflexivity | exact Hin].
Qed.

(** ** End-to-end runs *)

(** Spec scenario A, end to end: two copies of the program started
    side by side; the user grabs the visible square of window 100 (of
    either colour), drags it onto window 200 and releases the button.
    Running each process on the events as they arrive, the square ends
    shown by window 200 in the colour it had in window 100, hidden in
    window 100, both sessions reset and both queues empty: XdndEnter,
    XdndPosition, XdndStatus, XdndDrop, the selection transfer through
    "/tmp/square.state" and XdndFinished all happen. *)
Example scenario_A_completes (blue_first : bool) :
  match sys_of (run_schedule std_atoms (desktop two_windows)
                  (sys_init std_atoms two_windows) (scenario_A blue_first)) with
  | Some s => drop_completed s 100 200 (if blue_first then BlueSquare else RedSquare) = true
  | None => False
  end.
Proof. destruct blue_first; vm_compute; reflexivity. Qed.

(** Spec scenario C, as a test run: a source that moves from window 200 to window
    300 sends XdndLeave to 200 and then nothing more to it, and the drop
    completes at 300. *)
Example scenario_C_retarget :
  match sys_of (run_schedule std_atoms (desktop three_windows)
                  (sys_init std_atoms three_windows) (scenario_C_moves ++ scenario_C_rest)) with
  | Some s => drop_completed s 100 300 RedSquare = true /\
              sent_after_leave (XdndLeave std_atoms) 200 (sv_log (s_server s)) = false
  | None => False
  end.
Proof. vm_compute. split; reflexivity. Qed.

(** Spec scenario A on a machine where the square file cannot be
    created: the source answers the target's XConvertSelection in its
    SelectionRequest handler, [saveSquareState] finds [fopen] failing
    and [philError("fopen")] ends the run; no drop completes. *)
Example scenario_A_fopen_fails (blue_first : bool) :
  run_schedule std_atoms (desktop two_windows)
    (with_server (sys_init std_atoms two_windows) (set_fails ["fopen"%string]))
    (scenario_A blue_first) = Some (Exit "fopen"%string).
Proof. destruct blue_first; vm_compute; reflexivity. Qed.

(** A stale acknowledgment is taken for the new target's: in
    scenario C the XdndStatus window 200 sent before the source moved on
    reaches the source, which records it as the acknowledgment of window
    300 (the source does not compare the sender with its peer), though
    300 has sent no XdndStatus; from then on the source sends 300 no
    more positions. *)
Example stale_status_acks :
  match sys_of (run_schedule std_atoms (desktop three_windows)
                  (sys_init std_atoms three_windows) scenario_C_moves) with
  | Some s =>
      match find_proc s 100 with
      | Some pr => otherWindow (xdndState (pr_peer pr)) = 300 /\
                   xdndStatusReceived (xdndState (pr_peer pr)) = true /\
                   status_sent_by std_atoms 300 (sv_log (s_server s)) = false
      | None => False
      end
  | None => False
  end.
Proof. vm_compute. repeat split. Qed.

(** C5 System invariant: in every system reachable from the set-up of
    the processes, by inputs and by processes handling their events,
    every process's session satisfies the session invariant. *)
Theorem reachable_sys_inv A tree ws s :
  atoms_wf A -> reachable A tree ws s -> sys_inv s.
Proof.
  intros HA Hr. induction Hr as [|s s' Hr IH Hs].
  - apply sys_init_inv.
  - exact (sys_step_inv A tree s s' HA IH Hs).
Qed.

(** A schedule run from a reachable system ends in a reachable system. *)
Lemma run_schedule_reachable A tree ws sched : forall s s',
  reachable A tree ws s -> run_schedule A tree s sched = Some (Ok s') -> reachable A tree ws s'.
Proof.
  induction sched as [|[w pt ev | w] rest IH]; cbn; intros s s' Hr H.
  - injection H as <-. exact Hr.
  - exact (IH _ _ (r_step _ _ _ _ _ Hr (st_input A tree s w pt ev)) H).
  - destruct (run_proc A tree s w) as [[s0| |]|] eqn:E; try discriminate.
    exact (IH _ _ (r_step _ _ _ _ _ Hr (st_run A tree s w s0 E)) H).
Qed.

(** The session of every process of a reachable system satisfies the
    session invariant. *)
Lemma reachable_peer_inv A tree ws s w p :
  atoms_wf A -> reachable A tree ws s -> In (w, p) (peers s) -> session_inv (xdndState p).
Proof.
  intros HA Hr Hin.
  assert (Hi : sys_inv s)
    by (clear Hin; induction Hr; [apply sys_init_inv | eapply sys_step_inv; eassumption]).
  exact (proj1 (Forall_forall _ _) Hi (w, p) Hin).
Qed.

(** C34 The drop message a source sends carries timestamp 0, whatever
    positions it sent: in every reachable system, a process that is the
    source of an exchange and has its acknowledgment sends, on the
    release of the button, XdndDrop with [l[2] = 0]; the source never
    records a position timestamp ([xdndLastPositionTimestamp] is
    written only by the target's handler, line 807), while the spec
    asks for the last position's timestamp. *)
Theorem source_drop_timestamp A tree ws s w p v x y :
  atoms_wf A -> reachable A tree ws s -> In (w, p) (peers s) ->
  v_fails v "XSendEvent"%string = false ->
  xdndExchangeStarted (xdndState p) = true -> amISource (xdndState p) = true ->
  xdndStatusReceived (xdndState p) = true ->
  exists p' rs,
    handle_event A w v (ButtonRelease x y) p =
      Ok (tt, p', ReqSendEvent (otherWindow (xdndState p))
                    (ClientMessage (xdndDrop_msg A w (otherWindow (xdndState p)) 0)) :: rs).
Proof.
  intros HA Hr Hin Hf Hs Hsrc Hst.
  exact (source_drop_timestamp_inv A w v x y p Hf (reachable_peer_inv A tree ws s w p HA Hr Hin)
           Hs Hsrc Hst).
Qed.

(** C17 Every process, once set up, is seen by every process as XDND
    aware at the version the code speaks: [hasCorrectXdndAwareProperty]
    reads the property of lines 517-519 back as 5, the version
    [sendXdndEnter] is then called with; and its window is registered
    with the window manager for WM_DELETE_WINDOW (line 522), the
    message that ends its loop, although XSetWMProtocols comes after
    XdndAware on the same window. *)
Theorem init_aware A tree ws w pid viewer :
  atoms_wf A -> In (w, pid) ws ->
  hasCorrectXdndAwareProperty A (view_of tree (s_server (sys_init A ws)) viewer) w
  = XDND_PROTOCOL_VERSION /\
  prop_lookup (sv_props (s_server (sys_init A ws))) w (WM_PROTOCOLS A) = Some (protocols_prop A).
Proof.
  intros HA Hin. split.
  - unfold hasCorrectXdndAwareProperty, view_of.
    cbn [v_prop v_fails]. rewrite sys_init_fails. cbn [existsb].
    rewrite (sys_init_prop A _ _ ws w pid (fun s pid w0 w' => init_lookup_aware A s pid w0 w' HA) Hin).
    reflexivity.
  - exact (sys_init_prop A _ _ ws w pid (init_lookup_protocols A) Hin).
Qed.

(** C18 Closing a window withdraws it from the protocol: once its
    process has handled the closing message of the window manager, the
    teardown has deleted the window's properties, so no process sees it
    as XDND aware any more (the version read is 0, and [sendXdndEnter]
    is not called for it), and the process handles no further event. *)
Theorem close_withdraws_aware A tree s w p q m s' viewer :
  find_proc s w = Some {| pr_window := w; pr_peer := p; pr_queue := ClientMessage m :: q |} ->
  message_type m = WM_PROTOCOLS A -> to_ulong (l0 m) = WM_DELETE_WINDOW A ->
  run_proc A tree s w = Some (Ok s') ->
  hasCorrectXdndAwareProperty A (view_of tree (s_server s') viewer) w = 0 /\
  run_proc A tree s' w = None.
Proof.
  intros Hf Hm Hl Hr.
  destruct (continueEventLoop p) eqn:Hc;
    [|unfold run_proc in Hr; rewrite Hf, Hc in Hr; discriminate].
  rewrite (run_proc_close _ _ _ _ _ _ _ Hf Hc Hm Hl) in Hr. injection Hr as Hs'.
  assert (Hf' : find_proc s' w = Some {| pr_window := w; pr_peer := stop_loop p; pr_queue := q |})
    by (rewrite <- Hs'; exact (find_set_proc s w (stop_loop p) q ltac:(congruence))).
  split.
  - rewrite <- Hs'. unfold hasCorrectXdndAwareProperty. cbn. rewrite prop_lookup_without.
    destruct (existsb _ _); reflexivity.
  - unfold run_proc. rewrite Hf'. destruct q; reflexivity.
Qed.

(** ** Witnesses *)

Lemma reachable_sys_inv_witness :
  sys_inv (sys_init std_atoms two_windows).
Proof.
  apply (reachable_sys_inv std_atoms (desktop two_windows) two_windows);
    [exact std_atoms_wf | apply r_init].
Defined.

Lemma init_aware_witness :
  hasCorrectXdndAwareProperty std_atoms
    (view_of (desktop two_windows) (s_server (sys_init std_atoms two_windows)) 100) 200
  = XDND_PROTOCOL_VERSION /\
  prop_lookup (sv_props (s_server (sys_init std_atoms two_windows))) 200 (WM_PROTOCOLS std_atoms)
  = Some (protocols_prop std_atoms).
Proof.
  apply (init_aware std_atoms (desktop two_windows) two_windows 200 1 100);
    [exact std_atoms_wf | cbn; tauto].
Defined.

(** The window manager closing window 200 of [two_windows]. *)
Definition ex_closed_sys : Sys :=
  input (sys_init std_atoms two_windows) 200 (0, 0) (ClientMessage ex_close).

Lemma close_withdraws_aware_witness :
  exists s', run_proc std_atoms (desktop two_windows) ex_closed_sys 200 = Some (Ok s') /\
    (hasCorrectXdndAwareProperty std_atoms (view_of (desktop two_windows) (s_server s') 100) 200 = 0 /\
     run_proc std_atoms (desktop two_windows) s' 200 = None).
Proof.
  destruct (run_proc std_atoms (desktop two_windows) ex_closed_sys 200) as [[s'| w | w]|] eqn:E;
    [| vm_compute in E; discriminate ..].
  exists s'. split; [reflexivity|].
  apply (close_withdraws_aware std_atoms (desktop two_windows) ex_closed_sys 200
           (fst (spawnWindow_init std_atoms 1 200)) [] ex_close s' 100);
    [vm_compute; reflexivity | reflexivity | reflexivity | exact E].
Defined.

(** Scenario A up to the acknowledgment: window 100 drags its square
    over window 200, which has answered its XdndPosition. *)
Definition scenario_A_acked : list Action :=
  [Input 100 (30, 30) (ButtonPress 30 30); Run 100;
   Input 100 (201, 50) LeaveNotify; Run 100;
   Input 100 (250, 50) (MotionNotify (motion_at 250 50 1000)); Run 100;
   Run 200; Run 200; Run 100].

Definition ex_acked_sys : Sys :=
  match sys_of (run_schedule std_atoms (desktop two_windows)
                  (sys_init std_atoms two_windows) scenario_A_acked) with
  | Some s => s
  | None => sys_init std_atoms two_windows
  end.

Definition ex_acked_source : Peer :=
  match find_proc ex_acked_sys 100 with
  | Some pr => pr_peer pr
  | None => ex_source
  end.

Lemma source_drop_timestamp_witness :
  exists p' rs,
    handle_event std_atoms 100 (view_of (desktop two_windows) (s_server ex_acked_sys) 100)
      (ButtonRelease 250 50) ex_acked_source =
      Ok (tt, p', ReqSendEvent (otherWindow (xdndState ex_acked_source))
                    (ClientMessage (xdndDrop_msg std_atoms 100
                                      (otherWindow (xdndState ex_acked_source)) 0)) :: rs).
Proof.
  apply (source_drop_timestamp std_atoms (desktop two_windows) two_windows ex_acked_sys);
    [ exact std_atoms_wf
    | apply (run_schedule_reachable std_atoms (desktop two_windows) two_windows scenario_A_acked
               (sys_init std_atoms two_windows)); [apply r_init | vm_compute; reflexivity]
    | vm_compute; left; reflexivity
    | vm_compute; reflexivity .. ].
Defined.
